(** * The shot-quality monitor of js/moondream-demo.js

    A shallow embedding of [ProductionMonitorWidget]: the landmark smoother,
    the local analyzers (orientation, talking, focus, lighting), the remote
    analyzers (presence, composition, scene context), the status aggregator
    [_monitors] and the throttled monitoring cycle.

    Conventions of the embedding
    - a JS number is an IEEE-754 binary64 value: [float], with the primitive
      operations of the kernel (same rounding as JS);
    - [Date.now()] is an integer number of milliseconds: [Z];
    - array indices and loop counters are [nat];
    - [this._monitors] is a JS object used as a map from key to monitor:
      [gmap string Monitor];
    - the widget is a record, every method is a function from widget to
      widget; what a method reads from the page, the clock or the media
      element is passed in an [Env];
    - an asynchronous call is recorded in [inflight] when it is dispatched;
      its callback is a function that runs on the widget as it is when the
      response arrives. *)

From Stdlib Require Import ZArith Floats Lia.
From stdpp Require Import gmap strings list fin_maps pretty.

Set Warnings "-inexact-float".

(** ** JS numbers *)

(** [if (v)] on a number: false for [0], [-0] and [NaN]. *)
Definition js_truthy (v : float) : bool :=
  negb (PrimFloat.eqb v 0) && negb (PrimFloat.is_nan v).

(** A loop counter used as a number. *)
Definition float_of_nat (n : nat) : float :=
  PrimFloat.of_uint63 (Uint63.of_Z (Z.of_nat n)).

(** An 8-bit channel of a [Uint8ClampedArray] used as a number. *)
Definition float_of_channel (c : Z) : float :=
  PrimFloat.of_uint63 (Uint63.of_Z c).

(** [Math.abs]. *)
Definition Math_abs (v : float) : float := PrimFloat.abs v.

(** [a.join(sep)] on an array of strings. *)
Fixpoint join (sep : string) (l : list string) : string :=
  match l with
  | [] => ""
  | [s] => s
  | s :: rest => s +:+ sep +:+ join sep rest
  end.

(** ** Landmarks *)

(** A landmark [{x, y, z}]; [z] may be missing. *)
Record Point := { lm_x : float; lm_y : float; lm_z : option float }.

(** A landmark array. [None] is an entry that is not an object ([null] or
    [undefined]); an index past the end reads as [undefined] too. *)
Abbreviation LandmarkFrame := (list (option Point)).

(** [frame[i]] when it is truthy. *)
Definition landmark_at (frame : LandmarkFrame) (i : nat) : option Point :=
  mjoin (frame !! i).

Module LANDMARKS.
Definition NOSE_TIP : nat := 1.
Definition LEFT_FACE : nat := 234.
Definition RIGHT_FACE : nat := 454.
Definition UPPER_LIP : nat := 13.
Definition LOWER_LIP : nat := 14.
Definition FOREHEAD : nat := 10.
Definition CHIN : nat := 152.
Definition LEFT_EYE : nat := 33.
Definition RIGHT_EYE : nat := 263.
End LANDMARKS.

(** ** The widget *)

(** The status card of a monitor in the page: the text of its
    [.moon-status-value] child and its class list. *)
Record Card := { valueText : string; classList : list string }.

(** One entry of [this._monitors]; [element] is attached by [render]. *)
Record Monitor := {
  enabled : bool;
  status : string;
  class : string;
  element : option Card
}.

Record TalkingState := { isTalking : bool; lastChange : Z }.

(** A face box of the detection response, normalized coordinates. *)
Record Box := { x_min : float; y_min : float; x_max : float; y_max : float }.

(** An asynchronous operation that was dispatched and has not completed:
    [this._faceMesh.send], [ApiClient.detect], [ApiClient.caption]. *)
Inductive Request := ReqFaceMesh | ReqDetect | ReqCaption.

Global Instance Request_eq_dec : EqDecision Request.
Proof. solve_decision. Defined.

Record Widget := {
  _monitors : gmap string Monitor;
  _faceMesh : bool;                 (* the FaceMesh instance was set up *)
  _cvReady : bool;
  _isMonitoring : bool;
  _monitorInterval : bool;          (* the periodic timer is armed *)
  _landmarkHistory : list LandmarkFrame;
  _talkingState : TalkingState;
  _lastMoonDreamCall : Z;
  _sceneText : string;              (* text of the scene description *)
  inflight : list Request           (* dispatched, not yet completed *)
}.

(** What [analyzeLighting] finds when it looks for pixels. *)
Inductive LightSource :=
| LightNone                         (* neither a playing video nor an image *)
| LightThrows                       (* drawImage / getImageData raises *)
| LightPixels (data : list (Z * Z * Z * Z)).  (* RGBA of every pixel *)

(** What [analyzeFocus] finds: no source, a source that cannot be read, or a
    source of [w] x [h] pixels and the value [stdDev.doubleAt(0, 0)] that the
    OpenCV pipeline returns on the 40 x 40 patch ([None] when the pipeline
    raises). *)
Inductive FocusSource :=
| FocusNone
| FocusThrows
| FocusFrame (w h : Z) (measured : option float).

(** What the methods read from outside the widget. *)
Record Env := {
  now : Z;                          (* Date.now() *)
  media : bool;                     (* this._media *)
  stream : bool;                    (* MediaCapture.stream *)
  video : bool;                     (* this._media.video *)
  currentImage : option string;     (* this._currentImage *)
  capture : string;                 (* MediaCapture.captureFrame(video) *)
  lighting : LightSource;
  focus : FocusSource
}.

Definition set_monitors (ms : gmap string Monitor) (w : Widget) : Widget :=
  {| _monitors := ms; _faceMesh := _faceMesh w; _cvReady := _cvReady w;
     _isMonitoring := _isMonitoring w; _monitorInterval := _monitorInterval w;
     _landmarkHistory := _landmarkHistory w; _talkingState := _talkingState w;
     _lastMoonDreamCall := _lastMoonDreamCall w; _sceneText := _sceneText w;
     inflight := inflight w |}.

Definition set_isMonitoring (b : bool) (w : Widget) : Widget :=
  {| _monitors := _monitors w; _faceMesh := _faceMesh w; _cvReady := _cvReady w;
     _isMonitoring := b; _monitorInterval := _monitorInterval w;
     _landmarkHistory := _landmarkHistory w; _talkingState := _talkingState w;
     _lastMoonDreamCall := _lastMoonDreamCall w; _sceneText := _sceneText w;
     inflight := inflight w |}.

Definition set_monitorInterval (b : bool) (w : Widget) : Widget :=
  {| _monitors := _monitors w; _faceMesh := _faceMesh w; _cvReady := _cvReady w;
     _isMonitoring := _isMonitoring w; _monitorInterval := b;
     _landmarkHistory := _landmarkHistory w; _talkingState := _talkingState w;
     _lastMoonDreamCall := _lastMoonDreamCall w; _sceneText := _sceneText w;
     inflight := inflight w |}.

Definition set_landmarkHistory (h : list LandmarkFrame) (w : Widget) : Widget :=
  {| _monitors := _monitors w; _faceMesh := _faceMesh w; _cvReady := _cvReady w;
     _isMonitoring := _isMonitoring w; _monitorInterval := _monitorInterval w;
     _landmarkHistory := h; _talkingState := _talkingState w;
     _lastMoonDreamCall := _lastMoonDreamCall w; _sceneText := _sceneText w;
     inflight := inflight w |}.

Definition set_talkingState (t : TalkingState) (w : Widget) : Widget :=
  {| _monitors := _monitors w; _faceMesh := _faceMesh w; _cvReady := _cvReady w;
     _isMonitoring := _isMonitoring w; _monitorInterval := _monitorInterval w;
     _landmarkHistory := _landmarkHistory w; _talkingState := t;
     _lastMoonDreamCall := _lastMoonDreamCall w; _sceneText := _sceneText w;
     inflight := inflight w |}.

Definition set_lastMoonDreamCall (t : Z) (w : Widget) : Widget :=
  {| _monitors := _monitors w; _faceMesh := _faceMesh w; _cvReady := _cvReady w;
     _isMonitoring := _isMonitoring w; _monitorInterval := _monitorInterval w;
     _landmarkHistory := _landmarkHistory w; _talkingState := _talkingState w;
     _lastMoonDreamCall := t; _sceneText := _sceneText w;
     inflight := inflight w |}.

Definition set_sceneText (s : string) (w : Widget) : Widget :=
  {| _monitors := _monitors w; _faceMesh := _faceMesh w; _cvReady := _cvReady w;
     _isMonitoring := _isMonitoring w; _monitorInterval := _monitorInterval w;
     _landmarkHistory := _landmarkHistory w; _talkingState := _talkingState w;
     _lastMoonDreamCall := _lastMoonDreamCall w; _sceneText := s;
     inflight := inflight w |}.

(** Dispatching an asynchronous call: it joins the calls in flight. *)
Definition dispatch (r : Request) (w : Widget) : Widget :=
  {| _monitors := _monitors w; _faceMesh := _faceMesh w; _cvReady := _cvReady w;
     _isMonitoring := _isMonitoring w; _monitorInterval := _monitorInterval w;
     _landmarkHistory := _landmarkHistory w; _talkingState := _talkingState w;
     _lastMoonDreamCall := _lastMoonDreamCall w; _sceneText := _sceneText w;
     inflight := inflight w ++ [r] |}.

(** The call [r] completes: it leaves the calls in flight. *)
Fixpoint remove_first (r : Request) (l : list Request) : list Request :=
  match l with
  | [] => []
  | r' :: rest => if decide (r = r') then rest else r' :: remove_first r rest
  end.

Definition complete (r : Request) (w : Widget) : Widget :=
  {| _monitors := _monitors w; _faceMesh := _faceMesh w; _cvReady := _cvReady w;
     _isMonitoring := _isMonitoring w; _monitorInterval := _monitorInterval w;
     _landmarkHistory := _landmarkHistory w; _talkingState := _talkingState w;
     _lastMoonDreamCall := _lastMoonDreamCall w; _sceneText := _sceneText w;
     inflight := remove_first r (inflight w) |}.

(** The constructor; [created] is [Date.now()] at construction. *)
Definition fresh_monitor : Monitor :=
  {| enabled := true; status := "N/A"; class := "disabled"; element := None |}.

Definition monitor_keys : list string :=
  ["orientation"; "talking"; "focus"; "lighting"; "presence"; "composition";
   "sceneContext"].

Definition ProductionMonitorWidget (created : Z) : Widget :=
  {| _monitors := list_to_map ((fun k => (k, fresh_monitor)) <$> monitor_keys);
     _faceMesh := false; _cvReady := false;
     _isMonitoring := false; _monitorInterval := false;
     _landmarkHistory := [];
     _talkingState := {| isTalking := false; lastChange := created |};
     _lastMoonDreamCall := 0;
     _sceneText := "";
     inflight := [] |}.

(** [render] attaches a card to each of the seven monitors (the rest of
    [render] builds the page); [setupFaceMesh] and the OpenCV loader of
    [initCV] set [_faceMesh] and [_cvReady] when the libraries arrive. *)
Definition fresh_card : Card :=
  {| valueText := "N/A";
     classList := ["moon-status-card"; "moon-status-disabled"] |}.

Definition attach_card (m : Monitor) : Monitor :=
  {| enabled := enabled m; status := status m; class := class m;
     element := Some fresh_card |}.

Definition render (faceMeshLoaded cvLoaded : bool) (w : Widget) : Widget :=
  {| _monitors := attach_card <$> _monitors w;
     _faceMesh := faceMeshLoaded; _cvReady := cvLoaded;
     _isMonitoring := _isMonitoring w; _monitorInterval := _monitorInterval w;
     _landmarkHistory := _landmarkHistory w; _talkingState := _talkingState w;
     _lastMoonDreamCall := _lastMoonDreamCall w;
     _sceneText := "Start monitoring to see AI scene analysis...";
     inflight := inflight w |}.

(** ** The status aggregator *)

(** [this._monitors.k.enabled]. The seven keys are created by the constructor
    and no method removes one (see [monitor_keys_kept]); a key that is not in
    the map reads as disabled here. *)
Definition monitor_enabled (key : string) (w : Widget) : bool :=
  match _monitors w !! key with
  | Some m => enabled m
  | None => false
  end.

Definition classList_add (c : string) (l : list string) : list string :=
  if decide (c ∈ l) then l else l ++ [c].

Definition classList_remove (cs : list string) (l : list string) : list string :=
  list_difference l cs.

Definition updateMonitorStatus (key status0 statusClass : string)
    (w : Widget) : Widget :=
  match _monitors w !! key with
  | None => w
  | Some monitor =>
      match element monitor with
      | None => w
      | Some card =>
          let card' :=
            {| valueText := status0;
               classList :=
                 classList_add ("moon-status-" +:+ statusClass)
                   (classList_remove
                      ["moon-status-good"; "moon-status-bad";
                       "moon-status-warning"; "moon-status-disabled"]
                      (classList card)) |} in
          set_monitors
            (<[key := {| enabled := enabled monitor; status := status0;
                         class := statusClass; element := Some card' |}]>
               (_monitors w)) w
      end
  end.

Definition toggleMonitor (key : string) (w : Widget) : Widget :=
  match _monitors w !! key with
  | None => w
  | Some monitor =>
      let en := negb (enabled monitor) in
      match element monitor with
      | None =>
          set_monitors
            (<[key := {| enabled := en; status := status monitor;
                         class := class monitor; element := None |}]>
               (_monitors w)) w
      | Some card =>
          if en then
            set_monitors
              (<[key := {| enabled := en; status := status monitor;
                           class := class monitor;
                           element :=
                             Some {| valueText := valueText card;
                                     classList :=
                                       classList_remove ["moon-status-off"]
                                         (classList card) |} |}]>
                 (_monitors w)) w
          else
            updateMonitorStatus key "OFF" "disabled"
              (set_monitors
                 (<[key := {| enabled := en; status := status monitor;
                              class := class monitor;
                              element :=
                                Some {| valueText := valueText card;
                                        classList :=
                                          classList_add "moon-status-off"
                                            (classList card) |} |}]>
                    (_monitors w)) w)
      end
  end.

(** ** The landmark smoother *)

Local Open Scope float_scope.
Local Notation "a >? b" := (PrimFloat.ltb b a) (at level 70) : float_scope.

(** The accumulators of the inner loop. *)
Record Sums := { sumX : float; sumY : float; sumZ : float; count : nat }.

Definition sums0 : Sums := {| sumX := 0; sumY := 0; sumZ := 0; count := 0 |}.

(** One turn of the loop over [j], for landmark index [i]. *)
Definition accumulate (i : nat) (s : Sums) (frame : LandmarkFrame) : Sums :=
  match landmark_at frame i with
  | Some p =>
      {| sumX := sumX s + lm_x p;
         sumY := sumY s + lm_y p;
         sumZ := match lm_z p with
                 | Some zv => if js_truthy zv then sumZ s + zv else sumZ s
                 | None => sumZ s
                 end;
         count := S (count s) |}
  | None => s
  end.

(** [push] then one [shift] when more than five frames are held. *)
Definition push_history (history : list LandmarkFrame) (newLandmarks : LandmarkFrame)
    : list LandmarkFrame :=
  let pushed := history ++ [newLandmarks] in
  if (5 <? length pushed)%nat then tail pushed else pushed.

(** The body of the loop over [i]. *)
Definition smoothed_point (history : list LandmarkFrame)
    (newLandmarks : LandmarkFrame) (i : nat) : option Point :=
  let s := foldl (accumulate i) sums0 history in
  if (0 <? count s)%nat then
    Some {| lm_x := sumX s / float_of_nat (count s);
            lm_y := sumY s / float_of_nat (count s);
            lm_z := Some (sumZ s / float_of_nat (count s)) |}
  else landmark_at newLandmarks i.

Definition smoothLandmarks (newLandmarks : LandmarkFrame) (w : Widget)
    : LandmarkFrame * Widget :=
  let history := push_history (_landmarkHistory w) newLandmarks in
  let numLandmarks := length newLandmarks in
  (smoothed_point history newLandmarks <$> seq 0 numLandmarks,
   set_landmarkHistory history w).

(** ** Local analyzers *)

Definition analyzeOrientation (landmarks : LandmarkFrame) (w : Widget) : Widget :=
  match landmark_at landmarks LANDMARKS.NOSE_TIP,
        landmark_at landmarks LANDMARKS.LEFT_FACE,
        landmark_at landmarks LANDMARKS.RIGHT_FACE with
  | Some nose, Some left_, Some right_ =>
      let noseToLeft := Math_abs (lm_x nose - lm_x left_) in
      let noseToRight := Math_abs (lm_x nose - lm_x right_) in
      let diff := Math_abs (noseToLeft - noseToRight) in
      if diff <=? 0.15 then updateMonitorStatus "orientation" "STRAIGHT" "good" w
      else
        let direction := if noseToLeft >? noseToRight then "LEFT" else "RIGHT" in
        updateMonitorStatus "orientation" direction "bad" w
  | _, _, _ => updateMonitorStatus "orientation" "ERROR" "warning" w
  end.

(** The raw measurement of [analyzeTalking]. *)
Definition lip_distance (upperLip lowerLip : Point) : float :=
  Math_abs (lm_y upperLip - lm_y lowerLip).

Definition analyzeTalking (landmarks : LandmarkFrame) (now0 : Z) (w : Widget)
    : Widget :=
  match landmark_at landmarks LANDMARKS.UPPER_LIP,
        landmark_at landmarks LANDMARKS.LOWER_LIP with
  | Some upperLip, Some lowerLip =>
      let distance := lip_distance upperLip lowerLip in
      let isTalking0 := distance >? 0.018 in
      let w1 :=
        if negb (eqb isTalking0 (isTalking (_talkingState w))) then
          if (now0 - lastChange (_talkingState w) >? 150)%Z then
            set_talkingState {| isTalking := isTalking0; lastChange := now0 |} w
          else w
        else w in
      if isTalking0 then updateMonitorStatus "talking" "TALKING" "good" w1
      else updateMonitorStatus "talking" "SILENT" "warning" w1
  | _, _ => updateMonitorStatus "talking" "ERROR" "warning" w
  end.

(** The thresholds at the end of [analyzeFocus]; [variance] is the name
    that the source gives to [stdDev.doubleAt(0, 0)]. *)
Definition focusStatus (variance : float) : string * string :=
  if variance >? 12 then ("SHARP", "good")
  else if variance >? 6 then ("OK", "warning")
  else ("BLURRY", "bad").

(** [cv] is defined whenever [_cvReady] was set, so the first test is on
    [_cvReady] alone. *)
Definition analyzeFocus (env : Env) (landmarks : LandmarkFrame) (w : Widget)
    : Widget :=
  if negb (_cvReady w) then updateMonitorStatus "focus" "CV N/A" "warning" w
  else
    match landmark_at landmarks LANDMARKS.LEFT_EYE,
          landmark_at landmarks LANDMARKS.RIGHT_EYE,
          landmark_at landmarks LANDMARKS.NOSE_TIP with
    | Some leftEye, Some rightEye, Some nose =>
        match focus env with
        | FocusNone => updateMonitorStatus "focus" "NO SOURCE" "warning" w
        | FocusThrows => updateMonitorStatus "focus" "CV ERROR" "warning" w
        | FocusFrame fw fh measured =>
            if ((fw =? 0) || (fh =? 0) || (fw <? 40) || (fh <? 40))%Z then
              updateMonitorStatus "focus" "WAITING" "warning" w
            else
              match measured with
              | Some variance =>
                  updateMonitorStatus "focus" (focusStatus variance).1
                    (focusStatus variance).2 w
              | None => updateMonitorStatus "focus" "CV ERROR" "warning" w
              end
        end
    | _, _, _ => updateMonitorStatus "focus" "NO DATA" "warning" w
    end.

(** The loop of [analyzeLighting] over the pixels, then the division. *)
Definition luminance (p : Z * Z * Z * Z) : float :=
  let '(r, g, b, _) := p in
  0.299 * float_of_channel r + 0.587 * float_of_channel g
  + 0.114 * float_of_channel b.

Definition avgBrightness (data : list (Z * Z * Z * Z)) : float :=
  let totalBrightness := foldl (fun total p => total + luminance p) 0 data in
  let pixelCount := float_of_nat (length data) in
  totalBrightness / pixelCount.

(** The thresholds of [analyzeLighting]. *)
Definition lightingStatus (avgBrightness0 : float) : string * string :=
  if avgBrightness0 <? 50 then ("DARK", "bad")
  else if avgBrightness0 <? 90 then ("DIM", "warning")
  else if avgBrightness0 >? 220 then ("OVEREXPOSED", "bad")
  else if avgBrightness0 >? 180 then ("BRIGHT", "warning")
  else ("GOOD", "good").

Definition analyzeLighting (env : Env) (w : Widget) : Widget :=
  match lighting env with
  | LightNone => updateMonitorStatus "lighting" "N/A" "disabled" w
  | LightThrows => updateMonitorStatus "lighting" "ERROR" "warning" w
  | LightPixels data =>
      updateMonitorStatus "lighting" (lightingStatus (avgBrightness data)).1
        (lightingStatus (avgBrightness data)).2 w
  end.

(** ** Remote analyzers *)

(** [WidgetBase.prototype.getCurrentFrame]. *)
Definition getCurrentFrame (env : Env) : option string :=
  if negb (media env) then None
  else if stream env && video env then Some (capture env)
  else currentImage env.

Definition faceWidth (face : Box) : float := x_max face - x_min face.
Definition faceHeight (face : Box) : float := y_max face - y_min face.
Definition centerX (face : Box) : float := (x_min face + x_max face) / 2.
Definition centerY (face : Box) : float := (y_min face + y_max face) / 2.

(** The array [issues] of the composition analyzer after its three checks. *)
Definition composition_issues (face : Box) : list string :=
  let issues := [] in
  let issues :=
    if (faceWidth face >? 0.5) || (faceHeight face >? 0.6)
    then issues ++ ["TOO CLOSE"]
    else if (faceWidth face <? 0.15) && (faceHeight face <? 0.2)
    then issues ++ ["TOO FAR"]
    else issues in
  let issues :=
    if centerX face <? 0.3 then issues ++ ["→ RIGHT"]
    else if centerX face >? 0.7 then issues ++ ["← LEFT"]
    else issues in
  let issues :=
    if centerY face <? 0.25 then issues ++ ["↓ DOWN"]
    else if centerY face >? 0.75 then issues ++ ["↑ UP"]
    else issues in
  issues.

(** The [then] callback of [ApiClient.detect(frame, 'face')], on
    [objects = response.objects || []]. Drawing the overlay touches the
    canvas only. *)
Definition detect_then (objects : list Box) (w : Widget) : Widget :=
  let w :=
    if monitor_enabled "presence" w then
      if (0 <? length objects)%nat
      then updateMonitorStatus "presence" "PRESENT" "good" w
      else updateMonitorStatus "presence" "ABSENT" "bad" w
    else w in
  if monitor_enabled "composition" w then
    match objects with
    | [] => updateMonitorStatus "composition" "NO FACE" "bad" w
    | face :: _ =>
        let issues := composition_issues face in
        if (length issues =? 0)%nat
        then updateMonitorStatus "composition" "GOOD" "good" w
        else updateMonitorStatus "composition" (join " " issues) "bad" w
    end
  else w.

(** The [catch] callback of the detection call. *)
Definition detect_catch (w : Widget) : Widget :=
  let w :=
    if monitor_enabled "presence" w
    then updateMonitorStatus "presence" "ERROR" "warning" w else w in
  if monitor_enabled "composition" w
  then updateMonitorStatus "composition" "ERROR" "warning" w else w.

(** The [then] callback of [ApiClient.caption(frame, 'normal')], on
    [response.caption] (the empty string when it is missing). *)
Definition caption_then (response_caption : string) (w : Widget) : Widget :=
  let caption :=
    if decide (response_caption = "") then "No description"
    else response_caption in
  let w := updateMonitorStatus "sceneContext" "UPDATED" "good" w in
  set_sceneText caption w.

(** The [catch] callback of the caption call. *)
Definition caption_catch (w : Widget) : Widget :=
  updateMonitorStatus "sceneContext" "ERROR" "warning" w.

Definition runMoonDreamAnalysis (env : Env) (w : Widget) : Widget :=
  match getCurrentFrame env with
  | None => w
  | Some frame =>
      let needsDetect :=
        monitor_enabled "presence" w || monitor_enabled "composition" w in
      let w := if needsDetect then dispatch ReqDetect w else w in
      if monitor_enabled "sceneContext" w then dispatch ReqCaption w else w
  end.

(** ** The scheduler *)

Definition runMonitoringCycle (env : Env) (w : Widget) : Widget :=
  if negb (_isMonitoring w) then w
  else
    let w :=
      if _faceMesh w && (media env && video env) && stream env
      then dispatch ReqFaceMesh w else w in
    let w :=
      if monitor_enabled "lighting" w then analyzeLighting env w else w in
    if (now env - _lastMoonDreamCall w >? 2000)%Z then
      runMoonDreamAnalysis env (set_lastMoonDreamCall (now env) w)
    else w.

(** The callback registered with [this._faceMesh.onResults], on
    [results.multiFaceLandmarks] (the empty list when it is missing). *)
Definition processFrameResults (env : Env)
    (multiFaceLandmarks : list LandmarkFrame) (w : Widget) : Widget :=
  if negb (_isMonitoring w) then w
  else
    match multiFaceLandmarks with
    | face0 :: _ =>
        let '(landmarks, w) := smoothLandmarks face0 w in
        let w :=
          if monitor_enabled "orientation" w
          then analyzeOrientation landmarks w else w in
        let w :=
          if monitor_enabled "talking" w
          then analyzeTalking landmarks (now env) w else w in
        if monitor_enabled "focus" w && _cvReady w
        then analyzeFocus env landmarks w else w
    | [] =>
        let w :=
          if monitor_enabled "orientation" w
          then updateMonitorStatus "orientation" "NO FACE" "bad" w else w in
        let w :=
          if monitor_enabled "talking" w
          then updateMonitorStatus "talking" "NO FACE" "bad" w else w in
        if monitor_enabled "focus" w
        then updateMonitorStatus "focus" "NO FACE" "bad" w else w
    end.

Definition startMonitoring (env : Env) (w : Widget) : Widget :=
  if negb (stream env) && negb (bool_decide (is_Some (currentImage env)))
  then w
  else
    let w := set_isMonitoring true w in
    let w :=
      foldl (fun w key =>
               if monitor_enabled key w
               then updateMonitorStatus key "Analyzing..." "warning" w
               else w)
            w monitor_keys in
    let w := runMonitoringCycle env w in
    set_monitorInterval true w.

Definition stopMonitoring (w : Widget) : Widget :=
  let w := set_isMonitoring false w in
  if _monitorInterval w then set_monitorInterval false w else w.

Definition toggleMonitoring (env : Env) (w : Widget) : Widget :=
  if _isMonitoring w then stopMonitoring w else startMonitoring env w.

(** ** The event loop *)

(** What an asynchronous call delivers when it completes. *)
Inductive Response :=
| FaceMeshResults (multiFaceLandmarks : list LandmarkFrame)
| FaceMeshError
| DetectResponse (objects : list Box)
| DetectError
| CaptionResponse (caption : string)
| CaptionError.

Definition request_of (r : Response) : Request :=
  match r with
  | FaceMeshResults _ | FaceMeshError => ReqFaceMesh
  | DetectResponse _ | DetectError => ReqDetect
  | CaptionResponse _ | CaptionError => ReqCaption
  end.

(** The callback that a response runs. A FaceMesh error is only logged. *)
Definition callback (env : Env) (r : Response) (w : Widget) : Widget :=
  match r with
  | FaceMeshResults faces => processFrameResults env faces w
  | FaceMeshError => w
  | DetectResponse objects => detect_then objects w
  | DetectError => detect_catch w
  | CaptionResponse caption => caption_then caption w
  | CaptionError => caption_catch w
  end.

Inductive Event :=
| ClickCard (key : string)          (* card.onclick: toggleMonitor(key) *)
| ClickStart                        (* the start / stop button *)
| Tick                              (* the 1500 ms interval timer fires *)
| Completion (r : Response).        (* a call in flight completes *)

(** One turn of the event loop; [None] when the event cannot happen (no
    timer armed, no such call in flight). *)
Definition step (env : Env) (e : Event) (w : Widget) : option Widget :=
  match e with
  | ClickCard key => Some (toggleMonitor key w)
  | ClickStart => Some (toggleMonitoring env w)
  | Tick => if _monitorInterval w then Some (runMonitoringCycle env w) else None
  | Completion r =>
      if decide (request_of r ∈ inflight w)
      then Some (callback env r (complete (request_of r) w))
      else None
  end.

Fixpoint run (events : list (Env * Event)) (w : Widget) : option Widget :=
  match events with
  | [] => Some w
  | (env, e) :: rest =>
      match step env e w with
      | Some w' => run rest w'
      | None => None
      end
  end.

(** ** Notions used by the statements *)

(** The widget of a running cycle when it reaches the throttle test: after
    the landmark pass was requested and the lighting analyzer ran. *)
Definition before_throttle (env : Env) (w : Widget) : Widget :=
  let w :=
    if _faceMesh w && (media env && video env) && stream env
    then dispatch ReqFaceMesh w else w in
  if monitor_enabled "lighting" w then analyzeLighting env w else w.

(** The calls to the remote service among the calls in flight. *)
Definition remote_calls (w : Widget) : list Request :=
  filter (fun r => r ≠ ReqFaceMesh) (inflight w).

(** A cycle issues a remote call when the remote calls in flight grow. *)
Definition issues_remote_call (env : Env) (w : Widget) : bool :=
  bool_decide (length (remote_calls w)
               < length (remote_calls (runMonitoringCycle env w)))%nat.

(** The number of cycles that issue a remote call, over consecutive cycles. *)
Fixpoint firing_cycles (envs : list Env) (w : Widget) : nat :=
  match envs with
  | [] => 0
  | env :: rest =>
      (if issues_remote_call env w then 1 else 0)%nat
      + firing_cycles rest (runMonitoringCycle env w)
  end.

(** [n] tick times, [period] ms apart, from [t0]. *)
Fixpoint spaced_ticks (n : nat) (period t0 : Z) : list Z :=
  match n with
  | O => []
  | S n' => t0 :: spaced_ticks n' period (t0 + period)
  end.

Definition ceil_div (a b : Z) : Z := (a + b - 1) / b.

(** The throttle alone: how many of the tick times [ts] pass the two tests of
    [runMonitoringCycle] (the liveness flag, the elapsed window), from the
    last call time [last]. *)
Fixpoint throttle_passes (monitoring : bool) (ts : list Z) (last : Z) : nat :=
  match ts with
  | [] => 0
  | t :: rest =>
      if monitoring && (t - last >? 2000)%Z
      then S (throttle_passes monitoring rest t)
      else throttle_passes monitoring rest last
  end.

(** The part of the widget that belongs to the scheduler; no analyzer and no
    callback writes it (see [callback_schedule]). *)
Definition schedule_of (w : Widget)
    : bool * bool * bool * bool * Z * list Request :=
  (_faceMesh w, _cvReady w, _isMonitoring w, _monitorInterval w,
   _lastMoonDreamCall w, inflight w).

(** What an observer [f] sees after a run of events from the widget [start]. *)
Definition observe {A : Type} (f : Widget → A) (start : Widget)
    (events : list (Env * Event)) : option A :=
  f <$> run events start.

(** The status and class that a monitor shows. *)
Definition shown (key : string) (w : Widget) : option (string * string) :=
  (fun m => (status m, class m)) <$> _monitors w !! key.

(** Every monitor shows N/A / disabled. *)
Definition all_reset (w : Widget) : Prop :=
  ∀ key m, _monitors w !! key = Some m →
    status m = "N/A" ∧ class m = "disabled".

(** The landmarks that the frames of a history define at index [i], oldest
    frame first. *)
Definition defined_at (history : list LandmarkFrame) (i : nat) : list Point :=
  omap (fun frame => landmark_at frame i) history.

(** Sum of a list of numbers, from 0, left to right. *)
Definition fsum (l : list float) : float := foldl PrimFloat.add 0 l.

(** The z components that enter the sum: a landmark without [z], or whose
    [z] is 0 or NaN, adds nothing. *)
Definition z_terms (pts : list Point) : list float :=
  omap (fun p => match lm_z p with
                 | Some zv => if js_truthy zv then Some zv else None
                 | None => None
                 end) pts.

(** The arithmetic mean of a list of numbers: their sum, from 0 and left to
    right, over their number. *)
Definition arithmetic_mean (l : list float) : float :=
  fsum l / float_of_nat (length l).

(** The z of a landmark as a number; a landmark without [z] has none, and
    arithmetic on it is not a number. *)
Definition z_number (p : Point) : float := default nan (lm_z p).

(** The mean that C5 states: the arithmetic mean of the landmarks [pts] in
    each of the three components. *)
Definition stated_mean_point (pts : list Point) : Point :=
  {| lm_x := arithmetic_mean (lm_x <$> pts);
     lm_y := arithmetic_mean (lm_y <$> pts);
     lm_z := Some (arithmetic_mean (z_number <$> pts)) |}.

(** The composition tags as C6 states them: three checks on the width, the
    height and the center of the box, each on its own. *)
Definition size_tag (width height : float) : list string :=
  if (width >? 0.5) || (height >? 0.6) then ["TOO CLOSE"]
  else if (width <? 0.15) && (height <? 0.2) then ["TOO FAR"]
  else [].

Definition horizontal_tag (center_x : float) : list string :=
  if center_x <? 0.3 then ["→ RIGHT"]
  else if center_x >? 0.7 then ["← LEFT"]
  else [].

Definition vertical_tag (center_y : float) : list string :=
  if center_y <? 0.25 then ["↓ DOWN"]
  else if center_y >? 0.75 then ["↑ UP"]
  else [].

(** The luminance of a pixel as C8 states it. *)
Definition stated_luminance (p : Z * Z * Z * Z) : float :=
  let '(R, G, B, _) := p in
  0.299 * float_of_channel R + 0.587 * float_of_channel G
  + 0.114 * float_of_channel B.

(** A rendered widget and an environment with a webcam, for the examples. *)
Definition rendered_widget : Widget :=
  render true true (ProductionMonitorWidget 1700000000000).

Definition webcam_env (t : Z) : Env :=
  {| now := t; media := true; stream := true; video := true;
     currentImage := None; capture := "data:image/jpeg;base64,";
     lighting := LightPixels [(120, 120, 120, 255)%Z];
     focus := FocusFrame 640 480 (Some 13) |}.

(** A webcam whose frame is one grey pixel of level [c]. *)
Definition grey_env (c : Z) : Env :=
  {| now := 1700000000000; media := true; stream := true; video := true;
     currentImage := None; capture := "data:image/jpeg;base64,";
     lighting := LightPixels [(c, c, c, 255)%Z];
     focus := FocusFrame 640 480 (Some 13) |}.

(** A webcam of 640 x 480 pixels on which [cv.meanStdDev] returns the
    standard deviation [v] of the Laplacian of the patch. *)
Definition focus_env (v : float) : Env :=
  {| now := 1700000000000; media := true; stream := true; video := true;
     currentImage := None; capture := "data:image/jpeg;base64,";
     lighting := LightPixels [(120, 120, 120, 255)%Z];
     focus := FocusFrame 640 480 (Some v) |}.

(** A face mesh of 478 landmarks, all at the centre of the image. *)
Definition centered_point : Point :=
  {| lm_x := 0.5; lm_y := 0.5; lm_z := Some (-0.02) |}.

Definition face_landmarks : LandmarkFrame := replicate 478 (Some centered_point).

(** The same face with the lips apart: 0.49 and 0.52. *)
Definition open_mouth : LandmarkFrame :=
  <[LANDMARKS.LOWER_LIP :=
      Some {| lm_x := 0.5; lm_y := 0.52; lm_z := Some (-0.02) |}]>
    (<[LANDMARKS.UPPER_LIP :=
         Some {| lm_x := 0.5; lm_y := 0.49; lm_z := Some (-0.02) |}]>
       face_landmarks).

(** A face box of width 0.6 centred at (0.5, 0.5). *)
Definition wide_box : Box :=
  {| x_min := 0.2; y_min := 0.3; x_max := 0.8; y_max := 0.7 |}.

(** Two frames of two entries: a landmark and a hole; the landmark of the
    second frame has no [z]. *)
Definition frame_a : LandmarkFrame :=
  [Some {| lm_x := 0.25; lm_y := 0.5; lm_z := Some 0.5 |}; None].

Definition frame_b : LandmarkFrame :=
  [Some {| lm_x := 0.75; lm_y := 0.25; lm_z := None |}; None].

(** A frame whose landmark has a [z] that is not a number. *)
Definition frame_c : LandmarkFrame :=
  [Some {| lm_x := 0.75; lm_y := 0.25; lm_z := Some nan |}; None].

(** A face box that is narrow and tall: width 0.1, height 0.7. *)
Definition tall_box : Box :=
  {| x_min := 0.45; y_min := 0.15; x_max := 0.55; y_max := 0.85 |}.

(** A face box that is narrow and of middle height: width 0.1, height 0.3. *)
Definition narrow_box : Box :=
  {| x_min := 0.45; y_min := 0.35; x_max := 0.55; y_max := 0.65 |}.

(** A face box that is small in both directions: width 0.1, height 0.1. *)
Definition small_box : Box :=
  {| x_min := 0.45; y_min := 0.45; x_max := 0.55; y_max := 0.55 |}.

(** A webcam whose frame holds the pixels [data]. *)
Definition pixels_env (data : list (Z * Z * Z * Z)) : Env :=
  {| now := 1700000000000; media := true; stream := true; video := true;
     currentImage := None; capture := "data:image/jpeg;base64,";
     lighting := LightPixels data;
     focus := FocusFrame 640 480 (Some 13) |}.

(** The monitor that [render] leaves under each key. *)
Definition rendered_monitor : Monitor :=
  {| enabled := true; status := "N/A"; class := "disabled";
     element := Some fresh_card |}.

(** The rendered widget after the start button was clicked. *)
Definition monitoring_widget : Widget :=
  startMonitoring (webcam_env 1700000000000) rendered_widget.

(** The same page after the webcam was stopped: no frame can be taken. *)
Definition no_frame_env (t : Z) : Env :=
  {| now := t; media := true; stream := false; video := true;
     currentImage := None; capture := "data:image/jpeg;base64,";
     lighting := LightNone; focus := FocusNone |}.

(** ** Notions used by the further statements *)

(** The map [ms'] comes from [ms] by status writes: under every key the entry
    is as it was, or it had a card and got a new status, class and card,
    with [enabled] as it was. A monitor that is off is written only under a
    key in [unguarded]. *)
Definition status_writes (unguarded : string → Prop)
    (ms ms' : gmap string Monitor) : Prop :=
  ∀ k : string,
    ms' !! k = ms !! k
    ∨ ∃ (m : Monitor) (s c : string) (card' : Card),
        ms !! k = Some m
        ∧ (enabled m = true ∨ unguarded k)
        ∧ is_Some (element m)
        ∧ ms' !! k = Some {| enabled := enabled m; status := s; class := c;
                             element := Some card' |}.

(** What the landmark callback keeps between calls. *)
Definition analysis_of (w : Widget) : list LandmarkFrame * TalkingState :=
  (_landmarkHistory w, _talkingState w).

(** Every monitor has its card, and every monitor that is off, the
    scene-context monitor apart, shows OFF / disabled. *)
Definition off_shows_off (w : Widget) : Prop :=
  ∀ (k : string) (m : Monitor),
    _monitors w !! k = Some m →
    is_Some (element m)
    ∧ (k ≠ "sceneContext" → enabled m = false →
       status m = "OFF" ∧ class m = "disabled").

(** No event of the run is older than [t]. *)
Definition clock_from (t : Z) (events : list (Env * Event)) : Prop :=
  Forall (fun ee => (t ≤ now ee.1)%Z) events.

(** The card of [key] is not clicked in the run. *)
Definition never_clicked (key : string) (events : list (Env * Event)) : Prop :=
  Forall (fun ee => ee.2 ≠ ClickCard key) events.

(** The vocabulary of the cards: the class is one of the four that
    [updateMonitorStatus] removes before it adds the new one, and the status
    is not the CV N/A of [analyzeFocus]. *)
Definition status_vocabulary (s c : string) : bool :=
  bool_decide (c ∈ ["good"; "warning"; "bad"; "disabled"] ∧ s ≠ "CV N/A").

Definition in_vocabulary (ms : gmap string Monitor) : Prop :=
  ∀ (k : string) (m : Monitor),
    ms !! k = Some m → status_vocabulary (status m) (class m) = true.

(** Every entry of [ms'] shows what the entry of [ms] showed, or a status
    and class of the vocabulary. *)
Definition written_in_vocabulary (ms ms' : gmap string Monitor) : Prop :=
  ∀ (k : string) (m' : Monitor),
    ms' !! k = Some m' →
    (∃ m, ms !! k = Some m ∧ status m = status m' ∧ class m = class m')
    ∨ status_vocabulary (status m') (class m') = true.

(** The monitor under [key] is on and has its card. *)
Definition monitor_ready (key : string) (w : Widget) : Prop :=
  ∃ (m : Monitor) (card : Card),
    _monitors w !! key = Some m ∧ enabled m = true ∧ element m = Some card.

(** The landmark callback flips the stored talking flag. *)
Definition flips_talking (env : Env) (faces : list LandmarkFrame)
    (w : Widget) : Prop :=
  isTalking (_talkingState (processFrameResults env faces w))
  ≠ isTalking (_talkingState w).

(** A webcam page on which OpenCV never arrived. *)
Definition rendered_without_opencv : Widget :=
  render true false (ProductionMonitorWidget 1700000000000).

(** A face mesh with the nose tip half way between the face edges. *)
Definition facing_camera : LandmarkFrame :=
  <[LANDMARKS.RIGHT_FACE :=
      Some {| lm_x := 0.75; lm_y := 0.5; lm_z := Some (-0.02) |}]>
    (<[LANDMARKS.LEFT_FACE :=
         Some {| lm_x := 0.25; lm_y := 0.5; lm_z := Some (-0.02) |}]>
       face_landmarks).


(** ** Zone Monitor: polygons, zone drawing and intrusion alerts *)

(** A point [{x, y}], in normalized 0-1 coordinates. *)
Record Vertex := { pt_x : float; pt_y : float }.

(** [Utils.getColor]: [colors[index % colors.length]]. *)
Definition colors : list string :=
  ["#00ff88"; "#ff6b6b"; "#6bcfff"; "#ffd93d";
   "#ff9ff3"; "#54a0ff"; "#5f27cd"; "#00d2d3"].

Definition getColor (index : nat) : string :=
  colors !!! (index mod length colors)%nat.

(** [CanvasUtils.pointInPolygon]. One turn of the loop body for the vertex
    [vi = polygon[i]] and its predecessor [vj = polygon[j]]. *)
Definition crosses (x y : float) (vi vj : Vertex) : bool :=
  let xi := pt_x vi in
  let yi := pt_y vi in
  let xj := pt_x vj in
  let yj := pt_y vj in
  xorb (yi >? y) (yj >? y) && (x <? (xj - xi) * (y - yi) / (yj - yi) + xi).

(** The loop [for (i = 0, j = length - 1; i < length; j = i++)]: [rest] is
    what is left of the polygon from index [i] on, [vj] is [polygon[j]]. *)
Fixpoint pointInPolygon_loop (x y : float) (vj : Vertex) (rest : list Vertex)
    (inside : bool) : bool :=
  match rest with
  | [] => inside
  | vi :: rest' =>
      pointInPolygon_loop x y vi rest'
        (if crosses x y vi vj then negb inside else inside)
  end.

Definition pointInPolygon (point : Vertex) (polygon : list Vertex) : bool :=
  match last polygon with
  | None => false                   (* no vertex: the body never runs *)
  | Some vj => pointInPolygon_loop (pt_x point) (pt_y point) vj polygon false
  end.

Record Zone := { points : list Vertex; color : string; name : string }.

(** What [analyzeZoneIntrusions] appends to the alert panel: a danger item
    per alert (its text is the alert, escaped), or one item saying that
    [count] objects were found outside the zones, or that none was found. *)
Inductive AlertItem :=
| AlertDanger (alert : string)
| AlertSafe (count : nat) (objectName : string)
| AlertNone (objectName : string).

(** The state of a ZoneMonitorWidget: its fields, the draw and finish
    buttons, the inline style of the overlay canvas, the message of the last
    [showError] and the alert panel. Drawing on the canvas and the list of
    zones shown beside it are functions of [_zones], [_currentZone] and
    [_mousePos] and are left out, and so are the request of [checkZones]
    and its loading indicator: of a check, the call of
    [analyzeZoneIntrusions] on the response is what is kept. *)
Record ZoneWidget := {
  _zones : list Zone;
  _currentZone : list Vertex;
  _isDrawing : bool;
  _mousePos : option Vertex;
  drawBtn_active : bool;            (* 'Click to add points...', moon-btn-active *)
  finishBtn_disabled : bool;
  canvas_pointerEvents : string;
  canvas_cursor : string;
  zone_error : option string;
  _alertsEl : list AlertItem
}.

Definition ZoneMonitorWidget : ZoneWidget :=
  {| _zones := []; _currentZone := []; _isDrawing := false; _mousePos := None;
     drawBtn_active := false; finishBtn_disabled := true;
     canvas_pointerEvents := EmptyString; canvas_cursor := EmptyString;
     zone_error := None; _alertsEl := [] |}.

Record MouseEvent := { clientX : float; clientY : float }.

(** [getBoundingClientRect()] of the overlay canvas. *)
Record DOMRect := {
  rect_left : float; rect_top : float; rect_width : float; rect_height : float
}.

Definition startDrawing (w : ZoneWidget) : ZoneWidget :=
  {| _zones := _zones w; _currentZone := []; _isDrawing := true;
     _mousePos := None; drawBtn_active := true; finishBtn_disabled := false;
     canvas_pointerEvents := "auto"; canvas_cursor := "crosshair";
     zone_error := zone_error w; _alertsEl := _alertsEl w |}.

Definition normalized (e : MouseEvent) (rect : DOMRect) : Vertex :=
  {| pt_x := (clientX e - rect_left rect) / rect_width rect;
     pt_y := (clientY e - rect_top rect) / rect_height rect |}.

Definition updateDrawingPreview (e : MouseEvent) (rect : DOMRect)
    (w : ZoneWidget) : ZoneWidget :=
  {| _zones := _zones w; _currentZone := _currentZone w;
     _isDrawing := _isDrawing w; _mousePos := Some (normalized e rect);
     drawBtn_active := drawBtn_active w;
     finishBtn_disabled := finishBtn_disabled w;
     canvas_pointerEvents := canvas_pointerEvents w;
     canvas_cursor := canvas_cursor w;
     zone_error := zone_error w; _alertsEl := _alertsEl w |}.

Definition addZonePoint (e : MouseEvent) (rect : DOMRect)
    (w : ZoneWidget) : ZoneWidget :=
  {| _zones := _zones w; _currentZone := _currentZone w ++ [normalized e rect];
     _isDrawing := _isDrawing w; _mousePos := _mousePos w;
     drawBtn_active := drawBtn_active w;
     finishBtn_disabled := finishBtn_disabled w;
     canvas_pointerEvents := canvas_pointerEvents w;
     canvas_cursor := canvas_cursor w;
     zone_error := zone_error w; _alertsEl := _alertsEl w |}.

Definition finishZone (w : ZoneWidget) : ZoneWidget :=
  if (length (_currentZone w) <? 3)%nat then
    {| _zones := _zones w; _currentZone := _currentZone w;
       _isDrawing := _isDrawing w; _mousePos := _mousePos w;
       drawBtn_active := drawBtn_active w;
       finishBtn_disabled := finishBtn_disabled w;
       canvas_pointerEvents := canvas_pointerEvents w;
       canvas_cursor := canvas_cursor w;
       zone_error := Some "Zone needs at least 3 points";
       _alertsEl := _alertsEl w |}
  else
    let zoneIndex := length (_zones w) in
    {| _zones := _zones w ++
         [{| points := _currentZone w;
             color := getColor zoneIndex;
             name := "Zone " +:+ pretty (zoneIndex + 1)%nat |}];
       _currentZone := []; _isDrawing := false; _mousePos := None;
       drawBtn_active := false; finishBtn_disabled := true;
       canvas_pointerEvents := "none"; canvas_cursor := "default";
       zone_error := zone_error w; _alertsEl := _alertsEl w |}.

Definition clearZones (w : ZoneWidget) : ZoneWidget :=
  {| _zones := []; _currentZone := []; _isDrawing := false; _mousePos := None;
     drawBtn_active := false; finishBtn_disabled := true;
     canvas_pointerEvents := "none"; canvas_cursor := canvas_cursor w;
     zone_error := zone_error w; _alertsEl := [] |}.

(** The delete button of the zone at [index] in the zone list:
    [self._zones.splice(index, 1)]. *)
Definition deleteZone (index : nat) (w : ZoneWidget) : ZoneWidget :=
  {| _zones := delete index (_zones w); _currentZone := _currentZone w;
     _isDrawing := _isDrawing w; _mousePos := _mousePos w;
     drawBtn_active := drawBtn_active w;
     finishBtn_disabled := finishBtn_disabled w;
     canvas_pointerEvents := canvas_pointerEvents w;
     canvas_cursor := canvas_cursor w;
     zone_error := zone_error w; _alertsEl := _alertsEl w |}.

(** The handler of [mouseleave] on the canvas while drawing. *)
Definition leaveCanvas (w : ZoneWidget) : ZoneWidget :=
  {| _zones := _zones w; _currentZone := _currentZone w;
     _isDrawing := _isDrawing w; _mousePos := None;
     drawBtn_active := drawBtn_active w;
     finishBtn_disabled := finishBtn_disabled w;
     canvas_pointerEvents := canvas_pointerEvents w;
     canvas_cursor := canvas_cursor w;
     zone_error := zone_error w; _alertsEl := _alertsEl w |}.

(** [analyzeZoneIntrusions]: the center of a detected box. *)
Definition objCenterNorm (obj : Box) : Vertex :=
  {| pt_x := (x_min obj + x_max obj) / 2; pt_y := (y_min obj + y_max obj) / 2 |}.

(** The inner [forEach] over the zones: [(inZone, zoneName)]. *)
Definition zone_of (zones : list Zone) (obj : Box) : bool * string :=
  foldl (fun acc zone =>
           if pointInPolygon (objCenterNorm obj) (points zone)
           then (true, name zone) else acc)
        (false, EmptyString) zones.

(** The outer [forEach] over the objects: the array [alerts]. *)
Definition zone_alerts (zones : list Zone) (objects : list Box)
    (objectName : string) : list string :=
  foldl (fun alerts obj =>
           let '(inZone, zoneName) := zone_of zones obj in
           if inZone then alerts ++ [objectName +:+ " detected in " +:+ zoneName]
           else alerts)
        [] objects.

Definition analyzeZoneIntrusions (objects : list Box) (objectName : string)
    (w : ZoneWidget) : ZoneWidget :=
  let alerts := zone_alerts (_zones w) objects objectName in
  {| _zones := _zones w; _currentZone := _currentZone w;
     _isDrawing := _isDrawing w; _mousePos := _mousePos w;
     drawBtn_active := drawBtn_active w;
     finishBtn_disabled := finishBtn_disabled w;
     canvas_pointerEvents := canvas_pointerEvents w;
     canvas_cursor := canvas_cursor w;
     zone_error := zone_error w;
     _alertsEl :=
       if (0 <? length alerts)%nat then AlertDanger <$> alerts
       else if (0 <? length objects)%nat
            then [AlertSafe (length objects) objectName]
            else [AlertNone objectName] |}.

Inductive ZoneEvent :=
| ClickDraw                         (* drawBtn.onclick: startDrawing *)
| ClickFinish                       (* finishBtn.onclick: finishZone *)
| ClickClear                        (* clearZonesBtn.onclick: clearZones *)
| ClickDelete (index : nat)         (* the delete button of a listed zone *)
| CanvasClick (e : MouseEvent) (rect : DOMRect)
| CanvasMove (e : MouseEvent) (rect : DOMRect)
| CanvasLeave
| Detected (objects : list Box) (objectName : string).
                                    (* a detect call of checkZones resolves *)

(** One turn of the event loop; [None] when the event cannot happen (the
    finish button is disabled, no such zone is listed). *)
Definition zone_step (e : ZoneEvent) (w : ZoneWidget) : option ZoneWidget :=
  match e with
  | ClickDraw => Some (startDrawing w)
  | ClickFinish => if finishBtn_disabled w then None else Some (finishZone w)
  | ClickClear => Some (clearZones w)
  | ClickDelete index =>
      if decide (index < length (_zones w))%nat
      then Some (deleteZone index w) else None
  | CanvasClick e rect =>
      Some (if _isDrawing w then addZonePoint e rect w else w)
  | CanvasMove e rect =>
      Some (if _isDrawing w then updateDrawingPreview e rect w else w)
  | CanvasLeave => Some (if _isDrawing w then leaveCanvas w else w)
  | Detected objects objectName =>
      Some (analyzeZoneIntrusions objects objectName w)
  end.

Fixpoint zone_run (events : list ZoneEvent) (w : ZoneWidget)
    : option ZoneWidget :=
  match events with
  | [] => Some w
  | e :: rest =>
      match zone_step e w with
      | Some w' => zone_run rest w'
      | None => None
      end
  end.

(** The zones are numbered as drawn: the zone at index [i] is 'Zone i+1' and
    has the palette color of [i]. *)
Definition numbered (zones : list Zone) : Prop :=
  ∀ i z, zones !! i = Some z →
    name z = "Zone " +:+ pretty (i + 1)%nat ∧ color z = getColor i.

Definition no_delete (events : list ZoneEvent) : Prop :=
  Forall (fun e => ∀ index, e ≠ ClickDelete index) events.

(** The zones that contain the center of [obj]. *)
Definition zones_around (zones : list Zone) (obj : Box) : list Zone :=
  filter (fun zone => pointInPolygon (objCenterNorm obj) (points zone) = true)
         zones.

Definition triangle : list Vertex :=
  [{| pt_x := 0.25; pt_y := 0.25 |}; {| pt_x := 0.75; pt_y := 0.25 |};
   {| pt_x := 0.5; pt_y := 0.75 |}].

Definition click_at (x y : float) : ZoneEvent :=
  CanvasClick {| clientX := x; clientY := y |}
              {| rect_left := 0; rect_top := 0;
                 rect_width := 640; rect_height := 480 |}.

Definition draw_triangle : list ZoneEvent :=
  [ClickDraw; click_at 160 120; click_at 480 120; click_at 320 360; ClickFinish].

(** ** PTZ Auto-Tracker *)

(** [panSpeed] and [tiltSpeed] only ever hold the integer literals of the
    constructor and of the presets; they are integers here, and their
    concatenation to a string is their decimal notation. *)
Record PTZSettings := {
  cameraIP : string;
  targetObject : string;
  detectionRate : float;
  panSpeed : Z;
  tiltSpeed : Z;
  deadzoneX : float;
  deadzoneY : float
}.

Record Preset := {
  preset_name : string; rate : float; speed : Z; deadzone : float
}.

(** The state of a PTZTrackerWidget after [render]: its fields, the value
    and the [disabled] flag of its inputs and buttons, the status overlay
    and status section, the error shown, the requests sent to the camera
    and the detect calls in flight. The overlay canvas and the position of
    the rate slider are left out. *)
Record Tracker := {
  _isTracking : bool;
  _trackingInterval : option float;   (* period in ms of the armed timer; None: null *)
  _currentDetection : option Box;
  _ptzSettings : PTZSettings;
  _detectionCount : option nat;   (* undefined until the first start *)
  ipInput_value : string;
  ipInput_disabled : bool;
  targetInput_value : string;
  targetInput_disabled : bool;
  simCheckbox_checked : bool;
  simCheckbox_disabled : bool;
  startBtn_disabled : bool;
  stopBtn_disabled : bool;
  _statusOverlay : string * string;   (* className, text *)
  _statusSection : string * string * string;   (* object, position, command *)
  fps_status : nat;   (* the number under Detections *)
  ptz_error : option string;   (* the message of showError, until hideError *)
  fetched : list string;   (* the URLs passed to fetch *)
  detecting : list (string * string)   (* detect calls in flight: frame, object *)
}.

Definition set_cameraIP (v : string) (s : PTZSettings) : PTZSettings :=
  {| cameraIP := v; targetObject := targetObject s;
     detectionRate := detectionRate s; panSpeed := panSpeed s;
     tiltSpeed := tiltSpeed s; deadzoneX := deadzoneX s;
     deadzoneY := deadzoneY s |}.

Definition set_targetObject (v : string) (s : PTZSettings) : PTZSettings :=
  {| cameraIP := cameraIP s; targetObject := v;
     detectionRate := detectionRate s; panSpeed := panSpeed s;
     tiltSpeed := tiltSpeed s; deadzoneX := deadzoneX s;
     deadzoneY := deadzoneY s |}.

Definition set_detectionRate (v : float) (s : PTZSettings) : PTZSettings :=
  {| cameraIP := cameraIP s; targetObject := targetObject s;
     detectionRate := v; panSpeed := panSpeed s; tiltSpeed := tiltSpeed s;
     deadzoneX := deadzoneX s; deadzoneY := deadzoneY s |}.

Definition set_panSpeed (v : Z) (s : PTZSettings) : PTZSettings :=
  {| cameraIP := cameraIP s; targetObject := targetObject s;
     detectionRate := detectionRate s; panSpeed := v;
     tiltSpeed := tiltSpeed s; deadzoneX := deadzoneX s;
     deadzoneY := deadzoneY s |}.

Definition set_tiltSpeed (v : Z) (s : PTZSettings) : PTZSettings :=
  {| cameraIP := cameraIP s; targetObject := targetObject s;
     detectionRate := detectionRate s; panSpeed := panSpeed s;
     tiltSpeed := v; deadzoneX := deadzoneX s; deadzoneY := deadzoneY s |}.

Definition set_deadzoneX (v : float) (s : PTZSettings) : PTZSettings :=
  {| cameraIP := cameraIP s; targetObject := targetObject s;
     detectionRate := detectionRate s; panSpeed := panSpeed s;
     tiltSpeed := tiltSpeed s; deadzoneX := v; deadzoneY := deadzoneY s |}.

Definition set_deadzoneY (v : float) (s : PTZSettings) : PTZSettings :=
  {| cameraIP := cameraIP s; targetObject := targetObject s;
     detectionRate := detectionRate s; panSpeed := panSpeed s;
     tiltSpeed := tiltSpeed s; deadzoneX := deadzoneX s; deadzoneY := v |}.

Definition ptz_set_isTracking (v : bool) (w : Tracker) : Tracker :=
  {| _isTracking := v; _trackingInterval := _trackingInterval w;
     _currentDetection := _currentDetection w;
     _ptzSettings := _ptzSettings w; _detectionCount := _detectionCount w;
     ipInput_value := ipInput_value w;
     ipInput_disabled := ipInput_disabled w;
     targetInput_value := targetInput_value w;
     targetInput_disabled := targetInput_disabled w;
     simCheckbox_checked := simCheckbox_checked w;
     simCheckbox_disabled := simCheckbox_disabled w;
     startBtn_disabled := startBtn_disabled w;
     stopBtn_disabled := stopBtn_disabled w;
     _statusOverlay := _statusOverlay w; _statusSection := _statusSection w;
     fps_status := fps_status w; ptz_error := ptz_error w;
     fetched := fetched w; detecting := detecting w |}.

Definition ptz_set_trackingInterval (v : option float) (w : Tracker) : Tracker :=
  {| _isTracking := _isTracking w; _trackingInterval := v;
     _currentDetection := _currentDetection w;
     _ptzSettings := _ptzSettings w; _detectionCount := _detectionCount w;
     ipInput_value := ipInput_value w;
     ipInput_disabled := ipInput_disabled w;
     targetInput_value := targetInput_value w;
     targetInput_disabled := targetInput_disabled w;
     simCheckbox_checked := simCheckbox_checked w;
     simCheckbox_disabled := simCheckbox_disabled w;
     startBtn_disabled := startBtn_disabled w;
     stopBtn_disabled := stopBtn_disabled w;
     _statusOverlay := _statusOverlay w; _statusSection := _statusSection w;
     fps_status := fps_status w; ptz_error := ptz_error w;
     fetched := fetched w; detecting := detecting w |}.

Definition ptz_set_currentDetection (v : option Box) (w : Tracker) : Tracker :=
  {| _isTracking := _isTracking w; _trackingInterval := _trackingInterval w;
     _currentDetection := v; _ptzSettings := _ptzSettings w;
     _detectionCount := _detectionCount w; ipInput_value := ipInput_value w;
     ipInput_disabled := ipInput_disabled w;
     targetInput_value := targetInput_value w;
     targetInput_disabled := targetInput_disabled w;
     simCheckbox_checked := simCheckbox_checked w;
     simCheckbox_disabled := simCheckbox_disabled w;
     startBtn_disabled := startBtn_disabled w;
     stopBtn_disabled := stopBtn_disabled w;
     _statusOverlay := _statusOverlay w; _statusSection := _statusSection w;
     fps_status := fps_status w; ptz_error := ptz_error w;
     fetched := fetched w; detecting := detecting w |}.

Definition ptz_set_ptzSettings (v : PTZSettings) (w : Tracker) : Tracker :=
  {| _isTracking := _isTracking w; _trackingInterval := _trackingInterval w;
     _currentDetection := _currentDetection w; _ptzSettings := v;
     _detectionCount := _detectionCount w; ipInput_value := ipInput_value w;
     ipInput_disabled := ipInput_disabled w;
     targetInput_value := targetInput_value w;
     targetInput_disabled := targetInput_disabled w;
     simCheckbox_checked := simCheckbox_checked w;
     simCheckbox_disabled := simCheckbox_disabled w;
     startBtn_disabled := startBtn_disabled w;
     stopBtn_disabled := stopBtn_disabled w;
     _statusOverlay := _statusOverlay w; _statusSection := _statusSection w;
     fps_status := fps_status w; ptz_error := ptz_error w;
     fetched := fetched w; detecting := detecting w |}.

Definition ptz_set_detectionCount (v : option nat) (w : Tracker) : Tracker :=
  {| _isTracking := _isTracking w; _trackingInterval := _trackingInterval w;
     _currentDetection := _currentDetection w;
     _ptzSettings := _ptzSettings w; _detectionCount := v;
     ipInput_value := ipInput_value w;
     ipInput_disabled := ipInput_disabled w;
     targetInput_value := targetInput_value w;
     targetInput_disabled := targetInput_disabled w;
     simCheckbox_checked := simCheckbox_checked w;
     simCheckbox_disabled := simCheckbox_disabled w;
     startBtn_disabled := startBtn_disabled w;
     stopBtn_disabled := stopBtn_disabled w;
     _statusOverlay := _statusOverlay w; _statusSection := _statusSection w;
     fps_status := fps_status w; ptz_error := ptz_error w;
     fetched := fetched w; detecting := detecting w |}.

Definition ptz_set_ipInput_value (v : string) (w : Tracker) : Tracker :=
  {| _isTracking := _isTracking w; _trackingInterval := _trackingInterval w;
     _currentDetection := _currentDetection w;
     _ptzSettings := _ptzSettings w; _detectionCount := _detectionCount w;
     ipInput_value := v; ipInput_disabled := ipInput_disabled w;
     targetInput_value := targetInput_value w;
     targetInput_disabled := targetInput_disabled w;
     simCheckbox_checked := simCheckbox_checked w;
     simCheckbox_disabled := simCheckbox_disabled w;
     startBtn_disabled := startBtn_disabled w;
     stopBtn_disabled := stopBtn_disabled w;
     _statusOverlay := _statusOverlay w; _statusSection := _statusSection w;
     fps_status := fps_status w; ptz_error := ptz_error w;
     fetched := fetched w; detecting := detecting w |}.

Definition ptz_set_ipInput_disabled (v : bool) (w : Tracker) : Tracker :=
  {| _isTracking := _isTracking w; _trackingInterval := _trackingInterval w;
     _currentDetection := _currentDetection w;
     _ptzSettings := _ptzSettings w; _detectionCount := _detectionCount w;
     ipInput_value := ipInput_value w; ipInput_disabled := v;
     targetInput_value := targetInput_value w;
     targetInput_disabled := targetInput_disabled w;
     simCheckbox_checked := simCheckbox_checked w;
     simCheckbox_disabled := simCheckbox_disabled w;
     startBtn_disabled := startBtn_disabled w;
     stopBtn_disabled := stopBtn_disabled w;
     _statusOverlay := _statusOverlay w; _statusSection := _statusSection w;
     fps_status := fps_status w; ptz_error := ptz_error w;
     fetched := fetched w; detecting := detecting w |}.

Definition ptz_set_targetInput_value (v : string) (w : Tracker) : Tracker :=
  {| _isTracking := _isTracking w; _trackingInterval := _trackingInterval w;
     _currentDetection := _currentDetection w;
     _ptzSettings := _ptzSettings w; _detectionCount := _detectionCount w;
     ipInput_value := ipInput_value w;
     ipInput_disabled := ipInput_disabled w; targetInput_value := v;
     targetInput_disabled := targetInput_disabled w;
     simCheckbox_checked := simCheckbox_checked w;
     simCheckbox_disabled := simCheckbox_disabled w;
     startBtn_disabled := startBtn_disabled w;
     stopBtn_disabled := stopBtn_disabled w;
     _statusOverlay := _statusOverlay w; _statusSection := _statusSection w;
     fps_status := fps_status w; ptz_error := ptz_error w;
     fetched := fetched w; detecting := detecting w |}.

Definition ptz_set_targetInput_disabled (v : bool) (w : Tracker) : Tracker :=
  {| _isTracking := _isTracking w; _trackingInterval := _trackingInterval w;
     _currentDetection := _currentDetection w;
     _ptzSettings := _ptzSettings w; _detectionCount := _detectionCount w;
     ipInput_value := ipInput_value w;
     ipInput_disabled := ipInput_disabled w;
     targetInput_value := targetInput_value w; targetInput_disabled := v;
     simCheckbox_checked := simCheckbox_checked w;
     simCheckbox_disabled := simCheckbox_disabled w;
     startBtn_disabled := startBtn_disabled w;
     stopBtn_disabled := stopBtn_disabled w;
     _statusOverlay := _statusOverlay w; _statusSection := _statusSection w;
     fps_status := fps_status w; ptz_error := ptz_error w;
     fetched := fetched w; detecting := detecting w |}.

Definition ptz_set_simCheckbox_checked (v : bool) (w : Tracker) : Tracker :=
  {| _isTracking := _isTracking w; _trackingInterval := _trackingInterval w;
     _currentDetection := _currentDetection w;
     _ptzSettings := _ptzSettings w; _detectionCount := _detectionCount w;
     ipInput_value := ipInput_value w;
     ipInput_disabled := ipInput_disabled w;
     targetInput_value := targetInput_value w;
     targetInput_disabled := targetInput_disabled w;
     simCheckbox_checked := v;
     simCheckbox_disabled := simCheckbox_disabled w;
     startBtn_disabled := startBtn_disabled w;
     stopBtn_disabled := stopBtn_disabled w;
     _statusOverlay := _statusOverlay w; _statusSection := _statusSection w;
     fps_status := fps_status w; ptz_error := ptz_error w;
     fetched := fetched w; detecting := detecting w |}.

Definition ptz_set_simCheckbox_disabled (v : bool) (w : Tracker) : Tracker :=
  {| _isTracking := _isTracking w; _trackingInterval := _trackingInterval w;
     _currentDetection := _currentDetection w;
     _ptzSettings := _ptzSettings w; _detectionCount := _detectionCount w;
     ipInput_value := ipInput_value w;
     ipInput_disabled := ipInput_disabled w;
     targetInput_value := targetInput_value w;
     targetInput_disabled := targetInput_disabled w;
     simCheckbox_checked := simCheckbox_checked w; simCheckbox_disabled := v;
     startBtn_disabled := startBtn_disabled w;
     stopBtn_disabled := stopBtn_disabled w;
     _statusOverlay := _statusOverlay w; _statusSection := _statusSection w;
     fps_status := fps_status w; ptz_error := ptz_error w;
     fetched := fetched w; detecting := detecting w |}.

Definition ptz_set_startBtn_disabled (v : bool) (w : Tracker) : Tracker :=
  {| _isTracking := _isTracking w; _trackingInterval := _trackingInterval w;
     _currentDetection := _currentDetection w;
     _ptzSettings := _ptzSettings w; _detectionCount := _detectionCount w;
     ipInput_value := ipInput_value w;
     ipInput_disabled := ipInput_disabled w;
     targetInput_value := targetInput_value w;
     targetInput_disabled := targetInput_disabled w;
     simCheckbox_checked := simCheckbox_checked w;
     simCheckbox_disabled := simCheckbox_disabled w; startBtn_disabled := v;
     stopBtn_disabled := stopBtn_disabled w;
     _statusOverlay := _statusOverlay w; _statusSection := _statusSection w;
     fps_status := fps_status w; ptz_error := ptz_error w;
     fetched := fetched w; detecting := detecting w |}.

Definition ptz_set_stopBtn_disabled (v : bool) (w : Tracker) : Tracker :=
  {| _isTracking := _isTracking w; _trackingInterval := _trackingInterval w;
     _currentDetection := _currentDetection w;
     _ptzSettings := _ptzSettings w; _detectionCount := _detectionCount w;
     ipInput_value := ipInput_value w;
     ipInput_disabled := ipInput_disabled w;
     targetInput_value := targetInput_value w;
     targetInput_disabled := targetInput_disabled w;
     simCheckbox_checked := simCheckbox_checked w;
     simCheckbox_disabled := simCheckbox_disabled w;
     startBtn_disabled := startBtn_disabled w; stopBtn_disabled := v;
     _statusOverlay := _statusOverlay w; _statusSection := _statusSection w;
     fps_status := fps_status w; ptz_error := ptz_error w;
     fetched := fetched w; detecting := detecting w |}.

Definition ptz_set_statusOverlay (v : string * string) (w : Tracker) : Tracker :=
  {| _isTracking := _isTracking w; _trackingInterval := _trackingInterval w;
     _currentDetection := _currentDetection w;
     _ptzSettings := _ptzSettings w; _detectionCount := _detectionCount w;
     ipInput_value := ipInput_value w;
     ipInput_disabled := ipInput_disabled w;
     targetInput_value := targetInput_value w;
     targetInput_disabled := targetInput_disabled w;
     simCheckbox_checked := simCheckbox_checked w;
     simCheckbox_disabled := simCheckbox_disabled w;
     startBtn_disabled := startBtn_disabled w;
     stopBtn_disabled := stopBtn_disabled w; _statusOverlay := v;
     _statusSection := _statusSection w; fps_status := fps_status w;
     ptz_error := ptz_error w; fetched := fetched w;
     detecting := detecting w |}.

Definition ptz_set_statusSection (v : string * string * string) (w : Tracker) : Tracker :=
  {| _isTracking := _isTracking w; _trackingInterval := _trackingInterval w;
     _currentDetection := _currentDetection w;
     _ptzSettings := _ptzSettings w; _detectionCount := _detectionCount w;
     ipInput_value := ipInput_value w;
     ipInput_disabled := ipInput_disabled w;
     targetInput_value := targetInput_value w;
     targetInput_disabled := targetInput_disabled w;
     simCheckbox_checked := simCheckbox_checked w;
     simCheckbox_disabled := simCheckbox_disabled w;
     startBtn_disabled := startBtn_disabled w;
     stopBtn_disabled := stopBtn_disabled w;
     _statusOverlay := _statusOverlay w; _statusSection := v;
     fps_status := fps_status w; ptz_error := ptz_error w;
     fetched := fetched w; detecting := detecting w |}.

Definition ptz_set_fps_status (v : nat) (w : Tracker) : Tracker :=
  {| _isTracking := _isTracking w; _trackingInterval := _trackingInterval w;
     _currentDetection := _currentDetection w;
     _ptzSettings := _ptzSettings w; _detectionCount := _detectionCount w;
     ipInput_value := ipInput_value w;
     ipInput_disabled := ipInput_disabled w;
     targetInput_value := targetInput_value w;
     targetInput_disabled := targetInput_disabled w;
     simCheckbox_checked := simCheckbox_checked w;
     simCheckbox_disabled := simCheckbox_disabled w;
     startBtn_disabled := startBtn_disabled w;
     stopBtn_disabled := stopBtn_disabled w;
     _statusOverlay := _statusOverlay w; _statusSection := _statusSection w;
     fps_status := v; ptz_error := ptz_error w; fetched := fetched w;
     detecting := detecting w |}.

Definition ptz_set_ptz_error (v : option string) (w : Tracker) : Tracker :=
  {| _isTracking := _isTracking w; _trackingInterval := _trackingInterval w;
     _currentDetection := _currentDetection w;
     _ptzSettings := _ptzSettings w; _detectionCount := _detectionCount w;
     ipInput_value := ipInput_value w;
     ipInput_disabled := ipInput_disabled w;
     targetInput_value := targetInput_value w;
     targetInput_disabled := targetInput_disabled w;
     simCheckbox_checked := simCheckbox_checked w;
     simCheckbox_disabled := simCheckbox_disabled w;
     startBtn_disabled := startBtn_disabled w;
     stopBtn_disabled := stopBtn_disabled w;
     _statusOverlay := _statusOverlay w; _statusSection := _statusSection w;
     fps_status := fps_status w; ptz_error := v; fetched := fetched w;
     detecting := detecting w |}.

Definition ptz_set_fetched (v : list string) (w : Tracker) : Tracker :=
  {| _isTracking := _isTracking w; _trackingInterval := _trackingInterval w;
     _currentDetection := _currentDetection w;
     _ptzSettings := _ptzSettings w; _detectionCount := _detectionCount w;
     ipInput_value := ipInput_value w;
     ipInput_disabled := ipInput_disabled w;
     targetInput_value := targetInput_value w;
     targetInput_disabled := targetInput_disabled w;
     simCheckbox_checked := simCheckbox_checked w;
     simCheckbox_disabled := simCheckbox_disabled w;
     startBtn_disabled := startBtn_disabled w;
     stopBtn_disabled := stopBtn_disabled w;
     _statusOverlay := _statusOverlay w; _statusSection := _statusSection w;
     fps_status := fps_status w; ptz_error := ptz_error w; fetched := v;
     detecting := detecting w |}.

Definition ptz_set_detecting (v : list (string * string)) (w : Tracker) : Tracker :=
  {| _isTracking := _isTracking w; _trackingInterval := _trackingInterval w;
     _currentDetection := _currentDetection w;
     _ptzSettings := _ptzSettings w; _detectionCount := _detectionCount w;
     ipInput_value := ipInput_value w;
     ipInput_disabled := ipInput_disabled w;
     targetInput_value := targetInput_value w;
     targetInput_disabled := targetInput_disabled w;
     simCheckbox_checked := simCheckbox_checked w;
     simCheckbox_disabled := simCheckbox_disabled w;
     startBtn_disabled := startBtn_disabled w;
     stopBtn_disabled := stopBtn_disabled w;
     _statusOverlay := _statusOverlay w; _statusSection := _statusSection w;
     fps_status := fps_status w; ptz_error := ptz_error w;
     fetched := fetched w; detecting := v |}.

Section InputBoxes.

(** [String.prototype.trim], applied to what was typed in an input box. *)
Variable trim : string → string.

Definition PTZTrackerWidget : Tracker :=
  {| _isTracking := false; _trackingInterval := None;
     _currentDetection := None;
     _ptzSettings :=
       {| cameraIP := EmptyString; targetObject := "person";
          detectionRate := 1.0; panSpeed := 5; tiltSpeed := 5;
          deadzoneX := 5; deadzoneY := 5 |};
     _detectionCount := None;
     ipInput_value := EmptyString; ipInput_disabled := false;
     targetInput_value := "person"; targetInput_disabled := false;
     simCheckbox_checked := false; simCheckbox_disabled := false;
     startBtn_disabled := false; stopBtn_disabled := true;
     _statusOverlay := ("moon-ptz-status-overlay", "Ready");
     _statusSection := ("--", "--", "--");
     fps_status := 0%nat; ptz_error := None; fetched := []; detecting := [] |}.

Definition _presets : gmap string Preset :=
  {[ "smooth" := {| preset_name := "Smooth (Broadcast)"; rate := 0.5;
                    speed := 3; deadzone := 12 |};
     "balanced" := {| preset_name := "Balanced (General)"; rate := 1.0;
                      speed := 5; deadzone := 5 |};
     "precise" := {| preset_name := "Precise (Presentation)"; rate := 1.5;
                     speed := 6; deadzone := 2 |};
     "fast" := {| preset_name := "Fast (Sports/Action)"; rate := 2.0;
                  speed := 8; deadzone := 8 |} ]}.

Definition ptz_showError (message : string) (w : Tracker) : Tracker :=
  ptz_set_ptz_error (Some message) w.

Definition ptz_hideError (w : Tracker) : Tracker := ptz_set_ptz_error None w.

Definition updateStatusOverlay (state text : string) (w : Tracker) : Tracker :=
  ptz_set_statusOverlay
    ("moon-ptz-status-overlay moon-ptz-status-" +:+ state, text) w.

Definition updateTrackingStatus (object position command : string)
    (w : Tracker) : Tracker :=
  ptz_set_statusSection (object, position, command) w.

Definition updateFPSDisplay (w : Tracker) : Tracker :=
  ptz_set_fps_status (default 0%nat (_detectionCount w)) w.

Definition calculatePTZCommand (detection : option Box) (w : Tracker)
    : string :=
  match detection with
  | None => "stop"
  | Some detection =>
      let objectX := ((x_min detection + x_max detection) / 2) * 100 in
      let objectY := ((y_min detection + y_max detection) / 2) * 100 in
      let targetX := 50 in
      let targetY := 50 in
      let offsetX := objectX - targetX in
      let offsetY := objectY - targetY in
      let halfDeadzoneX := deadzoneX (_ptzSettings w) / 2 in
      let halfDeadzoneY := deadzoneY (_ptzSettings w) / 2 in
      if offsetX >? halfDeadzoneX then "right"
      else if offsetX <? - halfDeadzoneX then "left"
      else if offsetY >? halfDeadzoneY then "down"
      else if offsetY <? - halfDeadzoneY then "up"
      else "centered"
  end.

Definition getPositionDescription (detection : Box) : string :=
  let x := ((x_min detection + x_max detection) / 2) * 100 in
  let y := ((y_min detection + y_max detection) / 2) * 100 in
  let hPos := if x <? 40 then "Left" else if x >? 60 then "Right" else "Center" in
  let vPos := if y <? 40 then "Top" else if y >? 60 then "Bottom" else "Middle" in
  hPos +:+ " / " +:+ vPos.

(** The [switch] of sendPTZCommand; [None] is its [default: return]. *)
Definition ptz_endpoint (command : string) (speed : Z) : option string :=
  if decide (command = "left")
  then Some ("ptzcmd&left&" +:+ pretty speed +:+ "&" +:+ pretty speed)
  else if decide (command = "right")
  then Some ("ptzcmd&right&" +:+ pretty speed +:+ "&" +:+ pretty speed)
  else if decide (command = "up")
  then Some ("ptzcmd&up&" +:+ pretty speed +:+ "&" +:+ pretty speed)
  else if decide (command = "down")
  then Some ("ptzcmd&down&" +:+ pretty speed +:+ "&" +:+ pretty speed)
  else if decide (command = "stop") then Some "ptzcmd&ptzstop"
  else if decide (command = "centered") then Some "ptzcmd&ptzstop"
  else None.

Definition sendPTZCommand (command : string) (w : Tracker) : Tracker :=
  if decide (cameraIP (_ptzSettings w) = EmptyString) then w
  else
    match ptz_endpoint command (panSpeed (_ptzSettings w)) with
    | None => w
    | Some endpoint =>
        let url := "http://" +:+ cameraIP (_ptzSettings w) +:+
                   "/cgi-bin/ptzctrl.cgi?" +:+ endpoint in
        ptz_set_fetched (fetched w ++ [url]) w
    end.

(** Whether a command goes to the camera:
    [!this._simCheckbox.checked && this._ptzSettings.cameraIP]. *)
Definition camera_live (w : Tracker) : bool :=
  negb (simCheckbox_checked w) &&
  negb (bool_decide (cameraIP (_ptzSettings w) = EmptyString)).

Definition trackingLoop (env : Env) (w : Tracker) : Tracker :=
  if negb (_isTracking w) then w
  else
    match getCurrentFrame env with
    | None => w
    | Some frame =>
        ptz_set_detecting
          (detecting w ++ [(frame, targetObject (_ptzSettings w))]) w
    end.

(** [String.prototype.toUpperCase] on a string of ASCII characters, as the
    commands are. *)
Definition upper_ascii (c : Ascii.ascii) : Ascii.ascii :=
  let n := Ascii.nat_of_ascii c in
  if (97 <=? n)%nat && (n <=? 122)%nat then Ascii.ascii_of_nat (n - 32)
  else c.

Fixpoint toUpperCase (s : string) : string :=
  match s with
  | EmptyString => EmptyString
  | String c s' => String (upper_ascii c) (toUpperCase s')
  end.

(** The [then] callback of trackingLoop; [objects] is
    [response.objects || []]. *)
Definition tracking_then (objects : list Box) (w : Tracker) : Tracker :=
  if negb (_isTracking w) then w
  else
    let w := ptz_set_detectionCount
               (Some (default 0 (_detectionCount w) + 1)%nat) w in
    let w := ptz_set_currentDetection (head objects) w in
    let ptzCommand := calculatePTZCommand (_currentDetection w) w in
    let w := if camera_live w then sendPTZCommand ptzCommand w else w in
    let objectStatus :=
      match _currentDetection w with
      | Some _ => "DETECTED"
      | None => "SEARCHING"
      end in
    let positionStatus :=
      match _currentDetection w with
      | Some detection => getPositionDescription detection
      | None => "--"
      end in
    let commandStatus := toUpperCase ptzCommand in
    let w := updateTrackingStatus objectStatus positionStatus commandStatus w in
    updateFPSDisplay w.

(** The [catch] callback of trackingLoop only logs the error. *)
Definition tracking_catch (w : Tracker) : Tracker := w.

Definition restartTrackingInterval (w : Tracker) : Tracker :=
  let intervalMs := 1000 / detectionRate (_ptzSettings w) in
  ptz_set_trackingInterval (Some intervalMs) w.

Definition startTracking (env : Env) (w : Tracker) : Tracker :=
  if negb (stream env) then ptz_showError "Please start webcam first" w
  else
    let target := trim (targetInput_value w) in
    if decide (target = EmptyString)
    then ptz_showError "Please enter a target object to track" w
    else
      let cameraIP := trim (ipInput_value w) in
      let isSimulation := simCheckbox_checked w in
      if negb isSimulation && bool_decide (cameraIP = EmptyString)
      then ptz_showError
             "Please enter PTZ camera IP or enable simulation mode" w
      else
        let w := ptz_set_ptzSettings
                   (set_targetObject target
                      (set_cameraIP cameraIP (_ptzSettings w))) w in
        let w := ptz_set_isTracking true w in
        let w := ptz_set_detectionCount (Some 0%nat) w in
        let w := ptz_set_startBtn_disabled true w in
        let w := ptz_set_stopBtn_disabled false w in
        let w := ptz_set_ipInput_disabled true w in
        let w := ptz_set_targetInput_disabled true w in
        let w := ptz_set_simCheckbox_disabled true w in
        let w := updateStatusOverlay "tracking" ("Tracking: " +:+ target) w in
        let w := ptz_hideError w in
        let w := trackingLoop env w in
        restartTrackingInterval w.

Definition stopTracking (w : Tracker) : Tracker :=
  let w := ptz_set_isTracking false w in
  let w := ptz_set_trackingInterval None w in
  let w := if camera_live w then sendPTZCommand "stop" w else w in
  let w := ptz_set_currentDetection None w in
  let w := ptz_set_startBtn_disabled false w in
  let w := ptz_set_stopBtn_disabled true w in
  let w := ptz_set_ipInput_disabled false w in
  let w := ptz_set_targetInput_disabled false w in
  let w := ptz_set_simCheckbox_disabled false w in
  let w := updateStatusOverlay "ready" "Ready" w in
  updateTrackingStatus "--" "--" "--" w.

(** [presetSelect.onchange]. *)
Definition selectPreset (value : string) (w : Tracker) : Tracker :=
  match _presets !! value with
  | Some preset =>
      ptz_set_ptzSettings
        (set_deadzoneY (deadzone preset)
           (set_deadzoneX (deadzone preset)
              (set_tiltSpeed (speed preset)
                 (set_panSpeed (speed preset)
                    (set_detectionRate (rate preset) (_ptzSettings w)))))) w
  | None => w
  end.

(** [rateSlider.oninput]; [rate] is [parseFloat(rateSlider.value)]. *)
Definition slideRate (rate : float) (w : Tracker) : Tracker :=
  let w := ptz_set_ptzSettings
             (set_detectionRate rate (_ptzSettings w)) w in
  if _isTracking w then restartTrackingInterval w else w.

Inductive TrackerEvent :=
| PtzClickStart                     (* startBtn.onclick, an API key being set *)
| PtzClickStop                      (* stopBtn.onclick *)
| PtzTypeIP (value : string)
| PtzTypeTarget (value : string)
| PtzQuickTarget (target : string)  (* the buttons person, face, hand *)
| PtzToggleSim
| PtzSelectPreset (value : string)
| PtzSlideRate (rate : float)
| PtzTick                           (* the tracking timer fires *)
| PtzDetected (i : nat) (objects : list Box)
                                    (* the i-th call in flight resolves *)
| PtzFailed (i : nat).              (* the i-th call in flight rejects *)

(** One turn of the event loop; [None] when the event cannot happen (the
    control is disabled, no timer is armed, no such call is in flight). *)
Definition ptz_step (env : Env) (e : TrackerEvent) (w : Tracker)
    : option Tracker :=
  match e with
  | PtzClickStart =>
      if startBtn_disabled w then None else Some (startTracking env w)
  | PtzClickStop =>
      if stopBtn_disabled w then None else Some (stopTracking w)
  | PtzTypeIP value =>
      if ipInput_disabled w then None else Some (ptz_set_ipInput_value value w)
  | PtzTypeTarget value =>
      if targetInput_disabled w then None
      else Some (ptz_set_targetInput_value value w)
  | PtzQuickTarget target =>
      if decide (target ∈ ["person"; "face"; "hand"])
      then Some (ptz_set_targetInput_value target w) else None
  | PtzToggleSim =>
      if simCheckbox_disabled w then None
      else Some (ptz_set_simCheckbox_checked (negb (simCheckbox_checked w)) w)
  | PtzSelectPreset value => Some (selectPreset value w)
  | PtzSlideRate rate => Some (slideRate rate w)
  | PtzTick =>
      match _trackingInterval w with
      | Some _ => Some (trackingLoop env w)
      | None => None
      end
  | PtzDetected i objects =>
      if decide (i < length (detecting w))%nat
      then Some (tracking_then objects
                   (ptz_set_detecting (delete i (detecting w)) w))
      else None
  | PtzFailed i =>
      if decide (i < length (detecting w))%nat
      then Some (tracking_catch
                   (ptz_set_detecting (delete i (detecting w)) w))
      else None
  end.

Fixpoint ptz_run (events : list (Env * TrackerEvent)) (w : Tracker)
    : option Tracker :=
  match events with
  | [] => Some w
  | (env, e) :: rest =>
      match ptz_step env e w with
      | Some w' => ptz_run rest w'
      | None => None
      end
  end.

End InputBoxes.

(** The timer runs at the detection rate: it is armed, with period
    [1000 / detectionRate], exactly while tracking. *)
Definition timer_at_rate (w : Tracker) : Prop :=
  _trackingInterval w =
  if _isTracking w then Some (1000 / detectionRate (_ptzSettings w)) else None.

Definition no_preset (events : list (Env * TrackerEvent)) : Prop :=
  Forall (fun ee => ∀ value, ee.2 ≠ PtzSelectPreset value) events.

Definition no_sim_toggle (events : list (Env * TrackerEvent)) : Prop :=
  Forall (fun ee => ee.2 ≠ PtzToggleSim) events.

(** Events that are completions of detect calls. *)
Definition is_completion (e : TrackerEvent) : bool :=
  match e with
  | PtzDetected _ _ | PtzFailed _ => true
  | _ => false
  end.

(** The endpoints that sendPTZCommand can request with speed [speed]. *)
Definition ptz_endpoints (speed : Z) : list string :=
  ["ptzcmd&left&" +:+ pretty speed +:+ "&" +:+ pretty speed;
   "ptzcmd&right&" +:+ pretty speed +:+ "&" +:+ pretty speed;
   "ptzcmd&up&" +:+ pretty speed +:+ "&" +:+ pretty speed;
   "ptzcmd&down&" +:+ pretty speed +:+ "&" +:+ pretty speed;
   "ptzcmd&ptzstop"].

(** Removes the spaces at both ends; it stands for [trim] on the example
    inputs, which have no other white space. *)
Fixpoint trim_left (s : string) : string :=
  match s with
  | String c s' => if Ascii.eqb c Ascii.Space then trim_left s' else s
  | EmptyString => s
  end.

Definition trim_spaces (s : string) : string :=
  String.rev (trim_left (String.rev (trim_left s))).

Definition to_the_right : Box :=
  {| x_min := 0.7; y_min := 0.4; x_max := 0.9; y_max := 0.6 |}.

(** A session: start, a tick, a detection to the right, stop. *)
Definition tracking_session : list (Env * TrackerEvent) :=
  [(webcam_env 0, PtzClickStart); (webcam_env 1000, PtzTick);
   (webcam_env 1300, PtzDetected 0 [to_the_right]);
   (webcam_env 2000, PtzClickStop)].

Definition simulated_tracker : Tracker :=
  ptz_set_simCheckbox_checked true PTZTrackerWidget.

Definition live_tracker : Tracker :=
  ptz_set_ipInput_value " 192.168.1.100" PTZTrackerWidget.

(** A session stopped with two detect calls still in flight, and their
    completions. *)
Definition interrupted_session : list (Env * TrackerEvent) :=
  [(webcam_env 0, PtzClickStart); (webcam_env 1000, PtzTick);
   (webcam_env 1100, PtzClickStop)].

Definition late_responses : list (Env * TrackerEvent) :=
  [(webcam_env 1300, PtzDetected 1 [to_the_right]);
   (webcam_env 1400, PtzFailed 0)].
(** * Proofs *)

Local Close Scope float_scope.

(** ** Order of binary64 numbers *)

Section FloatOrder.

Local Open Scope Z_scope.

Local Ltac sf_cases :=
  repeat match goal with
  | |- context [(?a ?= ?b)%Z] => destruct (Z.compare_spec a b); subst
  | H : context [(?a ?= ?b)%Z] |- _ => destruct (Z.compare_spec a b); subst
  | |- context [PosDef.Pos.compare_cont Eq ?a ?b] =>
      change (PosDef.Pos.compare_cont Eq a b) with (Pos.compare a b);
      destruct (Pos.compare_spec a b); subst
  | H : context [PosDef.Pos.compare_cont Eq ?a ?b] |- _ =>
      change (PosDef.Pos.compare_cont Eq a b) with (Pos.compare a b) in H;
      destruct (Pos.compare_spec a b); subst
  end; simpl in *; try congruence; try lia.

Lemma SFleb_ltb_false (x y : spec_float) :
  SFleb x y = true → SFltb y x = false.
Proof.
  unfold SFleb, SFltb, SFcompare.
  destruct x as [[]|[]| |[] mx ex], y as [[]|[]| |[] my ey];
    simpl; try congruence; sf_cases.
Qed.

Lemma SFltb_leb_trans (x y z : spec_float) :
  SFltb x y = true → SFleb y z = true → SFltb x z = true.
Proof.
  unfold SFleb, SFltb, SFcompare.
  destruct x as [[]|[]| |[] mx ex], y as [[]|[]| |[] my ey],
           z as [[]|[]| |[] mz ez]; simpl; try congruence; sf_cases.
Qed.

Lemma SFleb_ltb_trans (x y z : spec_float) :
  SFleb x y = true → SFltb y z = true → SFltb x z = true.
Proof.
  unfold SFleb, SFltb, SFcompare.
  destruct x as [[]|[]| |[] mx ex], y as [[]|[]| |[] my ey],
           z as [[]|[]| |[] mz ez]; simpl; try congruence; sf_cases.
Qed.

Lemma SFltb_trans (x y z : spec_float) :
  SFltb x y = true → SFltb y z = true → SFltb x z = true.
Proof.
  unfold SFltb, SFcompare.
  destruct x as [[]|[]| |[] mx ex], y as [[]|[]| |[] my ey],
           z as [[]|[]| |[] mz ez]; simpl; try congruence; sf_cases.
Qed.

End FloatOrder.

Lemma float_leb_not_gt (x y : float) :
  (x <=? y)%float = true → (y <? x)%float = false.
Proof. rewrite leb_spec, ltb_spec. apply SFleb_ltb_false. Qed.

Lemma float_ltb_leb_trans (x y z : float) :
  (x <? y)%float = true → (y <=? z)%float = true → (x <? z)%float = true.
Proof. rewrite !ltb_spec, leb_spec. apply SFltb_leb_trans. Qed.

Lemma float_leb_ltb_trans (x y z : float) :
  (x <=? y)%float = true → (y <? z)%float = true → (x <? z)%float = true.
Proof. rewrite !ltb_spec, leb_spec. apply SFleb_ltb_trans. Qed.

Lemma float_ltb_trans (x y z : float) :
  (x <? y)%float = true → (y <? z)%float = true → (x <? z)%float = true.
Proof. rewrite !ltb_spec. apply SFltb_trans. Qed.

(** A number above [hi] is not below a constant [lo <= hi], and so on: the
    four ways in which two tests of a threshold chain exclude each other. *)
Lemma float_above_not_below (lo hi v : float) :
  (lo <=? hi)%float = true → (hi <=? v)%float = true → (v <? lo)%float = false.
Proof.
  intros Hc Hv. destruct (v <? lo)%float eqn:E; [|done].
  pose proof (float_leb_ltb_trans _ _ _ Hv E) as H1.
  pose proof (float_leb_not_gt _ _ Hc). congruence.
Qed.

Lemma float_below_not_above (lo hi v : float) :
  (lo <=? hi)%float = true → (v <=? lo)%float = true → (hi <? v)%float = false.
Proof.
  intros Hc Hv. destruct (hi <? v)%float eqn:E; [|done].
  pose proof (float_ltb_leb_trans _ _ _ E Hv) as H1.
  pose proof (float_leb_not_gt _ _ Hc). congruence.
Qed.

Lemma float_gt_not_below (lo hi v : float) :
  (lo <=? hi)%float = true → (hi <? v)%float = true → (v <? lo)%float = false.
Proof.
  intros Hc Hv. destruct (v <? lo)%float eqn:E; [|done].
  pose proof (float_ltb_trans _ _ _ Hv E) as H1.
  pose proof (float_leb_not_gt _ _ Hc). congruence.
Qed.

Lemma float_lt_not_above (lo hi v : float) :
  (lo <=? hi)%float = true → (v <? lo)%float = true → (hi <? v)%float = false.
Proof.
  intros Hc Hv. destruct (hi <? v)%float eqn:E; [|done].
  pose proof (float_ltb_trans _ _ _ E Hv) as H1.
  pose proof (float_leb_not_gt _ _ Hc). congruence.
Qed.

(** ** What the methods leave alone *)

Lemma updateMonitorStatus_frame (key s c : string) (w : Widget) :
  updateMonitorStatus key s c w
  = set_monitors (_monitors (updateMonitorStatus key s c w)) w.
Proof.
  unfold updateMonitorStatus. destruct w; simpl.
  repeat case_match; reflexivity.
Qed.

Lemma updateMonitorStatus_lookup_ne (key s c k : string) (w : Widget) :
  k ≠ key →
  _monitors (updateMonitorStatus key s c w) !! k = _monitors w !! k.
Proof.
  intros Hne. unfold updateMonitorStatus.
  repeat case_match; simpl; try reflexivity.
  by rewrite lookup_insert_ne.
Qed.

Lemma updateMonitorStatus_lookup (key s c : string) (w : Widget)
    (m : Monitor) (card : Card) :
  _monitors w !! key = Some m → element m = Some card →
  ∃ card',
    _monitors (updateMonitorStatus key s c w) !! key
    = Some {| enabled := enabled m; status := s; class := c;
              element := Some card' |}.
Proof.
  intros Hm Hc. unfold updateMonitorStatus. rewrite Hm, Hc. simpl.
  eexists. by rewrite lookup_insert_eq.
Qed.

Lemma updateMonitorStatus_shown (key s c : string) (w : Widget)
    (m : Monitor) (card : Card) :
  _monitors w !! key = Some m → element m = Some card →
  shown key (updateMonitorStatus key s c w) = Some (s, c).
Proof.
  intros Hm Hc. unfold shown.
  destruct (updateMonitorStatus_lookup key s c w m card Hm Hc) as [card' ->].
  reflexivity.
Qed.

Lemma updateMonitorStatus_enabled (key s c k : string) (w : Widget) :
  monitor_enabled k (updateMonitorStatus key s c w) = monitor_enabled k w.
Proof.
  unfold monitor_enabled, updateMonitorStatus.
  destruct (_monitors w !! key) as [m|] eqn:Hm; [|done].
  destruct (element m) eqn:Hc; [|done]. simpl.
  destruct (decide (k = key)) as [->|Hne].
  - by rewrite lookup_insert_eq, Hm.
  - by rewrite lookup_insert_ne.
Qed.

Lemma updateMonitorStatus_dom (key s c : string) (w : Widget) :
  dom (_monitors (updateMonitorStatus key s c w)) = dom (_monitors w).
Proof.
  unfold updateMonitorStatus.
  destruct (_monitors w !! key) as [m|] eqn:Hm; [|done].
  destruct (element m) eqn:Hc; [|done]. simpl.
  rewrite dom_insert_L. apply elem_of_dom_2 in Hm.
  apply subseteq_union_1_L, singleton_subseteq_l, Hm.
Qed.

Lemma analyzeLighting_frame (env : Env) (w : Widget) :
  analyzeLighting env w = set_monitors (_monitors (analyzeLighting env w)) w.
Proof.
  unfold analyzeLighting. destruct (lighting env);
    apply updateMonitorStatus_frame.
Qed.

Lemma analyzeLighting_lookup_ne (env : Env) (w : Widget) (k : string) :
  k ≠ "lighting" →
  _monitors (analyzeLighting env w) !! k = _monitors w !! k.
Proof.
  intros Hne. unfold analyzeLighting.
  destruct (lighting env); by apply updateMonitorStatus_lookup_ne.
Qed.

Lemma analyzeLighting_enabled (env : Env) (w : Widget) (k : string) :
  monitor_enabled k (analyzeLighting env w) = monitor_enabled k w.
Proof.
  unfold analyzeLighting.
  destruct (lighting env); apply updateMonitorStatus_enabled.
Qed.

(** ** The scheduler and its throttle *)

Lemma remote_calls_dispatch_faceMesh (w : Widget) :
  remote_calls (dispatch ReqFaceMesh w) = remote_calls w.
Proof.
  unfold remote_calls, dispatch; simpl.
  rewrite filter_app.
  change (filter _ [ReqFaceMesh]) with (@nil Request).
  by rewrite app_nil_r.
Qed.

Lemma runMoonDreamAnalysis_frame (env : Env) (w : Widget) :
  _monitors (runMoonDreamAnalysis env w) = _monitors w
  ∧ _isMonitoring (runMoonDreamAnalysis env w) = _isMonitoring w
  ∧ _lastMoonDreamCall (runMoonDreamAnalysis env w) = _lastMoonDreamCall w
  ∧ _talkingState (runMoonDreamAnalysis env w) = _talkingState w.
Proof.
  unfold runMoonDreamAnalysis. repeat case_match; done.
Qed.

Lemma before_throttle_frame (env : Env) (w : Widget) :
  _isMonitoring (before_throttle env w) = _isMonitoring w
  ∧ _lastMoonDreamCall (before_throttle env w) = _lastMoonDreamCall w
  ∧ remote_calls (before_throttle env w) = remote_calls w.
Proof.
  unfold before_throttle.
  destruct (_faceMesh w && (media env && video env) && stream env);
    case_match; try rewrite analyzeLighting_frame; simpl;
    (split; [done|split; [done|]]);
    try apply remote_calls_dispatch_faceMesh; done.
Qed.

Lemma runMonitoringCycle_unfold (env : Env) (w : Widget) :
  runMonitoringCycle env w =
  if negb (_isMonitoring w) then w
  else if (now env - _lastMoonDreamCall w >? 2000)%Z
       then runMoonDreamAnalysis env
              (set_lastMoonDreamCall (now env) (before_throttle env w))
       else before_throttle env w.
Proof.
  unfold runMonitoringCycle. destruct (_isMonitoring w); simpl; [|done].
  destruct (before_throttle_frame env w) as (_ & Hl & _).
  unfold before_throttle in *. by rewrite Hl.
Qed.

Lemma runMonitoringCycle_isMonitoring (env : Env) (w : Widget) :
  _isMonitoring (runMonitoringCycle env w) = _isMonitoring w.
Proof.
  rewrite runMonitoringCycle_unfold.
  destruct (before_throttle_frame env w) as (Hm & _ & _).
  destruct (_isMonitoring w) eqn:E; simpl; [|done].
  case_match; [|done].
  destruct (runMoonDreamAnalysis_frame env
    (set_lastMoonDreamCall (now env) (before_throttle env w))) as (_ & -> & _).
  done.
Qed.

(** The time of the last remote call after a cycle: [now] when the cycle ran
    and the window had elapsed, unchanged otherwise. *)
Lemma runMonitoringCycle_last (env : Env) (w : Widget) :
  _lastMoonDreamCall (runMonitoringCycle env w) =
  if _isMonitoring w && (now env - _lastMoonDreamCall w >? 2000)%Z
  then now env else _lastMoonDreamCall w.
Proof.
  rewrite runMonitoringCycle_unfold.
  destruct (before_throttle_frame env w) as (_ & Hl & _).
  destruct (_isMonitoring w); simpl; [|done].
  case_match; [|done].
  destruct (runMoonDreamAnalysis_frame env
    (set_lastMoonDreamCall (now env) (before_throttle env w)))
    as (_ & _ & -> & _).
  done.
Qed.

Lemma issues_remote_call_passes (env : Env) (w : Widget) :
  issues_remote_call env w = true →
  _isMonitoring w = true ∧ (now env - _lastMoonDreamCall w >? 2000)%Z = true.
Proof.
  unfold issues_remote_call. intros H%bool_decide_eq_true.
  rewrite runMonitoringCycle_unfold in H.
  destruct (before_throttle_frame env w) as (_ & _ & Hr).
  destruct (_isMonitoring w); simpl in H; [|lia].
  destruct (now env - _lastMoonDreamCall w >? 2000)%Z; [done|].
  rewrite Hr in H. lia.
Qed.

Lemma issues_remote_call_inflight (env : Env) (w : Widget) :
  issues_remote_call env w = true →
  ReqDetect ∈ inflight (runMonitoringCycle env w)
  ∨ ReqCaption ∈ inflight (runMonitoringCycle env w).
Proof.
  intros H. pose proof (issues_remote_call_passes _ _ H) as [Hm Ht].
  unfold issues_remote_call in H. apply bool_decide_eq_true in H.
  rewrite runMonitoringCycle_unfold in *. rewrite Hm, Ht in *. simpl in *.
  destruct (before_throttle_frame env w) as (_ & _ & Hr).
  unfold runMoonDreamAnalysis in *.
  set (w1 := set_lastMoonDreamCall (now env) (before_throttle env w)) in *.
  assert (Hw1 : remote_calls w1 = remote_calls w) by (rewrite <- Hr; done).
  destruct (getCurrentFrame env); [|rewrite Hw1 in H; lia].
  repeat case_match; simpl; try (rewrite Hw1 in H; lia);
    rewrite ?elem_of_app, ?list_elem_of_singleton; auto.
Qed.

(** *** No analyzer and no callback writes the scheduler's fields *)

Lemma updateMonitorStatus_schedule (key s c : string) (w : Widget) :
  schedule_of (updateMonitorStatus key s c w) = schedule_of w.
Proof. by rewrite updateMonitorStatus_frame. Qed.

Lemma analyzeOrientation_schedule (landmarks : LandmarkFrame) (w : Widget) :
  schedule_of (analyzeOrientation landmarks w) = schedule_of w.
Proof.
  unfold analyzeOrientation.
  repeat case_match; apply updateMonitorStatus_schedule.
Qed.

Lemma analyzeTalking_schedule (landmarks : LandmarkFrame) (t : Z) (w : Widget) :
  schedule_of (analyzeTalking landmarks t w) = schedule_of w.
Proof.
  unfold analyzeTalking.
  repeat case_match; by rewrite updateMonitorStatus_schedule.
Qed.

Lemma analyzeFocus_schedule (env : Env) (landmarks : LandmarkFrame)
    (w : Widget) :
  schedule_of (analyzeFocus env landmarks w) = schedule_of w.
Proof.
  unfold analyzeFocus.
  repeat case_match; apply updateMonitorStatus_schedule.
Qed.

Lemma processFrameResults_schedule (env : Env) (faces : list LandmarkFrame)
    (w : Widget) :
  schedule_of (processFrameResults env faces w) = schedule_of w.
Proof.
  unfold processFrameResults.
  destruct (negb (_isMonitoring w)); [done|].
  destruct faces as [|face0 faces].
  - repeat case_match; by rewrite ?updateMonitorStatus_schedule.
  - unfold smoothLandmarks.
    repeat case_match;
      by rewrite ?analyzeFocus_schedule, ?analyzeTalking_schedule,
                 ?analyzeOrientation_schedule.
Qed.

Lemma detect_then_schedule (objects : list Box) (w : Widget) :
  schedule_of (detect_then objects w) = schedule_of w.
Proof.
  unfold detect_then.
  repeat case_match; by rewrite ?updateMonitorStatus_schedule.
Qed.

Lemma detect_catch_schedule (w : Widget) :
  schedule_of (detect_catch w) = schedule_of w.
Proof.
  unfold detect_catch.
  repeat case_match; by rewrite ?updateMonitorStatus_schedule.
Qed.

Lemma caption_then_schedule (caption : string) (w : Widget) :
  schedule_of (caption_then caption w) = schedule_of w.
Proof.
  unfold caption_then.
  change (schedule_of (set_sceneText ?s ?w')) with (schedule_of w').
  apply updateMonitorStatus_schedule.
Qed.

Lemma caption_catch_schedule (w : Widget) :
  schedule_of (caption_catch w) = schedule_of w.
Proof. apply updateMonitorStatus_schedule. Qed.

Lemma callback_schedule (env : Env) (r : Response) (w : Widget) :
  schedule_of (callback env r w) = schedule_of w.
Proof.
  destruct r; simpl;
    auto using processFrameResults_schedule, detect_then_schedule,
      detect_catch_schedule, caption_then_schedule, caption_catch_schedule.
Qed.

(** A completing call does not touch the time of the last remote call. *)
Lemma callback_last (env : Env) (r : Response) (w : Widget) :
  _lastMoonDreamCall (callback env r w) = _lastMoonDreamCall w.
Proof.
  pose proof (callback_schedule env r w) as H.
  unfold schedule_of in H. by simplify_eq.
Qed.

Lemma firing_cycles_throttle (envs : list Env) (w : Widget) :
  (firing_cycles envs w
   ≤ throttle_passes (_isMonitoring w) (now <$> envs) (_lastMoonDreamCall w))%nat.
Proof.
  revert w. induction envs as [|env envs IH]; intros w; [simpl; lia|].
  specialize (IH (runMonitoringCycle env w)).
  rewrite runMonitoringCycle_last, runMonitoringCycle_isMonitoring in IH.
  rewrite fmap_cons. cbn [firing_cycles throttle_passes].
  destruct (issues_remote_call env w) eqn:E.
  - apply issues_remote_call_passes in E as [Hm Ht].
    rewrite Hm, Ht in IH |- *. cbn [andb] in IH |- *. lia.
  - destruct (_isMonitoring w && (now env - _lastMoonDreamCall w >? 2000)%Z);
      lia.
Qed.

(** Two ticks 1500 ms apart never both pass: of five such ticks at most
    three do. *)
Lemma throttle_passes_five (monitoring : bool) (t0 last : Z) :
  (throttle_passes monitoring (spaced_ticks 5 1500 t0) last ≤ 3)%nat.
Proof.
  cbn [spaced_ticks throttle_passes].
  destruct monitoring; cbn [andb]; [|lia].
  repeat match goal with
  | |- context [(?a >? ?b)%Z] =>
      let E := fresh "E" in
      destruct (Z.gtb_spec a b) as [E|E]
  end; lia.
Qed.

(** C4. A cycle issues a batched remote call only if
    [now - _lastMoonDreamCall > 2000] at that tick; [_lastMoonDreamCall] is
    [now] as soon as the call is issued, while the call is still in flight,
    and the completion of a call does not write it; over five consecutive
    cycles 1500 ms apart at most [ceil (5 * 1500 / 2000)] cycles issue a
    remote call. *)
Theorem throttle_window :
  (∀ (env : Env) (w : Widget),
     issues_remote_call env w = true →
     (now env - _lastMoonDreamCall w > 2000)%Z
     ∧ _lastMoonDreamCall (runMonitoringCycle env w) = now env
     ∧ (ReqDetect ∈ inflight (runMonitoringCycle env w)
        ∨ ReqCaption ∈ inflight (runMonitoringCycle env w)))
  ∧ (∀ (env : Env) (r : Response) (w w' : Widget),
       step env (Completion r) w = Some w' →
       _lastMoonDreamCall w' = _lastMoonDreamCall w)
  ∧ (∀ (t0 : Z) (envs : list Env) (w : Widget),
       now <$> envs = spaced_ticks 5 1500 t0 →
       (firing_cycles envs w ≤ Z.to_nat (ceil_div (5 * 1500) 2000))%nat).
Proof.
  split; [|split].
  - intros env w H.
    pose proof (issues_remote_call_passes _ _ H) as [Hm Ht].
    split; [by apply Z.gtb_gt|]. split.
    + by rewrite runMonitoringCycle_last, Hm, Ht.
    + by apply issues_remote_call_inflight.
  - intros env r w w' H. simpl in H. case_decide; [|done].
    injection H as <-. by rewrite callback_last.
  - intros t0 envs w Hts.
    pose proof (firing_cycles_throttle envs w) as H.
    rewrite Hts in H.
    pose proof (throttle_passes_five (_isMonitoring w) t0
                  (_lastMoonDreamCall w)) as H5.
    change (Z.to_nat (ceil_div (5 * 1500) 2000)) with 4%nat. lia.
Qed.

(** Five cycles of a monitoring widget with a webcam, from 1 700 000 000 000. *)
Lemma throttle_window_witness :
  (firing_cycles
     (webcam_env <$> spaced_ticks 5 1500 1700000000000%Z)
     (set_isMonitoring true rendered_widget)
   ≤ Z.to_nat (ceil_div (5 * 1500) 2000))%nat.
Proof.
  apply (proj2 (proj2 throttle_window) 1700000000000%Z). reflexivity.
Defined.

(** On that run the first, third and fifth cycles issue a call. *)
Example throttle_three_of_five :
  firing_cycles (webcam_env <$> spaced_ticks 5 1500 1700000000000%Z)
    (set_isMonitoring true rendered_widget) = 3%nat.
Proof. vm_compute. reflexivity. Qed.

Lemma getCurrentFrame_None (env : Env) :
  getCurrentFrame env = None → (media env && video env) && stream env = false.
Proof.
  unfold getCurrentFrame.
  destruct (media env), (video env), (stream env); simpl; congruence.
Qed.

(** C10. When the throttle window has elapsed at a tick and no frame is
    available, the cycle still sets [_lastMoonDreamCall] to [now]; the
    remote-analysis routine returns the widget as it got it: no request
    joins the calls in flight and no monitor is written by it (only the
    lighting analyzer of the same cycle may write, its own monitor); and no
    later cycle within 2000 ms of this tick issues a remote call. *)
Theorem skipped_attempt_consumes_window (env : Env) (w : Widget) :
  _isMonitoring w = true →
  (now env - _lastMoonDreamCall w > 2000)%Z →
  getCurrentFrame env = None →
  _lastMoonDreamCall (runMonitoringCycle env w) = now env
  ∧ (∀ w0 : Widget, runMoonDreamAnalysis env w0 = w0)
  ∧ inflight (runMonitoringCycle env w) = inflight w
  ∧ (∀ key : string, key ≠ "lighting" →
       _monitors (runMonitoringCycle env w) !! key = _monitors w !! key)
  ∧ (∀ env' : Env, (now env' - now env ≤ 2000)%Z →
       issues_remote_call env' (runMonitoringCycle env w) = false).
Proof.
  intros Hm Ht%Z.gtb_gt Hf.
  assert (Hlast : _lastMoonDreamCall (runMonitoringCycle env w) = now env)
    by (by rewrite runMonitoringCycle_last, Hm, Ht).
  assert (Hskip : ∀ w0, runMoonDreamAnalysis env w0 = w0)
    by (intros w0; unfold runMoonDreamAnalysis; by rewrite Hf).
  assert (Hcycle : runMonitoringCycle env w
                   = set_lastMoonDreamCall (now env) (before_throttle env w))
    by (by rewrite runMonitoringCycle_unfold, Hm, Ht, Hskip).
  assert (Hbefore : before_throttle env w
                    = if monitor_enabled "lighting" w
                      then analyzeLighting env w else w).
  { unfold before_throttle.
    replace (_faceMesh w && (media env && video env) && stream env)
      with false; [done|].
    symmetry. rewrite <- andb_assoc, (getCurrentFrame_None _ Hf).
    apply andb_false_r. }
  split; [done|]. split; [done|]. split; [|split].
  - rewrite Hcycle, Hbefore. case_match; [|done].
    by rewrite analyzeLighting_frame.
  - intros key Hkey. rewrite Hcycle, Hbefore. case_match; [|done].
    simpl. by apply analyzeLighting_lookup_ne.
  - intros env' Hnear.
    destruct (issues_remote_call env' (runMonitoringCycle env w)) eqn:E;
      [|done].
    apply issues_remote_call_passes in E as [_ E%Z.gtb_gt].
    rewrite Hlast in E. lia.
Qed.

(** The webcam was stopped while monitoring: the tick at 1 700 000 003 000
    finds no frame. *)
Lemma skipped_attempt_consumes_window_witness :
  _lastMoonDreamCall
    (runMonitoringCycle (no_frame_env 1700000003000%Z)
       (set_isMonitoring true rendered_widget)) = 1700000003000%Z
  ∧ issues_remote_call (webcam_env 1700000004500%Z)
      (runMonitoringCycle (no_frame_env 1700000003000%Z)
         (set_isMonitoring true rendered_widget)) = false.
Proof.
  pose proof (skipped_attempt_consumes_window (no_frame_env 1700000003000%Z)
                (set_isMonitoring true rendered_widget)
                eq_refl eq_refl eq_refl) as (H1 & _ & _ & _ & H5).
  split; [exact H1|]. apply H5. simpl. lia.
Defined.

(** ** Local analyzers: thresholds *)

Lemma monitor_enabled_true (key : string) (w : Widget) (m : Monitor) :
  _monitors w !! key = Some m → enabled m = true →
  monitor_enabled key w = true.
Proof. intros Hm He. unfold monitor_enabled. by rewrite Hm. Qed.

(** The loop over the pixels adds the luminance of each pixel, in order. *)
Lemma foldl_luminance (data : list (Z * Z * Z * Z)) (total : float) :
  foldl (fun total p => (total + luminance p)%float) total data
  = foldl PrimFloat.add total (stated_luminance <$> data).
Proof.
  revert total. induction data as [|p data IH]; intros total; [reflexivity|].
  cbn [foldl fmap list_fmap]. rewrite IH.
  by destruct p as [[[R G] B] A].
Qed.

Lemma avgBrightness_mean (data : list (Z * Z * Z * Z)) :
  avgBrightness data = arithmetic_mean (stated_luminance <$> data).
Proof.
  unfold avgBrightness, arithmetic_mean, fsum.
  by rewrite foldl_luminance, length_fmap.
Qed.

(** C8. On a frame whose pixels can be read, with [L] the arithmetic mean
    over all pixels of [0.299 R + 0.587 G + 0.114 B] (computed on JS
    numbers, pixel after pixel), the lighting monitor shows DARK / bad when
    [L < 50], DIM / warning when [50 <= L < 90], GOOD / good when
    [90 <= L <= 180], BRIGHT / warning when [180 < L <= 220] and
    OVEREXPOSED / bad when [L > 220]; so 49 gives DARK, 50 DIM, 90 GOOD,
    180 GOOD, 181 BRIGHT, 220 BRIGHT and 221 OVEREXPOSED. *)
Theorem lighting_classification (env : Env) (w : Widget)
    (data : list (Z * Z * Z * Z)) (m : Monitor) (card : Card) :
  lighting env = LightPixels data →
  _monitors w !! "lighting" = Some m → element m = Some card →
  ∀ L : float,
  L = (fsum ((fun '(R, G, B, _) =>
               0.299 * float_of_channel R + 0.587 * float_of_channel G
               + 0.114 * float_of_channel B) <$> data)
       / float_of_nat (length data))%float →
  let shows := shown "lighting" (analyzeLighting env w) in
  ((L <? 50)%float = true → shows = Some ("DARK", "bad"))
  ∧ ((50 <=? L)%float = true → (L <? 90)%float = true →
       shows = Some ("DIM", "warning"))
  ∧ ((90 <=? L)%float = true → (L <=? 180)%float = true →
       shows = Some ("GOOD", "good"))
  ∧ ((180 <? L)%float = true → (L <=? 220)%float = true →
       shows = Some ("BRIGHT", "warning"))
  ∧ ((220 <? L)%float = true → shows = Some ("OVEREXPOSED", "bad"))
  ∧ (L = 49%float → shows = Some ("DARK", "bad"))
  ∧ (L = 50%float → shows = Some ("DIM", "warning"))
  ∧ (L = 90%float → shows = Some ("GOOD", "good"))
  ∧ (L = 180%float → shows = Some ("GOOD", "good"))
  ∧ (L = 181%float → shows = Some ("BRIGHT", "warning"))
  ∧ (L = 220%float → shows = Some ("BRIGHT", "warning"))
  ∧ (L = 221%float → shows = Some ("OVEREXPOSED", "bad")).
Proof.
  intros Hsrc Hm Hc L HL shows.
  assert (L = avgBrightness data) as ->.
  { rewrite HL, avgBrightness_mean. unfold arithmetic_mean.
    by rewrite length_fmap. }
  clear HL.
  assert (Hshows : shows = Some (lightingStatus (avgBrightness data))).
  { unfold shows, analyzeLighting. rewrite Hsrc.
    rewrite (updateMonitorStatus_shown _ _ _ _ _ _ Hm Hc).
    by destruct (lightingStatus (avgBrightness data)). }
  rewrite Hshows. clear Hshows shows. unfold lightingStatus.
  generalize (avgBrightness data) as L. intros L.
  repeat split.
  - by intros ->.
  - intros H1 H2. by rewrite (float_leb_not_gt _ _ H1), H2.
  - intros H1 H2.
    rewrite (float_above_not_below 50 90 L eq_refl H1).
    rewrite (float_leb_not_gt _ _ H1).
    rewrite (float_below_not_above 180 220 L eq_refl H2).
    by rewrite (float_leb_not_gt _ _ H2).
  - intros H1 H2.
    rewrite (float_gt_not_below 50 180 L eq_refl H1).
    rewrite (float_gt_not_below 90 180 L eq_refl H1).
    by rewrite (float_leb_not_gt _ _ H2), H1.
  - intros H1.
    rewrite (float_gt_not_below 50 220 L eq_refl H1).
    by rewrite (float_gt_not_below 90 220 L eq_refl H1), H1.
  - by intros ->.
  - by intros ->.
  - by intros ->.
  - by intros ->.
  - by intros ->.
  - by intros ->.
  - by intros ->.
Qed.

(** A frame of two pixels, pure red and pure blue: the luminances
    76.24499999999999 and 29.07 average to 52.6575, which shows DIM; and a
    one-pixel frame of luminance 181, which shows BRIGHT. *)
Lemma lighting_classification_witness :
  shown "lighting"
    (analyzeLighting (pixels_env [(255, 0, 0, 255)%Z; (0, 0, 255, 255)%Z])
       rendered_widget)
  = Some ("DIM", "warning")
  ∧ shown "lighting" (analyzeLighting (grey_env 181) rendered_widget)
    = Some ("BRIGHT", "warning").
Proof.
  split.
  - pose proof (lighting_classification
                  (pixels_env [(255, 0, 0, 255)%Z; (0, 0, 255, 255)%Z])
                  rendered_widget [(255, 0, 0, 255)%Z; (0, 0, 255, 255)%Z]
                  rendered_monitor fresh_card
                  eq_refl eq_refl eq_refl 52.6575%float)
      as H.
    destruct H as (_ & H & _); [vm_compute; reflexivity|].
    apply H; reflexivity.
  - pose proof (lighting_classification (grey_env 181) rendered_widget
                  [(181, 181, 181, 255)%Z] rendered_monitor fresh_card
                  eq_refl eq_refl eq_refl 181%float)
      as H.
    destruct H as (_ & _ & _ & H & _); [vm_compute; reflexivity|].
    apply H; reflexivity.
Defined.

(** The seven sample luminances are reached by one-pixel grey frames. *)
Example lighting_samples :
  avgBrightness <$> [[(49, 49, 49, 255)%Z]; [(50, 50, 50, 255)%Z];
                     [(90, 90, 90, 255)%Z]; [(180, 180, 180, 255)%Z];
                     [(181, 181, 181, 255)%Z]; [(220, 220, 220, 255)%Z];
                     [(221, 221, 221, 255)%Z]]
  = [49; 50; 90; 180; 181; 220; 221]%float.
Proof. vm_compute. reflexivity. Qed.

(** Each channel has its own weight, and the sum is divided by the number
    of pixels: pure red, green and blue pixels, a black and a white pixel
    together, and the status of each frame. *)
Example lighting_weights :
  avgBrightness <$> [[(255, 0, 0, 255)%Z]; [(0, 255, 0, 255)%Z];
                     [(0, 0, 255, 255)%Z];
                     [(0, 0, 0, 255)%Z; (255, 255, 255, 255)%Z]]
  = [76.24499999999999; 149.685; 29.07; 127.5]%float
  ∧ (fun data => shown "lighting"
                   (analyzeLighting (pixels_env data) rendered_widget))
    <$> [[(255, 0, 0, 255)%Z]; [(0, 255, 0, 255)%Z]; [(0, 0, 255, 255)%Z];
         [(0, 0, 0, 255)%Z; (255, 255, 255, 255)%Z]]
    = Some <$> [("DIM", "warning"); ("GOOD", "good"); ("DARK", "bad");
                ("GOOD", "good")].
Proof. split; vm_compute; reflexivity. Qed.

(** [L] is the number the loop computes: on the pixel (5, 77, 29) the
    three products add up to 49.999999999999993, below 50, and the monitor
    shows DARK. *)
Example lighting_rounding :
  avgBrightness [(5, 77, 29, 255)%Z] = 49.999999999999993%float
  ∧ shown "lighting"
      (analyzeLighting (pixels_env [(5, 77, 29, 255)%Z]) rendered_widget)
    = Some ("DARK", "bad").
Proof. split; vm_compute; reflexivity. Qed.

(** The thresholds of [analyzeFocus] are applied to the number [s] that
    [cv.meanStdDev] returns, the standard deviation of the Laplacian: the
    focus monitor shows SHARP / good when [s > 12], OK / warning when
    [6 < s <= 12] and BLURRY / bad when [s <= 6]. *)
Lemma focus_thresholds_on_deviation (env : Env) (w : Widget)
    (landmarks : LandmarkFrame) (leftEye rightEye nose : Point)
    (fw fh : Z) (v : float) (m : Monitor) (card : Card) :
  _cvReady w = true →
  landmark_at landmarks LANDMARKS.LEFT_EYE = Some leftEye →
  landmark_at landmarks LANDMARKS.RIGHT_EYE = Some rightEye →
  landmark_at landmarks LANDMARKS.NOSE_TIP = Some nose →
  focus env = FocusFrame fw fh (Some v) →
  (40 ≤ fw)%Z → (40 ≤ fh)%Z →
  _monitors w !! "focus" = Some m → element m = Some card →
  let shows := shown "focus" (analyzeFocus env landmarks w) in
  ((12 <? v)%float = true → shows = Some ("SHARP", "good"))
  ∧ ((6 <? v)%float = true → (v <=? 12)%float = true →
       shows = Some ("OK", "warning"))
  ∧ ((v <=? 6)%float = true → shows = Some ("BLURRY", "bad"))
  ∧ (v = 12%float → shows = Some ("OK", "warning"))
  ∧ (v = 6%float → shows = Some ("BLURRY", "bad"))
  ∧ (v = 13%float → shows = Some ("SHARP", "good")).
Proof.
  intros Hcv Hl Hr Hn Hsrc Hw Hh Hm Hc shows.
  assert (Hshows : shows = Some (focusStatus v)).
  { unfold shows, analyzeFocus. rewrite Hcv, Hl, Hr, Hn, Hsrc. simpl.
    replace ((fw =? 0)%Z || (fh =? 0)%Z || (fw <? 40)%Z || (fh <? 40)%Z)
      with false.
    - rewrite (updateMonitorStatus_shown _ _ _ _ _ _ Hm Hc).
      by destruct (focusStatus v).
    - symmetry. rewrite !orb_false_iff.
      repeat split; try apply Z.eqb_neq; try apply Z.ltb_ge; lia. }
  rewrite Hshows. clear Hshows shows. unfold focusStatus.
  repeat split.
  - by intros ->.
  - intros H1 H2. by rewrite (float_leb_not_gt _ _ H2), H1.
  - intros H1. rewrite (float_below_not_above 6 12 v eq_refl H1).
    by rewrite (float_leb_not_gt _ _ H1).
  - by intros ->.
  - by intros ->.
  - by intros ->.
Qed.

(** A 640 x 480 source and a standard deviation of 12 on the rendered
    widget. *)
Lemma focus_thresholds_on_deviation_example :
  shown "focus"
    (analyzeFocus (focus_env 12) face_landmarks rendered_widget)
  = Some ("OK", "warning").
Proof.
  pose proof (focus_thresholds_on_deviation (focus_env 12) rendered_widget
                face_landmarks centered_point centered_point centered_point
                640 480 12%float rendered_monitor fresh_card
                eq_refl eq_refl eq_refl eq_refl eq_refl
                ltac:(lia) ltac:(lia) eq_refl eq_refl)
    as (_ & H & _).
  apply H; reflexivity.
Qed.

(** C9 (as stated) fails on the code. The number that the code names
    [variance] is [stdDev.doubleAt(0, 0)], the standard deviation of the
    Laplacian, and it is never squared. On a patch whose Laplacian has
    standard deviation 8, the variance is 64, above 12, and the focus
    monitor shows OK / warning, not SHARP; with standard deviation 4
    (variance 16) and with the square root of 13 (the variance 13 of the
    claim's sample) it shows BLURRY / bad, not SHARP; with standard
    deviation 3 (variance 9) it shows BLURRY, not OK. *)
Theorem focus_thresholds_deviation_not_variance :
  ((8 * 8)%float = 64%float ∧ (12 <? 64)%float = true
   ∧ shown "focus" (analyzeFocus (focus_env 8) face_landmarks rendered_widget)
     = Some ("OK", "warning"))
  ∧ ((4 * 4)%float = 16%float ∧ (12 <? 16)%float = true
     ∧ shown "focus" (analyzeFocus (focus_env 4) face_landmarks rendered_widget)
       = Some ("BLURRY", "bad"))
  ∧ (shown "focus"
       (analyzeFocus (focus_env (PrimFloat.sqrt 13)) face_landmarks
          rendered_widget)
     = Some ("BLURRY", "bad"))
  ∧ ((3 * 3)%float = 9%float ∧ (6 <? 9)%float = true ∧ (9 <=? 12)%float = true
     ∧ shown "focus" (analyzeFocus (focus_env 3) face_landmarks rendered_widget)
       = Some ("BLURRY", "bad")).
Proof. repeat split; vm_compute; reflexivity. Qed.



(** ** The composition analyzer *)

Lemma composition_issues_spec (face : Box) :
  composition_issues face
  = size_tag (x_max face - x_min face)%float (y_max face - y_min face)%float
    ++ horizontal_tag ((x_min face + x_max face) / 2)%float
    ++ vertical_tag ((y_min face + y_max face) / 2)%float.
Proof.
  unfold composition_issues, size_tag, horizontal_tag, vertical_tag,
    faceWidth, faceHeight, centerX, centerY.
  repeat case_match; reflexivity.
Qed.

(** The composition monitor after the detection response, when it is on. *)
Lemma detect_then_composition (objects : list Box) (w : Widget) (face : Box)
    (m : Monitor) (card : Card) :
  objects !! 0%nat = Some face →
  _monitors w !! "composition" = Some m →
  enabled m = true → element m = Some card →
  shown "composition" (detect_then objects w)
  = Some (if decide (composition_issues face = [])
          then ("GOOD", "good")
          else (join " " (composition_issues face), "bad")).
Proof.
  intros Hface Hm He Hc. unfold detect_then.
  destruct objects as [|face' rest]; [done|]. simpl in Hface.
  injection Hface as ->.
  set (w1 := if monitor_enabled "presence" w then _ else w).
  assert (Hm1 : _monitors w1 !! "composition" = Some m).
  { unfold w1. repeat case_match; try exact Hm;
      by rewrite updateMonitorStatus_lookup_ne. }
  rewrite (monitor_enabled_true _ _ _ Hm1 He).
  destruct (composition_issues face) as [|tag tags] eqn:E.
  - simpl. by rewrite (updateMonitorStatus_shown _ _ _ _ _ _ Hm1 Hc).
  - rewrite decide_False by done.
    cbn [length Nat.eqb].
    by rewrite (updateMonitorStatus_shown _ _ _ _ _ _ Hm1 Hc).
Qed.

(** C6. On a detection response with at least one box, the composition
    monitor (when it is on) is built from the first box, of width
    [x_max - x_min], height [y_max - y_min] and center
    [((x_min + x_max) / 2, (y_min + y_max) / 2)], by three checks in this
    order: size ([width > 0.5] or [height > 0.6]: TOO CLOSE; else
    [width < 0.15] and [height < 0.2]: TOO FAR), then horizontal position
    ([center.x < 0.3]: → RIGHT; else [center.x > 0.7]: ← LEFT), then vertical
    position ([center.y < 0.25]: ↓ DOWN; else [center.y > 0.75]: ↑ UP). It
    shows GOOD / good when no check fires and the tags joined by a space,
    with class bad, otherwise. The box from x = 0.2 to x = 0.8 (width 0.6,
    center 0.5), centered vertically at 0.5, shows exactly TOO CLOSE. *)
Theorem composition_issue_order (objects : list Box) (w : Widget) (face : Box)
    (m : Monitor) (card : Card) :
  objects !! 0%nat = Some face →
  _monitors w !! "composition" = Some m →
  enabled m = true → element m = Some card →
  let width := (x_max face - x_min face)%float in
  let height := (y_max face - y_min face)%float in
  let center_x := ((x_min face + x_max face) / 2)%float in
  let center_y := ((y_min face + y_max face) / 2)%float in
  let tags :=
    (if (0.5 <? width)%float || (0.6 <? height)%float then ["TOO CLOSE"]
     else if (width <? 0.15)%float && (height <? 0.2)%float then ["TOO FAR"]
     else [])
    ++ (if (center_x <? 0.3)%float then ["→ RIGHT"]
        else if (0.7 <? center_x)%float then ["← LEFT"]
        else [])
    ++ (if (center_y <? 0.25)%float then ["↓ DOWN"]
        else if (0.75 <? center_y)%float then ["↑ UP"]
        else []) in
  shown "composition" (detect_then objects w)
  = Some (if decide (tags = []) then ("GOOD", "good")
          else (join " " tags, "bad"))
  ∧ (x_min face = 0.2%float → x_max face = 0.8%float →
     center_y = 0.5%float →
     shown "composition" (detect_then objects w) = Some ("TOO CLOSE", "bad")).
Proof.
  intros Hface Hm He Hc width height center_x center_y tags.
  pose proof (detect_then_composition _ _ _ _ _ Hface Hm He Hc) as H.
  rewrite composition_issues_spec in H.
  change (size_tag (x_max face - x_min face) (y_max face - y_min face)
          ++ horizontal_tag ((x_min face + x_max face) / 2)
          ++ vertical_tag ((y_min face + y_max face) / 2)) with tags in H.
  split; [exact H|].
  intros Hx0 Hx1 Hy. rewrite H. unfold tags, width, center_x.
  rewrite Hy, Hx0, Hx1. reflexivity.
Qed.

(** The box (0.2, 0.3) - (0.8, 0.7) on the rendered widget shows TOO CLOSE;
    the height alone decides too: a narrow box of height 0.7 shows
    TOO CLOSE, and of two boxes of width 0.1 the one of height 0.1 shows
    TOO FAR and the one of height 0.3 shows GOOD. *)
Lemma composition_issue_order_witness :
  shown "composition" (detect_then [wide_box] rendered_widget)
  = Some ("TOO CLOSE", "bad")
  ∧ shown "composition" (detect_then [tall_box] rendered_widget)
    = Some ("TOO CLOSE", "bad")
  ∧ shown "composition" (detect_then [small_box] rendered_widget)
    = Some ("TOO FAR", "bad")
  ∧ shown "composition" (detect_then [narrow_box] rendered_widget)
    = Some ("GOOD", "good").
Proof.
  split; [|split; [|split]].
  - pose proof (composition_issue_order [wide_box] rendered_widget wide_box
                  rendered_monitor fresh_card
                  eq_refl eq_refl eq_refl eq_refl) as [_ H].
    apply H; reflexivity.
  - pose proof (composition_issue_order [tall_box] rendered_widget tall_box
                  rendered_monitor fresh_card
                  eq_refl eq_refl eq_refl eq_refl) as [H _].
    rewrite H. vm_compute. reflexivity.
  - pose proof (composition_issue_order [small_box] rendered_widget small_box
                  rendered_monitor fresh_card
                  eq_refl eq_refl eq_refl eq_refl) as [H _].
    rewrite H. vm_compute. reflexivity.
  - pose proof (composition_issue_order [narrow_box] rendered_widget narrow_box
                  rendered_monitor fresh_card
                  eq_refl eq_refl eq_refl eq_refl) as [H _].
    rewrite H. vm_compute. reflexivity.
Defined.

(** A small box in the upper left corner fires the three checks, in order. *)
Example composition_three_tags :
  shown "composition"
    (detect_then
       [{| x_min := 0.05; y_min := 0.05; x_max := 0.15; y_max := 0.2 |}]
       rendered_widget)
  = Some ("TOO FAR → RIGHT ↓ DOWN", "bad").
Proof. vm_compute. reflexivity. Qed.

(** The height checks on their own: boxes of width 0.1 centered in the
    image, of heights 0.7, 0.1 and 0.3, are too close (height above 0.6),
    too far (width below 0.15 and height below 0.2) and good. *)
Example composition_height :
  composition_issues <$> [tall_box; small_box; narrow_box]
  = [["TOO CLOSE"]; ["TOO FAR"]; []].
Proof. vm_compute. reflexivity. Qed.

(** ** The landmark smoother *)

(** The inner loop, started from any sums: it adds, component by component,
    the landmarks that the frames define at [i], and counts them. *)
Lemma foldl_accumulate (i : nat) (history : list LandmarkFrame) (s : Sums) :
  foldl (accumulate i) s history
  = {| sumX := foldl PrimFloat.add (sumX s) (lm_x <$> defined_at history i);
       sumY := foldl PrimFloat.add (sumY s) (lm_y <$> defined_at history i);
       sumZ := foldl PrimFloat.add (sumZ s) (z_terms (defined_at history i));
       count := count s + length (defined_at history i) |}.
Proof.
  revert s. induction history as [|frame history IH]; intros s.
  - destruct s; simpl. f_equal. lia.
  - cbn [foldl]. rewrite IH. unfold defined_at, accumulate.
    cbn [omap list_omap].
    destruct (landmark_at frame i) as [p|]; [|reflexivity].
    unfold z_terms. cbn [fmap list_fmap omap list_omap length sumX sumY sumZ count].
    f_equal; [|lia].
    destruct (lm_z p) as [zv|]; [|reflexivity].
    destruct (js_truthy zv); reflexivity.
Qed.

Lemma smoothed_point_mean (history : list LandmarkFrame)
    (newLandmarks : LandmarkFrame) (i : nat) :
  smoothed_point history newLandmarks i
  = if decide (defined_at history i = []) then landmark_at newLandmarks i
    else Some {| lm_x := arithmetic_mean (lm_x <$> defined_at history i);
                 lm_y := arithmetic_mean (lm_y <$> defined_at history i);
                 lm_z := Some (fsum (z_terms (defined_at history i))
                               / float_of_nat (length (defined_at history i))
                              )%float |}.
Proof.
  unfold smoothed_point. rewrite foldl_accumulate.
  cbn [sumX sumY sumZ count sums0 Nat.add].
  unfold arithmetic_mean, fsum. rewrite !length_fmap.
  destruct (defined_at history i) as [|p pts] eqn:E.
  - reflexivity.
  - rewrite decide_False by done. reflexivity.
Qed.

(** When every landmark carries a [z] that is a number other than 0, the z
    terms are the z components. *)
Lemma z_terms_total (pts : list Point) :
  (∀ q, q ∈ pts → ∃ zv, lm_z q = Some zv ∧ js_truthy zv = true) →
  z_terms pts = z_number <$> pts.
Proof.
  induction pts as [|p pts IH]; intros Hz; [reflexivity|].
  destruct (Hz p) as (zv & Hp & Ht); [constructor|].
  unfold z_terms in *. cbn [omap list_omap fmap list_fmap].
  rewrite Hp, Ht. unfold z_number at 1. rewrite Hp. cbn [default].
  f_equal. apply IH. intros q Hq. apply Hz. by constructor.
Qed.

Lemma push_history_length (history : list LandmarkFrame)
    (newLandmarks : LandmarkFrame) :
  length history ≤ 5 →
  1 ≤ length (push_history history newLandmarks) ≤ 5.
Proof.
  intros H. unfold push_history.
  destruct (5 <? length (history ++ [newLandmarks])) eqn:E.
  - apply Nat.ltb_lt in E. rewrite length_app in E. simpl in E.
    assert (length history = 5) by lia.
    destruct history as [|f0 history]; [simpl in *; lia|].
    simpl. rewrite length_app. simpl in *. lia.
  - apply Nat.ltb_ge in E. rewrite length_app in *. simpl in *. lia.
Qed.

Lemma push_history_last (history : list LandmarkFrame)
    (newLandmarks : LandmarkFrame) :
  last (push_history history newLandmarks) = Some newLandmarks.
Proof.
  unfold push_history. case_match.
  - destruct history as [|f0 history]; [done|].
    simpl. apply last_snoc.
  - apply last_snoc.
Qed.

(** Every history of one to five frames is held after some call. *)
Lemma push_history_onto (held : list LandmarkFrame) :
  1 ≤ length held ≤ 5 →
  ∃ history newLandmarks,
    length history ≤ 5 ∧ push_history history newLandmarks = held.
Proof.
  intros [Hlo Hhi].
  destruct (decide (held = [])) as [->|Hne]; [simpl in Hlo; lia|].
  destruct (exists_last Hne) as (history & newLandmarks & ->).
  rewrite length_app in Hhi. simpl in Hhi.
  exists history, newLandmarks. split; [lia|].
  unfold push_history.
  replace (5 <? length (history ++ [newLandmarks])) with false; [done|].
  symmetry. apply Nat.ltb_ge. rewrite length_app. simpl. lia.
Qed.

(** C5 (as the code has it). After a call of the smoother the history
    holds the new frame last and, when it held at most five frames before,
    one to five frames. For every index [i] of the new frame, with [pts] the
    landmarks that the frames of the history define at [i] (oldest frame
    first): when there is one, the output at [i] has as [x] and [y] the
    arithmetic means of the [x] and the [y] of [pts], and as [z] the sum of
    the [z] that are present and are a number other than 0, divided by the
    number of all of [pts] (a landmark without [z] counts as 0); it is the
    arithmetic mean in the three components when every landmark of [pts]
    carries a [z] that is a number other than 0. When there is none, the
    output at [i] is the raw entry of the new frame. *)
Theorem smoothing_as_computed (newLandmarks : LandmarkFrame) (w : Widget)
    (i : nat) :
  i < length newLandmarks →
  let history := _landmarkHistory (smoothLandmarks newLandmarks w).2 in
  let pts := defined_at history i in
  (length (_landmarkHistory w) ≤ 5 → 1 ≤ length history ≤ 5)
  ∧ last history = Some newLandmarks
  ∧ (pts ≠ [] →
     ∃ p, (smoothLandmarks newLandmarks w).1 !! i = Some (Some p)
          ∧ lm_x p = arithmetic_mean (lm_x <$> pts)
          ∧ lm_y p = arithmetic_mean (lm_y <$> pts)
          ∧ lm_z p = Some (fsum (z_terms pts) / float_of_nat (length pts))%float
          ∧ ((∀ q, q ∈ pts → ∃ zv, lm_z q = Some zv ∧ js_truthy zv = true) →
             p = stated_mean_point pts))
  ∧ (pts = [] →
     (smoothLandmarks newLandmarks w).1 !! i = newLandmarks !! i).
Proof.
  intros Hi history pts. unfold pts, history, smoothLandmarks.
  clear pts history.
  cbn [fst snd set_landmarkHistory _landmarkHistory].
  assert (Hout : (smoothed_point
                    (push_history (_landmarkHistory w) newLandmarks)
                    newLandmarks <$> seq 0 (length newLandmarks)) !! i
                 = Some (smoothed_point
                           (push_history (_landmarkHistory w) newLandmarks)
                           newLandmarks i)).
  { rewrite list_lookup_fmap, lookup_seq_lt by done. reflexivity. }
  split; [apply push_history_length|].
  split; [apply push_history_last|].
  rewrite smoothed_point_mean in Hout.
  split; intros Hd.
  - rewrite decide_False in Hout by exact Hd.
    eexists. split; [exact Hout|]. cbn [lm_x lm_y lm_z].
    split; [reflexivity|]. split; [reflexivity|]. split; [reflexivity|].
    intros Hz. unfold stated_mean_point.
    rewrite (z_terms_total _ Hz). unfold arithmetic_mean.
    by rewrite !length_fmap.
  - etrans; [exact Hout|]. rewrite decide_True by done.
    (* the new frame is in the history: its entry at [i] is not a landmark *)
    pose proof (push_history_last (_landmarkHistory w) newLandmarks) as Hl.
    destruct (lookup_lt_is_Some_2 newLandmarks i Hi) as [e He].
    rewrite He. unfold landmark_at. rewrite He. simpl.
    destruct e as [p|]; [|done]. exfalso.
    apply last_Some in Hl as [older Hl]. rewrite Hl in Hd.
    unfold defined_at in Hd. rewrite omap_app in Hd.
    apply app_eq_nil in Hd as [_ Hd]. simpl in Hd.
    unfold landmark_at in Hd. rewrite He in Hd. done.
Qed.

(** Two frames in the history: index 0 is defined in both; the means of
    [x] and [y] are 0.5 and 0.375, and [z], present as 0.5 in one frame
    only, comes out as 0.25. *)
Lemma smoothing_as_computed_witness :
  ∃ p, (smoothLandmarks frame_b
          (set_landmarkHistory [frame_a] rendered_widget)).1 !! 0%nat
       = Some (Some p)
       ∧ p = {| lm_x := 0.5; lm_y := 0.375; lm_z := Some 0.25%float |}.
Proof.
  pose proof (smoothing_as_computed frame_b
                (set_landmarkHistory [frame_a] rendered_widget) 0%nat
                ltac:(simpl; lia)) as (_ & _ & H & _).
  destruct H as (p & Hp & _); [discriminate|].
  exists p. split; [exact Hp|].
  vm_compute in Hp. by injection Hp as <-.
Defined.

Example smoothing_hole_falls_back :
  (smoothLandmarks frame_b (set_landmarkHistory [frame_a] rendered_widget)).1
    !! 1%nat
  = frame_b !! 1%nat.
Proof. reflexivity. Qed.

(** With a [z] other than 0 in every frame the output is the mean that C5
    states: 0.5 and 0.25 give 0.375. *)
Example smoothing_mean_with_z :
  (smoothLandmarks
     [Some {| lm_x := 0.75; lm_y := 0.25; lm_z := Some 0.25%float |}; None]
     (set_landmarkHistory [frame_a] rendered_widget)).1 !! 0%nat
  = Some (Some (stated_mean_point
                  [{| lm_x := 0.25; lm_y := 0.5; lm_z := Some 0.5%float |};
                   {| lm_x := 0.75; lm_y := 0.25; lm_z := Some 0.25%float |}]))
  ∧ lm_z (stated_mean_point
            [{| lm_x := 0.25; lm_y := 0.5; lm_z := Some 0.5%float |};
             {| lm_x := 0.75; lm_y := 0.25; lm_z := Some 0.25%float |}])
    = Some 0.375%float.
Proof. split; vm_compute; reflexivity. Qed.

(** C5 (as stated) fails in the z component. With a history of two frames
    that both define index 0, the first with [z = 0.5]: when the [z] of the
    second is not a number, the arithmetic mean of [z] is not a number, and
    the output has [z = 0.25]; when the second has no [z], the output has
    [z = 0.25] again, which is neither the mean over the two landmarks nor
    the mean 0.5 of the one [z] that is present. *)
Lemma smoothing_z_not_mean_counterexample :
  (defined_at [frame_a; frame_c] 0 ≠ []
   ∧ (smoothLandmarks frame_c
        (set_landmarkHistory [frame_a] rendered_widget)).1 !! 0%nat
     ≠ Some (Some (stated_mean_point (defined_at [frame_a; frame_c] 0))))
  ∧ (defined_at [frame_a; frame_b] 0 ≠ []
     ∧ (smoothLandmarks frame_b
          (set_landmarkHistory [frame_a] rendered_widget)).1 !! 0%nat
       ≠ Some (Some (stated_mean_point (defined_at [frame_a; frame_b] 0)))
     ∧ (smoothLandmarks frame_b
          (set_landmarkHistory [frame_a] rendered_widget)).1 !! 0%nat
       ≠ Some (Some {| lm_x := 0.5; lm_y := 0.375;
                       lm_z := Some (arithmetic_mean [0.5%float]) |})).
Proof.
  pose (z_is_nan := fun o : option (option Point) =>
          match o with
          | Some (Some p) =>
              match lm_z p with Some z => PrimFloat.is_nan z | None => false end
          | _ => false
          end).
  pose (z_is_half := fun o : option (option Point) =>
          match o with
          | Some (Some p) =>
              match lm_z p with
              | Some z => PrimFloat.eqb z 0.5%float
              | None => false
              end
          | _ => false
          end).
  split; [|split; [|split]].
  - split; [discriminate|]. intros H.
    apply (f_equal z_is_nan) in H. vm_compute in H. discriminate.
  - discriminate.
  - intros H. apply (f_equal z_is_nan) in H. vm_compute in H. discriminate.
  - intros H. apply (f_equal z_is_half) in H. vm_compute in H. discriminate.
Qed.

(** ** Start, stop and toggle *)

(** C1 (as the code has it). Stopping clears the liveness flag and disarms
    the timer, and leaves every monitor as it was: no status and no class
    is reset. *)
Theorem stopMonitoring_keeps_monitors (w : Widget) :
  _monitors (stopMonitoring w) = _monitors w
  ∧ _isMonitoring (stopMonitoring w) = false
  ∧ _monitorInterval (stopMonitoring w) = false.
Proof.
  unfold stopMonitoring. simpl.
  destruct (_monitorInterval w) eqn:E; simpl; auto.
Qed.

(** C1 (as stated) fails: after a start and a stop the monitors still show
    what the session wrote, not N/A / disabled. *)
Lemma stopMonitoring_resets_counterexample :
  _isMonitoring monitoring_widget = true
  ∧ shown "presence" (stopMonitoring monitoring_widget)
    = Some ("Analyzing...", "warning")
  ∧ ¬ all_reset (stopMonitoring monitoring_widget).
Proof.
  split; [vm_compute; reflexivity|]. split; [vm_compute; reflexivity|].
  intros Hreset.
  assert (Hm : _monitors (stopMonitoring monitoring_widget) !! "presence"
               = Some {| enabled := true; status := "Analyzing...";
                         class := "warning";
                         element :=
                           Some {| valueText := "Analyzing...";
                                   classList := ["moon-status-card";
                                                 "moon-status-warning"] |} |})
    by (vm_compute; reflexivity).
  destruct (Hreset _ _ Hm) as [Hs _]. discriminate Hs.
Qed.

Lemma guarded_update_keeps (key k s c : string) (w : Widget) :
  monitor_enabled key w = false →
  monitor_enabled key
    (if monitor_enabled k w then updateMonitorStatus k s c w else w) = false
  ∧ _monitors (if monitor_enabled k w then updateMonitorStatus k s c w else w)
      !! key = _monitors w !! key.
Proof.
  intros Hoff. destruct (decide (key = k)) as [->|Hk].
  - by rewrite Hoff.
  - case_match;
      by rewrite ?updateMonitorStatus_enabled, ?updateMonitorStatus_lookup_ne.
Qed.

(** The callbacks of the landmark pass and of the detection call read
    [enabled] when the response arrives: they leave a monitor that is off
    as it is. *)
Lemma processFrameResults_keeps_disabled (env : Env)
    (faces : list LandmarkFrame) (w : Widget) (key : string) :
  monitor_enabled key w = false →
  _monitors (processFrameResults env faces w) !! key = _monitors w !! key.
Proof.
  intros Hoff. unfold processFrameResults.
  destruct (negb (_isMonitoring w)); [done|].
  destruct faces as [|face0 faces].
  - destruct (guarded_update_keeps key "orientation" "NO FACE" "bad" w Hoff)
      as [E1 L1].
    destruct (guarded_update_keeps key "talking" "NO FACE" "bad" _ E1)
      as [E2 L2].
    destruct (guarded_update_keeps key "focus" "NO FACE" "bad" _ E2)
      as [_ L3].
    by rewrite L3, L2, L1.
  - unfold smoothLandmarks.
    set (landmarks := smoothed_point _ _ <$> _).
    set (w0 := set_landmarkHistory _ w).
    assert (Hoff0 : monitor_enabled key w0 = false) by exact Hoff.
    change (_monitors w !! key) with (_monitors w0 !! key).
    clearbody w0 landmarks. clear Hoff.
    assert (Ho : ∀ w1, monitor_enabled key w1 = false →
       let w2 := if monitor_enabled "orientation" w1
                 then analyzeOrientation landmarks w1 else w1 in
       monitor_enabled key w2 = false
       ∧ _monitors w2 !! key = _monitors w1 !! key).
    { intros w1 H1 w2. unfold w2, analyzeOrientation.
      destruct (decide (key = "orientation")) as [->|Hk].
      - by rewrite H1.
      - repeat case_match;
          by rewrite ?updateMonitorStatus_enabled,
                     ?updateMonitorStatus_lookup_ne. }
    assert (Ht : ∀ w1, monitor_enabled key w1 = false →
       let w2 := if monitor_enabled "talking" w1
                 then analyzeTalking landmarks (now env) w1 else w1 in
       monitor_enabled key w2 = false
       ∧ _monitors w2 !! key = _monitors w1 !! key).
    { intros w1 H1 w2. unfold w2, analyzeTalking.
      destruct (decide (key = "talking")) as [->|Hk].
      - by rewrite H1.
      - repeat case_match;
          by rewrite ?updateMonitorStatus_enabled,
                     ?updateMonitorStatus_lookup_ne. }
    assert (Hf : ∀ w1, monitor_enabled key w1 = false →
       let w2 := if monitor_enabled "focus" w1 && _cvReady w1
                 then analyzeFocus env landmarks w1 else w1 in
       _monitors w2 !! key = _monitors w1 !! key).
    { intros w1 H1 w2. unfold w2, analyzeFocus.
      destruct (decide (key = "focus")) as [->|Hk].
      - by rewrite H1.
      - repeat case_match; by rewrite ?updateMonitorStatus_lookup_ne. }
    destruct (Ho w0 Hoff0) as [E1 L1].
    destruct (Ht _ E1) as [E2 L2].
    pose proof (Hf _ E2) as L3. simpl in L3.
    by rewrite L3, L2, L1.
Qed.

Lemma detect_then_keeps_disabled (objects : list Box) (w : Widget)
    (key : string) :
  monitor_enabled key w = false →
  _monitors (detect_then objects w) !! key = _monitors w !! key.
Proof.
  intros Hoff. unfold detect_then.
  set (w1 := if monitor_enabled "presence" w then _ else w).
  assert (H1 : monitor_enabled key w1 = false
               ∧ _monitors w1 !! key = _monitors w !! key).
  { unfold w1. destruct (decide (key = "presence")) as [->|Hk].
    - by rewrite Hoff.
    - repeat case_match;
        by rewrite ?updateMonitorStatus_enabled,
                   ?updateMonitorStatus_lookup_ne. }
  destruct H1 as [E1 L1]. rewrite <- L1. clearbody w1.
  destruct (decide (key = "composition")) as [->|Hk].
  - by rewrite E1.
  - repeat case_match; by rewrite ?updateMonitorStatus_lookup_ne.
Qed.

Lemma detect_catch_keeps_disabled (w : Widget) (key : string) :
  monitor_enabled key w = false →
  _monitors (detect_catch w) !! key = _monitors w !! key.
Proof.
  intros Hoff. unfold detect_catch.
  set (w1 := if monitor_enabled "presence" w then _ else w).
  assert (H1 : monitor_enabled key w1 = false
               ∧ _monitors w1 !! key = _monitors w !! key).
  { unfold w1. destruct (decide (key = "presence")) as [->|Hk].
    - by rewrite Hoff.
    - repeat case_match;
        by rewrite ?updateMonitorStatus_enabled,
                   ?updateMonitorStatus_lookup_ne. }
  destruct H1 as [E1 L1]. rewrite <- L1. clearbody w1.
  destruct (decide (key = "composition")) as [->|Hk].
  - by rewrite E1.
  - repeat case_match; by rewrite ?updateMonitorStatus_lookup_ne.
Qed.

(** C2 fails on the scene-context monitor: its caption callback does not
    read [enabled]. The monitor is switched off while the caption call of
    the first cycle is in flight and shows OFF / disabled; when the call
    completes the monitor, still off, shows UPDATED / good (ERROR / warning
    when the call fails). *)
Theorem caption_overwrites_off :
  let start := (webcam_env 1700000000000, ClickStart) in
  let off := (webcam_env 1700000000100, ClickCard "sceneContext") in
  let done_ok :=
    (webcam_env 1700000000900,
     Completion (CaptionResponse "a person at a desk")) in
  let done_err := (webcam_env 1700000000900, Completion CaptionError) in
  observe inflight rendered_widget [start; off]
  = Some [ReqFaceMesh; ReqDetect; ReqCaption]
  ∧ observe (monitor_enabled "sceneContext") rendered_widget [start; off]
    = Some false
  ∧ observe (shown "sceneContext") rendered_widget [start; off]
    = Some (Some ("OFF", "disabled"))
  ∧ observe (monitor_enabled "sceneContext") rendered_widget
      [start; off; done_ok] = Some false
  ∧ observe (shown "sceneContext") rendered_widget [start; off; done_ok]
    = Some (Some ("UPDATED", "good"))
  ∧ observe (monitor_enabled "sceneContext") rendered_widget
      [start; off; done_err] = Some false
  ∧ observe (shown "sceneContext") rendered_widget [start; off; done_err]
    = Some (Some ("ERROR", "warning")).
Proof. repeat split; vm_compute; reflexivity. Qed.

(** The same run on the presence monitor, whose callback reads [enabled]:
    OFF / disabled stays when the detection call completes. *)
Example detect_keeps_off :
  let start := (webcam_env 1700000000000, ClickStart) in
  let off := (webcam_env 1700000000100, ClickCard "presence") in
  let done_ok :=
    (webcam_env 1700000000900, Completion (DetectResponse [wide_box])) in
  observe (shown "presence") rendered_widget [start; off; done_ok]
  = Some (Some ("OFF", "disabled")).
Proof. vm_compute. reflexivity. Qed.

(** The landmark callback reads the liveness flag first: after a stop it
    returns the widget as it got it. *)
Lemma processFrameResults_stopped (env : Env) (faces : list LandmarkFrame)
    (w : Widget) :
  _isMonitoring w = false → processFrameResults env faces w = w.
Proof. intros H. unfold processFrameResults. by rewrite H. Qed.

(** C3 fails on the two remote calls: their callbacks do not read
    [_isMonitoring]. The session is stopped while the detection and caption
    calls of the first cycle are in flight; when they complete the presence,
    composition and scene-context monitors of the stopped session are
    written. *)
Theorem stale_response_writes_stopped_session :
  let start := (webcam_env 1700000000000, ClickStart) in
  let stop := (webcam_env 1700000000100, ClickStart) in
  let detected :=
    (webcam_env 1700000000900, Completion (DetectResponse [wide_box])) in
  let captioned :=
    (webcam_env 1700000000950,
     Completion (CaptionResponse "a person at a desk")) in
  observe _isMonitoring rendered_widget [start; stop] = Some false
  ∧ observe (fun w => (fun key => shown key w)
                             <$> ["presence"; "composition"; "sceneContext"])
      rendered_widget [start; stop]
    = Some [Some ("Analyzing...", "warning"); Some ("Analyzing...", "warning");
            Some ("Analyzing...", "warning")]
  ∧ observe _isMonitoring rendered_widget [start; stop; detected; captioned]
    = Some false
  ∧ observe (fun w => (fun key => shown key w)
                             <$> ["presence"; "composition"; "sceneContext"])
      rendered_widget [start; stop; detected; captioned]
    = Some [Some ("PRESENT", "good"); Some ("TOO CLOSE", "bad");
            Some ("UPDATED", "good")].
Proof. repeat split; vm_compute; reflexivity. Qed.

(** The same stop, then a landmark result with a face: the callback of the
    landmark pass leaves the monitors of the stopped session alone. *)
Example stale_landmarks_dropped :
  let start := (webcam_env 1700000000000, ClickStart) in
  let stop := (webcam_env 1700000000100, ClickStart) in
  let faces :=
    (webcam_env 1700000000900, Completion (FaceMeshResults [open_mouth])) in
  observe (fun w => (fun key => shown key w)
                      <$> ["orientation"; "talking"; "focus"])
    rendered_widget [start; stop; faces]
  = Some [Some ("Analyzing...", "warning"); Some ("Analyzing...", "warning");
          Some ("Analyzing...", "warning")].
Proof. vm_compute. reflexivity. Qed.

(** ** What does hold of the callbacks *)

(** X1. The callback of the landmark pass reads the liveness flag first: on
    a stopped widget it changes nothing, whatever the result. *)
Theorem stale_landmarks_leave_widget (env : Env)
    (faces : list LandmarkFrame) (w : Widget) :
  _isMonitoring w = false →
  callback env (FaceMeshResults faces) w = w.
Proof. intros H. simpl. by apply processFrameResults_stopped. Qed.

Lemma stale_landmarks_leave_widget_witness :
  callback (webcam_env 1700000000900) (FaceMeshResults [open_mouth])
    (stopMonitoring monitoring_widget)
  = stopMonitoring monitoring_widget.
Proof.
  apply (stale_landmarks_leave_widget (webcam_env 1700000000900)
           [open_mouth] (stopMonitoring monitoring_widget)).
  vm_compute. reflexivity.
Defined.

(** X2. Toggling off a monitor that is on and has its card disables it and
    writes OFF / disabled in the same call. *)
Theorem toggle_off_is_synchronous (key : string) (w : Widget) (m : Monitor)
    (card : Card) :
  _monitors w !! key = Some m → enabled m = true → element m = Some card →
  monitor_enabled key (toggleMonitor key w) = false
  ∧ shown key (toggleMonitor key w) = Some ("OFF", "disabled").
Proof.
  intros Hm He Hc. unfold toggleMonitor. rewrite Hm, Hc, He. simpl.
  split.
  - rewrite updateMonitorStatus_enabled. unfold monitor_enabled. simpl.
    by rewrite lookup_insert_eq.
  - eapply updateMonitorStatus_shown; simpl.
    + apply lookup_insert_eq.
    + reflexivity.
Qed.

Lemma toggle_off_is_synchronous_witness :
  monitor_enabled "focus" (toggleMonitor "focus" rendered_widget) = false
  ∧ shown "focus" (toggleMonitor "focus" rendered_widget)
    = Some ("OFF", "disabled").
Proof.
  apply (toggle_off_is_synchronous "focus" rendered_widget rendered_monitor
           fresh_card); vm_compute; reflexivity.
Defined.

(** X3. A completing call leaves a monitor that is off as it is, except the
    caption call on the scene-context monitor. *)
Theorem completion_keeps_disabled (env : Env) (r : Response) (w w' : Widget)
    (key : string) :
  monitor_enabled key w = false →
  (request_of r = ReqCaption → key ≠ "sceneContext") →
  step env (Completion r) w = Some w' →
  _monitors w' !! key = _monitors w !! key.
Proof.
  intros Hoff Hcap Hstep. simpl in Hstep. case_decide; [|done].
  injection Hstep as <-.
  set (w0 := complete (request_of r) w).
  assert (Hoff0 : monitor_enabled key w0 = false) by exact Hoff.
  change (_monitors w !! key) with (_monitors w0 !! key).
  clearbody w0.
  destruct r; simpl.
  - by apply processFrameResults_keeps_disabled.
  - done.
  - by apply detect_then_keeps_disabled.
  - by apply detect_catch_keeps_disabled.
  - unfold caption_then. simpl.
    apply updateMonitorStatus_lookup_ne. by apply Hcap.
  - unfold caption_catch.
    apply updateMonitorStatus_lookup_ne. by apply Hcap.
Qed.

Lemma completion_keeps_disabled_witness :
  _monitors
    (detect_then [wide_box]
       (complete ReqDetect (toggleMonitor "presence" monitoring_widget)))
    !! "presence"
  = _monitors (toggleMonitor "presence" monitoring_widget) !! "presence".
Proof.
  apply (completion_keeps_disabled (webcam_env 1700000000900)
           (DetectResponse [wide_box])
           (toggleMonitor "presence" monitoring_widget)).
  - vm_compute. reflexivity.
  - discriminate.
  - vm_compute. reflexivity.
Defined.

(** ** The seven keys stay *)

Lemma toggleMonitor_dom (key : string) (w : Widget) :
  dom (_monitors (toggleMonitor key w)) = dom (_monitors w).
Proof.
  unfold toggleMonitor.
  destruct (_monitors w !! key) as [m|] eqn:Hm; [|done].
  apply elem_of_dom_2 in Hm.
  assert (Hins : ∀ m', dom (<[key := m']> (_monitors w)) = dom (_monitors w)).
  { intros m'. rewrite dom_insert_L.
    apply subseteq_union_1_L, singleton_subseteq_l, Hm. }
  repeat case_match; simpl; rewrite ?updateMonitorStatus_dom; simpl;
    apply Hins.
Qed.

Lemma analyzeOrientation_dom (landmarks : LandmarkFrame) (w : Widget) :
  dom (_monitors (analyzeOrientation landmarks w)) = dom (_monitors w).
Proof.
  unfold analyzeOrientation. repeat case_match; apply updateMonitorStatus_dom.
Qed.

Lemma analyzeTalking_dom (landmarks : LandmarkFrame) (t : Z) (w : Widget) :
  dom (_monitors (analyzeTalking landmarks t w)) = dom (_monitors w).
Proof.
  unfold analyzeTalking.
  repeat case_match; by rewrite updateMonitorStatus_dom.
Qed.

Lemma analyzeFocus_dom (env : Env) (landmarks : LandmarkFrame) (w : Widget) :
  dom (_monitors (analyzeFocus env landmarks w)) = dom (_monitors w).
Proof.
  unfold analyzeFocus. repeat case_match; apply updateMonitorStatus_dom.
Qed.

Lemma callback_dom (env : Env) (r : Response) (w : Widget) :
  dom (_monitors (callback env r w)) = dom (_monitors w).
Proof.
  assert (Hg : ∀ k s c w0,
    dom (_monitors (if monitor_enabled k w0
                    then updateMonitorStatus k s c w0 else w0))
    = dom (_monitors w0)).
  { intros. case_match; [apply updateMonitorStatus_dom|done]. }
  destruct r; simpl.
  - unfold processFrameResults.
    destruct (negb (_isMonitoring w)); [done|].
    destruct multiFaceLandmarks as [|face0 faces].
    + by rewrite !Hg.
    + unfold smoothLandmarks.
      repeat case_match;
        by rewrite ?analyzeFocus_dom, ?analyzeTalking_dom,
                   ?analyzeOrientation_dom.
  - done.
  - unfold detect_then.
    repeat (case_match; rewrite ?updateMonitorStatus_dom; simpl); done.
  - unfold detect_catch. by rewrite !Hg.
  - unfold caption_then. simpl. apply updateMonitorStatus_dom.
  - apply updateMonitorStatus_dom.
Qed.

Lemma runMonitoringCycle_dom (env : Env) (w : Widget) :
  dom (_monitors (runMonitoringCycle env w)) = dom (_monitors w).
Proof.
  rewrite runMonitoringCycle_unfold.
  assert (Hb : dom (_monitors (before_throttle env w)) = dom (_monitors w)).
  { unfold before_throttle, analyzeLighting.
    repeat (case_match; rewrite ?updateMonitorStatus_dom; simpl); done. }
  destruct (negb (_isMonitoring w)); [done|].
  case_match; [|done].
  by destruct (runMoonDreamAnalysis_frame env
    (set_lastMoonDreamCall (now env) (before_throttle env w))) as (-> & _).
Qed.

Lemma foldl_guarded_update_dom (keys : list string) (s c : string)
    (w : Widget) :
  dom (_monitors
         (foldl (fun w0 key =>
                   if monitor_enabled key w0
                   then updateMonitorStatus key s c w0 else w0) w keys))
  = dom (_monitors w).
Proof.
  revert w. induction keys as [|k keys IH]; intros w; [done|].
  cbn [foldl]. rewrite IH.
  case_match; [apply updateMonitorStatus_dom|done].
Qed.

Lemma startMonitoring_dom (env : Env) (w : Widget) :
  dom (_monitors (startMonitoring env w)) = dom (_monitors w).
Proof.
  unfold startMonitoring. case_match; [done|].
  cbn [set_monitorInterval _monitors].
  by rewrite runMonitoringCycle_dom, foldl_guarded_update_dom.
Qed.

(** No event adds or removes a key of [_monitors]. *)
Lemma monitor_keys_kept (env : Env) (e : Event) (w w' : Widget) :
  step env e w = Some w' → dom (_monitors w') = dom (_monitors w).
Proof.
  destruct e; cbn [step]; intros H.
  - injection H as <-. apply toggleMonitor_dom.
  - injection H as <-. unfold toggleMonitoring.
    destruct (_isMonitoring w).
    + unfold stopMonitoring. by case_match.
    + apply startMonitoring_dom.
  - destruct (_monitorInterval w); [|done].
    injection H as <-. apply runMonitoringCycle_dom.
  - case_decide; [|done]. injection H as <-. by rewrite callback_dom.
Qed.

(** The rendered page has the seven keys, each with its card. *)
Example rendered_widget_keys :
  (fun key => _monitors rendered_widget !! key) <$> monitor_keys
  = replicate 7 (Some rendered_monitor).
Proof. vm_compute. reflexivity. Qed.

(** * Further properties *)

(** ** The discipline of status writes *)

Lemma status_writes_refl (G : string → Prop) (ms : gmap string Monitor) :
  status_writes G ms ms.
Proof. intros k. by left. Qed.

Lemma status_writes_trans (G : string → Prop)
    (ms1 ms2 ms3 : gmap string Monitor) :
  status_writes G ms1 ms2 → status_writes G ms2 ms3 → status_writes G ms1 ms3.
Proof.
  intros H12 H23 k.
  destruct (H23 k) as [E23|(m2 & s & c & card' & Hm2 & Hg2 & Hc2 & E3)].
  - rewrite E23. apply H12.
  - destruct (H12 k) as [E12|(m1 & s1 & c1 & card1 & Hm1 & Hg1 & Hc1 & E2)].
    + right. exists m2, s, c, card'. by rewrite <- E12.
    + right. rewrite E2 in Hm2. injection Hm2 as <-. simpl in *.
      by exists m1, s, c, card'.
Qed.

Lemma status_writes_mono (G G' : string → Prop)
    (ms ms' : gmap string Monitor) :
  (∀ k, G k → G' k) → status_writes G ms ms' → status_writes G' ms ms'.
Proof.
  intros HG H k. destruct (H k) as [E|(m & s & c & card' & ? & Hg & ? & ?)].
  - by left.
  - right. exists m, s, c, card'. repeat split; try done.
    destruct Hg; auto.
Qed.

(** A write under [key] alone, on a monitor that is on, is a guarded write. *)
Lemma status_writes_guard (key : string) (w : Widget)
    (ms' : gmap string Monitor) :
  monitor_enabled key w = true →
  status_writes (eq key) (_monitors w) ms' →
  status_writes (fun _ => False) (_monitors w) ms'.
Proof.
  intros Hon H k. destruct (H k) as [E|(m & s & c & card' & Hm & Hg & ? & ?)].
  - by left.
  - right. exists m, s, c, card'. repeat split; try done. left.
    destruct Hg as [?|<-]; [done|].
    unfold monitor_enabled in Hon. by rewrite Hm in Hon.
Qed.

Lemma updateMonitorStatus_writes (key s c : string) (w : Widget) :
  status_writes (eq key) (_monitors w)
    (_monitors (updateMonitorStatus key s c w)).
Proof.
  intros k. destruct (decide (k = key)) as [->|Hne].
  - destruct (_monitors w !! key) as [m|] eqn:Hm.
    + destruct (element m) as [card|] eqn:Hc.
      * right.
        destruct (updateMonitorStatus_lookup key s c w m card Hm Hc)
          as [card' E].
        exists m, s, c, card'. rewrite Hc. eauto.
      * left. unfold updateMonitorStatus. by rewrite Hm, Hc.
    + left. unfold updateMonitorStatus. by rewrite Hm.
  - left. by apply updateMonitorStatus_lookup_ne.
Qed.

(** What status writes keep. *)
Lemma status_writes_dom (G : string → Prop) (ms ms' : gmap string Monitor) :
  status_writes G ms ms' → dom ms' = dom ms.
Proof.
  intros H. apply set_eq. intros k. rewrite !elem_of_dom.
  destruct (H k) as [->|(m & s & c & card' & -> & _ & _ & ->)]; [done|].
  split; eauto.
Qed.

Lemma status_writes_enabled (G : string → Prop)
    (ms ms' : gmap string Monitor) (k : string) :
  status_writes G ms ms' →
  enabled <$> ms' !! k = enabled <$> ms !! k.
Proof.
  intros H.
  by destruct (H k) as [->|(m & s & c & card' & -> & _ & _ & ->)].
Qed.

Lemma status_writes_card (G : string → Prop)
    (ms ms' : gmap string Monitor) (k : string) (m' : Monitor) :
  status_writes G ms ms' →
  (∀ m, ms !! k = Some m → is_Some (element m)) →
  ms' !! k = Some m' → is_Some (element m').
Proof.
  intros H Hc Hm'.
  destruct (H k) as [E|(m & s & c & card' & _ & _ & _ & E)].
  - rewrite E in Hm'. by apply Hc.
  - rewrite E in Hm'. injection Hm' as <-. simpl. eauto.
Qed.

Lemma status_writes_off (G : string → Prop)
    (ms ms' : gmap string Monitor) (k : string) (m' : Monitor) :
  status_writes G ms ms' → ¬ G k →
  ms' !! k = Some m' → enabled m' = false → ms !! k = Some m'.
Proof.
  intros H HG Hm' Hoff.
  destruct (H k) as [E|(m & s & c & card' & _ & Hg & _ & E)].
  - by rewrite <- E.
  - rewrite E in Hm'. injection Hm' as <-. simpl in Hoff.
    destruct Hg as [Hon|?]; [congruence|done].
Qed.

(** The analyzers write under their own key. *)
Lemma analyzeOrientation_writes (landmarks : LandmarkFrame) (w : Widget) :
  status_writes (eq "orientation") (_monitors w)
    (_monitors (analyzeOrientation landmarks w)).
Proof.
  unfold analyzeOrientation.
  repeat case_match; apply updateMonitorStatus_writes.
Qed.

Lemma analyzeTalking_writes (landmarks : LandmarkFrame) (t : Z) (w : Widget) :
  status_writes (eq "talking") (_monitors w)
    (_monitors (analyzeTalking landmarks t w)).
Proof.
  unfold analyzeTalking.
  repeat case_match;
    first [ apply updateMonitorStatus_writes
          | apply (updateMonitorStatus_writes "talking" _ _
                     (set_talkingState _ w)) ].
Qed.

Lemma analyzeFocus_writes (env : Env) (landmarks : LandmarkFrame)
    (w : Widget) :
  status_writes (eq "focus") (_monitors w)
    (_monitors (analyzeFocus env landmarks w)).
Proof.
  unfold analyzeFocus. repeat case_match; apply updateMonitorStatus_writes.
Qed.

Lemma analyzeLighting_writes (env : Env) (w : Widget) :
  status_writes (eq "lighting") (_monitors w)
    (_monitors (analyzeLighting env w)).
Proof.
  unfold analyzeLighting. repeat case_match; apply updateMonitorStatus_writes.
Qed.

(** A call under the test of [enabled] is a guarded write. *)
Lemma guarded_call_writes (key : string) (f : Widget → Widget) (w : Widget)
    (b : bool) :
  (∀ w0, status_writes (eq key) (_monitors w0) (_monitors (f w0))) →
  status_writes (fun _ => False) (_monitors w)
    (_monitors (if monitor_enabled key w && b then f w else w)).
Proof.
  intros Hf. destruct (monitor_enabled key w) eqn:Hon; simpl.
  - destruct b; [|apply status_writes_refl].
    by apply (status_writes_guard key).
  - apply status_writes_refl.
Qed.

Lemma guarded_call_writes' (key : string) (f : Widget → Widget) (w : Widget) :
  (∀ w0, status_writes (eq key) (_monitors w0) (_monitors (f w0))) →
  status_writes (fun _ => False) (_monitors w)
    (_monitors (if monitor_enabled key w then f w else w)).
Proof.
  intros Hf. pose proof (guarded_call_writes key f w true Hf) as H.
  by rewrite andb_true_r in H.
Qed.

Lemma processFrameResults_writes (env : Env) (faces : list LandmarkFrame)
    (w : Widget) :
  status_writes (fun _ => False) (_monitors w)
    (_monitors (processFrameResults env faces w)).
Proof.
  unfold processFrameResults.
  destruct (negb (_isMonitoring w)); [apply status_writes_refl|].
  destruct faces as [|face0 faces].
  - eapply status_writes_trans; [eapply status_writes_trans|].
    + apply (guarded_call_writes' "orientation"
               (updateMonitorStatus "orientation" "NO FACE" "bad")).
      intros; apply updateMonitorStatus_writes.
    + apply (guarded_call_writes' "talking"
               (updateMonitorStatus "talking" "NO FACE" "bad")).
      intros; apply updateMonitorStatus_writes.
    + apply (guarded_call_writes' "focus"
               (updateMonitorStatus "focus" "NO FACE" "bad")).
      intros; apply updateMonitorStatus_writes.
  - unfold smoothLandmarks.
    set (landmarks := smoothed_point _ _ <$> _).
    set (w0 := set_landmarkHistory _ w).
    change (_monitors w) with (_monitors w0). clearbody w0 landmarks.
    eapply status_writes_trans; [eapply status_writes_trans|].
    + apply (guarded_call_writes' "orientation"
               (analyzeOrientation landmarks)).
      intros; apply analyzeOrientation_writes.
    + apply (guarded_call_writes' "talking"
               (fun w1 => analyzeTalking landmarks (now env) w1)).
      intros; apply analyzeTalking_writes.
    + match goal with
      | |- context [if monitor_enabled "focus" ?w1 && _cvReady ?w1 then _ else _] =>
          apply (guarded_call_writes "focus" (analyzeFocus env landmarks) w1
                   (_cvReady w1))
      end.
      intros; apply analyzeFocus_writes.
Qed.

Lemma detect_then_writes (objects : list Box) (w : Widget) :
  status_writes (fun _ => False) (_monitors w)
    (_monitors (detect_then objects w)).
Proof.
  unfold detect_then.
  eapply status_writes_trans.
  - apply (guarded_call_writes' "presence"
             (fun w0 => if (0 <? length objects)%nat
                        then updateMonitorStatus "presence" "PRESENT" "good" w0
                        else updateMonitorStatus "presence" "ABSENT" "bad" w0)).
    intros; case_match; apply updateMonitorStatus_writes.
  - destruct objects as [|face rest].
    + apply (guarded_call_writes' "composition"
               (updateMonitorStatus "composition" "NO FACE" "bad")).
      intros; apply updateMonitorStatus_writes.
    + apply (guarded_call_writes' "composition"
               (fun w0 =>
                  if (length (composition_issues face) =? 0)%nat
                  then updateMonitorStatus "composition" "GOOD" "good" w0
                  else updateMonitorStatus "composition"
                         (join " " (composition_issues face)) "bad" w0)).
      intros; case_match; apply updateMonitorStatus_writes.
Qed.

Lemma detect_catch_writes (w : Widget) :
  status_writes (fun _ => False) (_monitors w) (_monitors (detect_catch w)).
Proof.
  unfold detect_catch. eapply status_writes_trans.
  - apply (guarded_call_writes' "presence"
             (updateMonitorStatus "presence" "ERROR" "warning")).
    intros; apply updateMonitorStatus_writes.
  - apply (guarded_call_writes' "composition"
             (updateMonitorStatus "composition" "ERROR" "warning")).
    intros; apply updateMonitorStatus_writes.
Qed.

(** Every callback writes under guard, the caption callbacks apart. *)
Lemma callback_writes (env : Env) (r : Response) (w : Widget) :
  status_writes (fun k => k = "sceneContext" ∧ request_of r = ReqCaption)
    (_monitors w) (_monitors (callback env r w)).
Proof.
  destruct r; simpl.
  - eapply status_writes_mono; [|apply processFrameResults_writes]. done.
  - apply status_writes_refl.
  - eapply status_writes_mono; [|apply detect_then_writes]. done.
  - eapply status_writes_mono; [|apply detect_catch_writes]. done.
  - unfold caption_then. simpl.
    eapply status_writes_mono; [|apply updateMonitorStatus_writes].
    by intros k <-.
  - unfold caption_catch.
    eapply status_writes_mono; [|apply updateMonitorStatus_writes].
    by intros k <-.
Qed.

Lemma runMonitoringCycle_writes (env : Env) (w : Widget) :
  status_writes (fun _ => False) (_monitors w)
    (_monitors (runMonitoringCycle env w)).
Proof.
  rewrite runMonitoringCycle_unfold.
  assert (Hb : status_writes (fun _ => False) (_monitors w)
                 (_monitors (before_throttle env w))).
  { unfold before_throttle.
    set (w0 := if _faceMesh w && (media env && video env) && stream env
               then _ else w).
    assert (E : _monitors w0 = _monitors w) by (unfold w0; by case_match).
    rewrite <- E. clearbody w0.
    apply (guarded_call_writes' "lighting" (analyzeLighting env)).
    intros; apply analyzeLighting_writes. }
  destruct (negb (_isMonitoring w)); [apply status_writes_refl|].
  case_match; [|done].
  by destruct (runMoonDreamAnalysis_frame env
    (set_lastMoonDreamCall (now env) (before_throttle env w))) as (-> & _).
Qed.

Lemma foldl_guarded_update_writes (keys : list string) (s c : string)
    (w : Widget) :
  status_writes (fun _ => False) (_monitors w)
    (_monitors
       (foldl (fun w0 key =>
                 if monitor_enabled key w0
                 then updateMonitorStatus key s c w0 else w0) w keys)).
Proof.
  revert w. induction keys as [|k keys IH]; intros w;
    [apply status_writes_refl|].
  cbn [foldl]. eapply status_writes_trans; [|apply IH].
  apply (guarded_call_writes' k (updateMonitorStatus k s c)).
  intros; apply updateMonitorStatus_writes.
Qed.

Lemma startMonitoring_writes (env : Env) (w : Widget) :
  status_writes (fun _ => False) (_monitors w)
    (_monitors (startMonitoring env w)).
Proof.
  unfold startMonitoring. case_match; [apply status_writes_refl|].
  cbn [set_monitorInterval _monitors].
  eapply status_writes_trans; [|apply runMonitoringCycle_writes].
  apply (foldl_guarded_update_writes monitor_keys "Analyzing..." "warning"
           (set_isMonitoring true w)).
Qed.

Lemma stopMonitoring_monitors (w : Widget) :
  _monitors (stopMonitoring w) = _monitors w.
Proof. unfold stopMonitoring. by case_match. Qed.

(** Every event other than a click on a card is a run of status writes,
    guarded but for the caption callbacks. *)
Lemma step_writes (env : Env) (e : Event) (w w' : Widget) :
  (∀ key, e ≠ ClickCard key) →
  step env e w = Some w' →
  status_writes (eq "sceneContext") (_monitors w) (_monitors w').
Proof.
  intros Hclick Hstep. destruct e as [key| | |r]; cbn [step] in Hstep.
  - by destruct (Hclick key).
  - injection Hstep as <-. unfold toggleMonitoring.
    destruct (_isMonitoring w).
    + rewrite stopMonitoring_monitors. apply status_writes_refl.
    + eapply status_writes_mono; [|apply startMonitoring_writes]. done.
  - destruct (_monitorInterval w); [|done]. injection Hstep as <-.
    eapply status_writes_mono; [|apply runMonitoringCycle_writes]. done.
  - case_decide; [|done]. injection Hstep as <-.
    eapply status_writes_mono;
      [|apply (callback_writes env r (complete (request_of r) w))].
    by intros k [-> _].
Qed.

(** A click on a card: the other entries stay; the entry of the card has
    [enabled] flipped, and shows OFF / disabled when it is switched off
    with its card. *)
Lemma toggleMonitor_lookup_ne (key k : string) (w : Widget) :
  k ≠ key → _monitors (toggleMonitor key w) !! k = _monitors w !! k.
Proof.
  intros Hne. unfold toggleMonitor.
  destruct (_monitors w !! key) as [m|]; [|done].
  repeat case_match; cbn [set_monitors _monitors];
    rewrite ?updateMonitorStatus_lookup_ne by done;
    cbn [set_monitors _monitors]; by rewrite lookup_insert_ne.
Qed.

Lemma toggleMonitor_lookup (key : string) (w : Widget) (m : Monitor) :
  _monitors w !! key = Some m →
  ∃ m', _monitors (toggleMonitor key w) !! key = Some m'
        ∧ enabled m' = negb (enabled m)
        ∧ (is_Some (element m) → is_Some (element m'))
        ∧ (enabled m = false → status m' = status m ∧ class m' = class m)
        ∧ (enabled m = true → is_Some (element m) →
           status m' = "OFF" ∧ class m' = "disabled").
Proof.
  intros Hm. unfold toggleMonitor. rewrite Hm.
  destruct (element m) as [card|] eqn:Hc.
  - destruct (enabled m) eqn:He; cbn [negb].
    + edestruct (updateMonitorStatus_lookup key "OFF" "disabled") as [card' E];
        [| |rewrite E].
      * cbn [set_monitors _monitors]. apply lookup_insert_eq.
      * reflexivity.
      * eexists. split; [reflexivity|]. simpl. repeat split; eauto; done.
    + cbn [set_monitors _monitors]. rewrite lookup_insert_eq.
      eexists. split; [reflexivity|]. simpl. repeat split; eauto; done.
  - cbn [set_monitors _monitors]. rewrite lookup_insert_eq.
    eexists. split; [reflexivity|]. simpl.
    repeat split; try done; intros ? [? ?]; done.
Qed.

(** ** Invariants of the event loop *)

Lemma click_or_not (e : Event) :
  (∃ key, e = ClickCard key) ∨ (∀ key, e ≠ ClickCard key).
Proof. destruct e; eauto; right; intros; discriminate. Qed.

Lemma off_shows_off_rendered (created : Z) (faceMeshLoaded cvLoaded : bool) :
  off_shows_off (render faceMeshLoaded cvLoaded (ProductionMonitorWidget created)).
Proof.
  intros k m Hm. cbn [render _monitors] in Hm.
  rewrite lookup_fmap in Hm.
  destruct (_monitors (ProductionMonitorWidget created) !! k) as [m0|] eqn:E;
    [|done].
  injection Hm as <-. split; [by eexists|].
  intros _ Hoff. exfalso. cbn [attach_card enabled] in Hoff.
  cbn [ProductionMonitorWidget _monitors] in E.
  apply elem_of_list_to_map_2, list_elem_of_fmap in E as (k' & E & _).
  injection E as _ ->. done.
Qed.

Lemma step_off_shows_off (env : Env) (e : Event) (w w' : Widget) :
  off_shows_off w → step env e w = Some w' → off_shows_off w'.
Proof.
  intros Hinv Hstep.
  destruct (click_or_not e) as [[key ->]|Hother].
  - cbn [step] in Hstep. injection Hstep as <-. intros k m' Hm'.
    destruct (decide (k = key)) as [->|Hne].
    + destruct (_monitors w !! key) as [m|] eqn:Hm.
      * destruct (Hinv _ _ Hm) as [Hcard _].
        destruct (toggleMonitor_lookup key w m Hm)
          as (m1 & E & Hen & Hc & _ & Hoff).
        rewrite E in Hm'. injection Hm' as <-.
        split; [by apply Hc|]. intros _ Hd. apply Hoff; [|done].
        rewrite Hen in Hd. by destruct (enabled m).
      * unfold toggleMonitor in Hm'. rewrite Hm in Hm'. congruence.
    + rewrite toggleMonitor_lookup_ne in Hm' by done. by apply Hinv.
  - assert (Hw : status_writes (eq "sceneContext") (_monitors w) (_monitors w')).
    { by apply (step_writes env e). }
    intros k m' Hm'. split.
    + eapply status_writes_card; [exact Hw| |exact Hm'].
      intros m Hm. by destruct (Hinv _ _ Hm).
    + intros Hk Hoff.
      assert (Hm : _monitors w !! k = Some m').
      { eapply status_writes_off; [exact Hw| |done|done]. congruence. }
      by apply (Hinv _ _ Hm).
Qed.

(** X4. From a rendered page on, whatever the clicks, ticks and completions,
    every monitor that is off shows OFF / disabled, the scene-context
    monitor apart, and every monitor keeps its card. *)
Theorem disabled_monitors_show_off (events : list (Env * Event))
    (w w' : Widget) :
  off_shows_off w → run events w = Some w' → off_shows_off w'.
Proof.
  revert w. induction events as [|[env e] events IH]; intros w Hinv Hrun.
  - injection Hrun as <-. done.
  - cbn [run] in Hrun. destruct (step env e w) as [w1|] eqn:Hstep; [|done].
    eapply IH; [|exact Hrun]. by eapply step_off_shows_off.
Qed.

Lemma disabled_monitors_show_off_witness :
  off_shows_off
    (detect_then [wide_box]
       (complete ReqDetect (toggleMonitor "presence" monitoring_widget))).
Proof.
  apply (disabled_monitors_show_off
           [(webcam_env 1700000000000, ClickStart);
            (webcam_env 1700000000100, ClickCard "presence");
            (webcam_env 1700000000900, Completion (DetectResponse [wide_box]))]
           rendered_widget).
  - apply off_shows_off_rendered.
  - vm_compute. reflexivity.
Defined.

Lemma step_enabled (env : Env) (e : Event) (w w' : Widget) (key : string) :
  e ≠ ClickCard key → step env e w = Some w' →
  enabled <$> _monitors w' !! key = enabled <$> _monitors w !! key.
Proof.
  intros Hclick Hstep.
  destruct (click_or_not e) as [[k ->]|Hother].
  - cbn [step] in Hstep. injection Hstep as <-.
    rewrite toggleMonitor_lookup_ne; [done|]. congruence.
  - by eapply status_writes_enabled, (step_writes env e).
Qed.

(** X5. [enabled] is the user's: over a run in which the card of a monitor is
    not clicked, however many cycles run and calls complete, the monitor's
    [enabled] flag is what it was. *)
Theorem enabled_changes_only_by_click (key : string)
    (events : list (Env * Event)) (w w' : Widget) :
  never_clicked key events → run events w = Some w' →
  enabled <$> _monitors w' !! key = enabled <$> _monitors w !! key.
Proof.
  revert w. induction events as [|[env e] events IH]; intros w Hnc Hrun.
  - by injection Hrun as <-.
  - cbn [run] in Hrun. destruct (step env e w) as [w1|] eqn:Hstep; [|done].
    inversion Hnc as [|? ? He Hnc']; subst. cbn [snd] in He.
    rewrite (IH w1 Hnc' Hrun). by apply (step_enabled env e).
Qed.

Lemma enabled_changes_only_by_click_witness :
  enabled <$> _monitors
    (detect_then [wide_box]
       (complete ReqDetect (toggleMonitor "presence" monitoring_widget)))
    !! "focus"
  = enabled <$> _monitors rendered_widget !! "focus".
Proof.
  apply (enabled_changes_only_by_click "focus"
           [(webcam_env 1700000000000, ClickStart);
            (webcam_env 1700000000100, ClickCard "presence");
            (webcam_env 1700000000900, Completion (DetectResponse [wide_box]))]
           rendered_widget).
  - repeat constructor; discriminate.
  - vm_compute. reflexivity.
Defined.

(** X6. No event adds or removes a monitor: after any run the map has the
    keys it had. *)
Theorem monitor_keys_stay (events : list (Env * Event)) (w w' : Widget) :
  run events w = Some w' → dom (_monitors w') = dom (_monitors w).
Proof.
  revert w. induction events as [|[env e] events IH]; intros w Hrun.
  - by injection Hrun as <-.
  - cbn [run] in Hrun. destruct (step env e w) as [w1|] eqn:Hstep; [|done].
    rewrite (IH w1 Hrun). by apply (monitor_keys_kept env e).
Qed.

Lemma monitor_keys_stay_witness :
  dom (_monitors
         (detect_then [wide_box]
            (complete ReqDetect (toggleMonitor "presence" monitoring_widget))))
  = dom (_monitors rendered_widget).
Proof.
  apply (monitor_keys_stay
           [(webcam_env 1700000000000, ClickStart);
            (webcam_env 1700000000100, ClickCard "presence");
            (webcam_env 1700000000900, Completion (DetectResponse [wide_box]))]
           rendered_widget).
  vm_compute. reflexivity.
Defined.

(** ** What each event leaves of the scheduler and of the smoother *)

Lemma toggleMonitor_frame (key : string) (w : Widget) :
  toggleMonitor key w = set_monitors (_monitors (toggleMonitor key w)) w.
Proof.
  unfold toggleMonitor. destruct w; cbn -[updateMonitorStatus].
  repeat case_match; try reflexivity.
  by rewrite updateMonitorStatus_frame at 1.
Qed.

Lemma foldl_guarded_update_frame (keys : list string) (s c : string)
    (w : Widget) :
  schedule_of
    (foldl (fun w0 key =>
              if monitor_enabled key w0
              then updateMonitorStatus key s c w0 else w0) w keys)
  = schedule_of w
  ∧ analysis_of
      (foldl (fun w0 key =>
                if monitor_enabled key w0
                then updateMonitorStatus key s c w0 else w0) w keys)
    = analysis_of w.
Proof.
  revert w. induction keys as [|k keys IH]; intros w; [done|].
  cbn [foldl]. destruct (IH (if monitor_enabled k w
                             then updateMonitorStatus k s c w else w))
    as [-> ->].
  case_match; [|done].
  by rewrite updateMonitorStatus_schedule, (updateMonitorStatus_frame k s c w).
Qed.

Lemma foldl_guarded_update_history (keys : list string) (s c : string)
    (w : Widget) :
  _landmarkHistory
    (foldl (fun w0 key =>
              if monitor_enabled key w0
              then updateMonitorStatus key s c w0 else w0) w keys)
  = _landmarkHistory w.
Proof.
  destruct (foldl_guarded_update_frame keys s c w) as [_ E].
  exact (f_equal fst E).
Qed.

Lemma updateMonitorStatus_analysis (key s c : string) (w : Widget) :
  analysis_of (updateMonitorStatus key s c w) = analysis_of w.
Proof. by rewrite updateMonitorStatus_frame. Qed.

Lemma updateMonitorStatus_history (key s c : string) (w : Widget) :
  _landmarkHistory (updateMonitorStatus key s c w) = _landmarkHistory w.
Proof. by rewrite updateMonitorStatus_frame. Qed.

Lemma runMonitoringCycle_frame (env : Env) (w : Widget) :
  _monitorInterval (runMonitoringCycle env w) = _monitorInterval w
  ∧ analysis_of (runMonitoringCycle env w) = analysis_of w.
Proof.
  rewrite runMonitoringCycle_unfold.
  assert (Hb : _monitorInterval (before_throttle env w) = _monitorInterval w
               ∧ analysis_of (before_throttle env w) = analysis_of w).
  { unfold before_throttle, analyzeLighting.
    repeat case_match;
      rewrite ?updateMonitorStatus_analysis;
      try (rewrite updateMonitorStatus_frame); done. }
  assert (Hr : ∀ w0, _monitorInterval (runMoonDreamAnalysis env w0)
                     = _monitorInterval w0
                     ∧ analysis_of (runMoonDreamAnalysis env w0)
                       = analysis_of w0).
  { intros w0. unfold runMoonDreamAnalysis. repeat case_match; done. }
  destruct (negb (_isMonitoring w)); [done|].
  case_match; [|done].
  destruct (Hr (set_lastMoonDreamCall (now env) (before_throttle env w)))
    as [-> ->].
  done.
Qed.

Lemma runMonitoringCycle_history (env : Env) (w : Widget) :
  _landmarkHistory (runMonitoringCycle env w) = _landmarkHistory w.
Proof.
  destruct (runMonitoringCycle_frame env w) as [_ E].
  exact (f_equal fst E).
Qed.

Lemma startMonitoring_frame (env : Env) (w : Widget) :
  _monitorInterval (startMonitoring env w) = _isMonitoring (startMonitoring env w)
  ∨ startMonitoring env w = w.
Proof.
  unfold startMonitoring. case_match; [by right|]. left.
  cbn [set_monitorInterval _monitorInterval _isMonitoring].
  rewrite runMonitoringCycle_isMonitoring.
  destruct (foldl_guarded_update_frame monitor_keys "Analyzing..." "warning"
              (set_isMonitoring true w)) as [E _].
  unfold schedule_of in E. by simplify_eq.
Qed.

Lemma step_timer (env : Env) (e : Event) (w w' : Widget) :
  _monitorInterval w = _isMonitoring w → step env e w = Some w' →
  _monitorInterval w' = _isMonitoring w'.
Proof.
  intros Hinv Hstep. destruct e as [key| | |r]; cbn [step] in Hstep.
  - injection Hstep as <-. by rewrite toggleMonitor_frame.
  - injection Hstep as <-. unfold toggleMonitoring.
    destruct (_isMonitoring w) eqn:Hm.
    + unfold stopMonitoring. by case_match.
    + destruct (startMonitoring_frame env w) as [E|E]; [exact E|].
      rewrite E. congruence.
  - destruct (_monitorInterval w) eqn:Hi; [|done]. injection Hstep as <-.
    destruct (runMonitoringCycle_frame env w) as [-> _].
    by rewrite runMonitoringCycle_isMonitoring, Hi.
  - case_decide; [|done]. injection Hstep as <-.
    pose proof (callback_schedule env r (complete (request_of r) w)) as E.
    unfold schedule_of in E. injection E as _ _ Em Ei _ _.
    by rewrite Em, Ei.
Qed.

(** X7. The periodic timer is armed exactly while the widget is monitoring:
    what holds of the constructed widget holds after every run. *)
Theorem timer_armed_iff_monitoring (events : list (Env * Event))
    (w w' : Widget) :
  _monitorInterval w = _isMonitoring w → run events w = Some w' →
  _monitorInterval w' = _isMonitoring w'.
Proof.
  revert w. induction events as [|[env e] events IH]; intros w Hinv Hrun.
  - by injection Hrun as <-.
  - cbn [run] in Hrun. destruct (step env e w) as [w1|] eqn:Hstep; [|done].
    eapply IH; [|exact Hrun]. by eapply step_timer.
Qed.

Lemma timer_armed_iff_monitoring_witness :
  _monitorInterval (stopMonitoring (toggleMonitor "presence" monitoring_widget))
  = _isMonitoring (stopMonitoring (toggleMonitor "presence" monitoring_widget)).
Proof.
  apply (timer_armed_iff_monitoring
           [(webcam_env 1700000000000, ClickStart);
            (webcam_env 1700000000100, ClickCard "presence");
            (webcam_env 1700000000900, ClickStart)]
           rendered_widget).
  - reflexivity.
  - vm_compute. reflexivity.
Defined.

(** The smoother's history after the landmark callback: as it was, or with
    the new frame pushed. *)
Lemma processFrameResults_history (env : Env) (faces : list LandmarkFrame)
    (w : Widget) :
  _landmarkHistory (processFrameResults env faces w) = _landmarkHistory w
  ∨ ∃ face0, _landmarkHistory (processFrameResults env faces w)
             = push_history (_landmarkHistory w) face0.
Proof.
  unfold processFrameResults.
  destruct (negb (_isMonitoring w)); [by left|].
  destruct faces as [|face0 faces].
  - left. repeat case_match; by rewrite ?updateMonitorStatus_history.
  - right. exists face0. unfold smoothLandmarks.
    set (landmarks := smoothed_point _ _ <$> _).
    set (w0 := set_landmarkHistory _ w).
    change (push_history (_landmarkHistory w) face0)
      with (_landmarkHistory w0).
    clearbody w0 landmarks.
    assert (Ho : ∀ w1, _landmarkHistory (analyzeOrientation landmarks w1)
                       = _landmarkHistory w1).
    { intros w1. unfold analyzeOrientation.
      repeat case_match; by rewrite updateMonitorStatus_history. }
    assert (Ht : ∀ w1, _landmarkHistory (analyzeTalking landmarks (now env) w1)
                       = _landmarkHistory w1).
    { intros w1. unfold analyzeTalking.
      repeat case_match; by rewrite updateMonitorStatus_history. }
    assert (Hf : ∀ w1, _landmarkHistory (analyzeFocus env landmarks w1)
                       = _landmarkHistory w1).
    { intros w1. unfold analyzeFocus.
      repeat case_match; by rewrite updateMonitorStatus_history. }
    repeat case_match; by rewrite ?Hf, ?Ht, ?Ho.
Qed.

Lemma callback_history (env : Env) (r : Response) (w : Widget) :
  _landmarkHistory (callback env r w) = _landmarkHistory w
  ∨ ∃ face0, _landmarkHistory (callback env r w)
             = push_history (_landmarkHistory w) face0.
Proof.
  destruct r; cbn [callback].
  - apply processFrameResults_history.
  - by left.
  - left. unfold detect_then.
    repeat case_match; by rewrite ?updateMonitorStatus_history.
  - left. unfold detect_catch.
    repeat case_match; by rewrite ?updateMonitorStatus_history.
  - left. unfold caption_then. cbn [set_sceneText _landmarkHistory].
    apply updateMonitorStatus_history.
  - left. unfold caption_catch. apply updateMonitorStatus_history.
Qed.

Lemma step_history (env : Env) (e : Event) (w w' : Widget) :
  step env e w = Some w' →
  _landmarkHistory w' = _landmarkHistory w
  ∨ ∃ face0, _landmarkHistory w' = push_history (_landmarkHistory w) face0.
Proof.
  intros Hstep. destruct e as [key| | |r]; cbn [step] in Hstep.
  - injection Hstep as <-. left. by rewrite toggleMonitor_frame.
  - injection Hstep as <-. left. unfold toggleMonitoring.
    destruct (_isMonitoring w).
    + unfold stopMonitoring. by case_match.
    + unfold startMonitoring. case_match; [done|].
      cbn [set_monitorInterval _landmarkHistory].
      by rewrite runMonitoringCycle_history, foldl_guarded_update_history.
  - destruct (_monitorInterval w); [|done]. injection Hstep as <-. left.
    apply runMonitoringCycle_history.
  - case_decide; [|done]. injection Hstep as <-.
    apply (callback_history env r (complete (request_of r) w)).
Qed.

(** X8. The smoother never holds more than five frames: the bound holds of
    the constructed widget (no frame) and after every run. *)
Theorem landmark_history_bounded (events : list (Env * Event))
    (w w' : Widget) :
  length (_landmarkHistory w) ≤ 5 → run events w = Some w' →
  length (_landmarkHistory w') ≤ 5.
Proof.
  revert w. induction events as [|[env e] events IH]; intros w Hinv Hrun.
  - by injection Hrun as <-.
  - cbn [run] in Hrun. destruct (step env e w) as [w1|] eqn:Hstep; [|done].
    eapply IH; [|exact Hrun].
    destruct (step_history env e w w1 Hstep) as [->|[face0 ->]]; [done|].
    by apply push_history_length.
Qed.

Lemma landmark_history_bounded_witness :
  length (_landmarkHistory
            (processFrameResults (webcam_env 1700000000900) [open_mouth]
               (complete ReqFaceMesh monitoring_widget))) ≤ 5.
Proof.
  apply (landmark_history_bounded
           [(webcam_env 1700000000000, ClickStart);
            (webcam_env 1700000000900,
             Completion (FaceMeshResults [open_mouth]))]
           rendered_widget).
  - simpl. lia.
  - vm_compute. reflexivity.
Defined.

Lemma startMonitoring_last (env : Env) (w : Widget) :
  _lastMoonDreamCall (startMonitoring env w) = _lastMoonDreamCall w
  ∨ _lastMoonDreamCall (startMonitoring env w) = now env.
Proof.
  unfold startMonitoring. case_match; [by left|].
  cbn [set_monitorInterval _lastMoonDreamCall].
  rewrite runMonitoringCycle_last.
  destruct (foldl_guarded_update_frame monitor_keys "Analyzing..." "warning"
              (set_isMonitoring true w)) as [E _].
  set (w0 := foldl _ _ _) in *. clearbody w0.
  unfold schedule_of in E. injection E as _ _ _ _ El _. rewrite El.
  case_match; [by right|by left].
Qed.

Lemma step_last (env : Env) (e : Event) (w w' : Widget) :
  step env e w = Some w' →
  _lastMoonDreamCall w' = _lastMoonDreamCall w
  ∨ _lastMoonDreamCall w' = now env.
Proof.
  intros Hstep. destruct e as [key| | |r]; cbn [step] in Hstep.
  - injection Hstep as <-. left. by rewrite toggleMonitor_frame.
  - injection Hstep as <-. unfold toggleMonitoring.
    destruct (_isMonitoring w).
    + left. unfold stopMonitoring. by case_match.
    + apply startMonitoring_last.
  - destruct (_monitorInterval w); [|done]. injection Hstep as <-.
    rewrite runMonitoringCycle_last. case_match; [by right|by left].
  - case_decide; [|done]. injection Hstep as <-. left.
    by rewrite callback_last.
Qed.

Lemma run_last_from (t : Z) (events : list (Env * Event)) (w w' : Widget) :
  clock_from t events → (t ≤ _lastMoonDreamCall w)%Z →
  run events w = Some w' → (t ≤ _lastMoonDreamCall w')%Z.
Proof.
  revert w. induction events as [|[env e] events IH]; intros w Hc Hl Hrun.
  - by injection Hrun as <-.
  - cbn [run] in Hrun. destruct (step env e w) as [w1|] eqn:Hstep; [|done].
    inversion Hc as [|? ? Hnow Hc']; subst. cbn [fst] in Hnow.
    apply (IH w1 Hc'); [|done].
    destruct (step_last env e w w1 Hstep) as [->| ->]; done.
Qed.

(** X9. With a clock that does not run backwards, two cycles that issue a
    remote call are more than 2000 ms apart, whatever clicks, ticks and
    completions happen between them. *)
Theorem remote_calls_spaced (env1 env2 : Env) (events : list (Env * Event))
    (w w1 : Widget) :
  issues_remote_call env1 w = true →
  clock_from (now env1) events →
  run events (runMonitoringCycle env1 w) = Some w1 →
  issues_remote_call env2 w1 = true →
  (now env2 - now env1 > 2000)%Z.
Proof.
  intros H1 Hc Hrun H2.
  apply issues_remote_call_passes in H1 as [Hm Ht].
  apply issues_remote_call_passes in H2 as [_ H2%Z.gtb_gt].
  assert (Hl : _lastMoonDreamCall (runMonitoringCycle env1 w) = now env1)
    by (by rewrite runMonitoringCycle_last, Hm, Ht).
  pose proof (run_last_from (now env1) events _ w1 Hc
                ltac:(rewrite Hl; lia) Hrun).
  lia.
Qed.

Lemma remote_calls_spaced_witness :
  (now (webcam_env 1700000006000) - now (webcam_env 1700000003000) > 2000)%Z.
Proof.
  apply (remote_calls_spaced (webcam_env 1700000003000)
           (webcam_env 1700000006000)
           [(webcam_env 1700000003200, Completion (DetectResponse [wide_box]));
            (webcam_env 1700000003300, ClickCard "focus");
            (webcam_env 1700000004500, Tick)]
           monitoring_widget
           (runMonitoringCycle (webcam_env 1700000004500)
              (toggleMonitor "focus"
                 (detect_then [wide_box]
                    (complete ReqDetect
                       (runMonitoringCycle (webcam_env 1700000003000)
                          monitoring_widget)))))).
  - vm_compute. reflexivity.
  - repeat constructor; simpl; lia.
  - vm_compute. reflexivity.
  - vm_compute. reflexivity.
Defined.

(** ** The vocabulary of the cards *)

Lemma written_in_vocabulary_refl (ms : gmap string Monitor) :
  written_in_vocabulary ms ms.
Proof. intros k m Hm. left. eauto. Qed.

Lemma written_in_vocabulary_trans (ms1 ms2 ms3 : gmap string Monitor) :
  written_in_vocabulary ms1 ms2 → written_in_vocabulary ms2 ms3 →
  written_in_vocabulary ms1 ms3.
Proof.
  intros H12 H23 k m3 Hm3.
  destruct (H23 k m3 Hm3) as [(m2 & Hm2 & Hs & Hc)|?]; [|by right].
  destruct (H12 k m2 Hm2) as [(m1 & Hm1 & Hs1 & Hc1)|Hv].
  - left. exists m1. split; [done|]. split; congruence.
  - right. by rewrite <- Hs, <- Hc.
Qed.

Lemma in_vocabulary_written (ms ms' : gmap string Monitor) :
  in_vocabulary ms → written_in_vocabulary ms ms' → in_vocabulary ms'.
Proof.
  intros Hv Hw k m' Hm'.
  destruct (Hw k m' Hm') as [(m & Hm & <- & <-)|?]; [|done].
  by apply (Hv k m).
Qed.

Lemma updateMonitorStatus_vocabulary (key s c : string) (w : Widget) :
  status_vocabulary s c = true →
  written_in_vocabulary (_monitors w)
    (_monitors (updateMonitorStatus key s c w)).
Proof.
  intros Hv k m' Hm'. destruct (decide (k = key)) as [->|Hne].
  - destruct (_monitors w !! key) as [m|] eqn:Hm.
    + destruct (element m) as [card|] eqn:Hc.
      * right.
        destruct (updateMonitorStatus_lookup key s c w m card Hm Hc)
          as [card' E].
        rewrite E in Hm'. by injection Hm' as <-.
      * left. unfold updateMonitorStatus in Hm'. rewrite Hm, Hc in Hm'.
        exists m'. by rewrite <- Hm'.
    + unfold updateMonitorStatus in Hm'. rewrite Hm in Hm'. congruence.
  - left. rewrite updateMonitorStatus_lookup_ne in Hm' by done. eauto.
Qed.

Lemma maybe_vocabulary (b : bool) (w0 w w' : Widget) :
  written_in_vocabulary (_monitors w0) (_monitors w) →
  (b = true → written_in_vocabulary (_monitors w) (_monitors w')) →
  written_in_vocabulary (_monitors w0) (_monitors (if b then w' else w)).
Proof.
  intros H0 H. destruct b; [|done].
  eapply written_in_vocabulary_trans; [exact H0|auto].
Qed.

Lemma analyzeOrientation_vocabulary (landmarks : LandmarkFrame) (w : Widget) :
  written_in_vocabulary (_monitors w)
    (_monitors (analyzeOrientation landmarks w)).
Proof.
  unfold analyzeOrientation.
  repeat case_match; by apply updateMonitorStatus_vocabulary.
Qed.

Lemma analyzeTalking_vocabulary (landmarks : LandmarkFrame) (t : Z)
    (w : Widget) :
  written_in_vocabulary (_monitors w)
    (_monitors (analyzeTalking landmarks t w)).
Proof.
  unfold analyzeTalking.
  repeat case_match;
    first [ by apply updateMonitorStatus_vocabulary
          | by apply (updateMonitorStatus_vocabulary "talking" _ _
                        (set_talkingState _ w)) ].
Qed.

Lemma focusStatus_vocabulary (v : float) :
  status_vocabulary (focusStatus v).1 (focusStatus v).2 = true.
Proof. unfold focusStatus. by repeat case_match. Qed.

Lemma lightingStatus_vocabulary (v : float) :
  status_vocabulary (lightingStatus v).1 (lightingStatus v).2 = true.
Proof. unfold lightingStatus. by repeat case_match. Qed.

(** With OpenCV ready the focus analyzer stays in the vocabulary. *)
Lemma analyzeFocus_vocabulary (env : Env) (landmarks : LandmarkFrame)
    (w : Widget) :
  _cvReady w = true →
  written_in_vocabulary (_monitors w)
    (_monitors (analyzeFocus env landmarks w)).
Proof.
  intros Hcv. unfold analyzeFocus. rewrite Hcv. cbn [negb].
  repeat case_match;
    first [ by apply updateMonitorStatus_vocabulary
          | apply updateMonitorStatus_vocabulary, focusStatus_vocabulary ].
Qed.

Lemma analyzeLighting_vocabulary (env : Env) (w : Widget) :
  written_in_vocabulary (_monitors w) (_monitors (analyzeLighting env w)).
Proof.
  unfold analyzeLighting.
  repeat case_match;
    first [ by apply updateMonitorStatus_vocabulary
          | apply updateMonitorStatus_vocabulary, lightingStatus_vocabulary ].
Qed.

Lemma processFrameResults_vocabulary (env : Env) (faces : list LandmarkFrame)
    (w : Widget) :
  written_in_vocabulary (_monitors w)
    (_monitors (processFrameResults env faces w)).
Proof.
  unfold processFrameResults.
  destruct (negb (_isMonitoring w)); [apply written_in_vocabulary_refl|].
  destruct faces as [|face0 faces].
  - repeat (apply maybe_vocabulary;
            [|intros _; by apply updateMonitorStatus_vocabulary]).
    apply written_in_vocabulary_refl.
  - unfold smoothLandmarks.
    set (landmarks := smoothed_point _ _ <$> _).
    set (w0 := set_landmarkHistory _ w).
    change (_monitors w) with (_monitors w0) at 1. clearbody w0 landmarks.
    apply maybe_vocabulary;
      [|intros [_ Hcv]%andb_true_iff; by apply analyzeFocus_vocabulary].
    apply maybe_vocabulary; [|intros _; apply analyzeTalking_vocabulary].
    apply maybe_vocabulary; [|intros _; apply analyzeOrientation_vocabulary].
    apply written_in_vocabulary_refl.
Qed.

Lemma composition_status_vocabulary (face : Box) :
  status_vocabulary (join " " (composition_issues face)) "bad" = true.
Proof. unfold composition_issues. by repeat case_match. Qed.

Lemma detect_then_vocabulary (objects : list Box) (w : Widget) :
  written_in_vocabulary (_monitors w) (_monitors (detect_then objects w)).
Proof.
  unfold detect_then. apply maybe_vocabulary.
  - apply maybe_vocabulary; [apply written_in_vocabulary_refl|].
    intros _. destruct (0 <? length objects)%nat;
      by apply updateMonitorStatus_vocabulary.
  - intros _. destruct objects as [|face rest].
    + by apply updateMonitorStatus_vocabulary.
    + destruct (length (composition_issues face) =? 0)%nat;
        [by apply updateMonitorStatus_vocabulary|].
      apply updateMonitorStatus_vocabulary, composition_status_vocabulary.
Qed.

Lemma callback_vocabulary (env : Env) (r : Response) (w : Widget) :
  written_in_vocabulary (_monitors w) (_monitors (callback env r w)).
Proof.
  destruct r; cbn [callback].
  - apply processFrameResults_vocabulary.
  - apply written_in_vocabulary_refl.
  - apply detect_then_vocabulary.
  - unfold detect_catch.
    repeat (apply maybe_vocabulary;
            [|intros _; by apply updateMonitorStatus_vocabulary]).
    apply written_in_vocabulary_refl.
  - unfold caption_then. cbn [set_sceneText _monitors].
    by apply updateMonitorStatus_vocabulary.
  - by apply updateMonitorStatus_vocabulary.
Qed.

Lemma runMonitoringCycle_vocabulary (env : Env) (w : Widget) :
  written_in_vocabulary (_monitors w) (_monitors (runMonitoringCycle env w)).
Proof.
  rewrite runMonitoringCycle_unfold.
  assert (Hb : written_in_vocabulary (_monitors w)
                 (_monitors (before_throttle env w))).
  { unfold before_throttle.
    set (w0 := if _faceMesh w && (media env && video env) && stream env
               then _ else w).
    assert (E : _monitors w0 = _monitors w) by (unfold w0; by case_match).
    rewrite <- E at 1. clearbody w0.
    apply maybe_vocabulary; [apply written_in_vocabulary_refl|].
    intros _. apply analyzeLighting_vocabulary. }
  destruct (negb (_isMonitoring w)); [apply written_in_vocabulary_refl|].
  case_match; [|done].
  by destruct (runMoonDreamAnalysis_frame env
    (set_lastMoonDreamCall (now env) (before_throttle env w))) as (-> & _).
Qed.

Lemma foldl_guarded_update_vocabulary (keys : list string) (s c : string)
    (w : Widget) :
  status_vocabulary s c = true →
  written_in_vocabulary (_monitors w)
    (_monitors
       (foldl (fun w0 key =>
                 if monitor_enabled key w0
                 then updateMonitorStatus key s c w0 else w0) w keys)).
Proof.
  intros Hv. revert w. induction keys as [|k keys IH]; intros w;
    [apply written_in_vocabulary_refl|].
  cbn [foldl]. eapply written_in_vocabulary_trans; [|apply IH].
  apply maybe_vocabulary; [apply written_in_vocabulary_refl|].
  intros _. by apply updateMonitorStatus_vocabulary.
Qed.

Lemma toggleMonitor_vocabulary (key : string) (w : Widget) :
  written_in_vocabulary (_monitors w) (_monitors (toggleMonitor key w)).
Proof.
  intros k m' Hm'. destruct (decide (k = key)) as [->|Hne].
  - destruct (_monitors w !! key) as [m|] eqn:Hm.
    + destruct (toggleMonitor_lookup key w m Hm)
        as (m1 & E & _ & _ & Hon & Hoff).
      rewrite E in Hm'. injection Hm' as <-.
      destruct (enabled m) eqn:He.
      * destruct (element m) as [card|] eqn:Hc.
        -- right. destruct Hoff as [-> ->]; by eauto.
        -- left. exists m. split; [done|].
           unfold toggleMonitor in E. rewrite Hm, Hc in E.
           cbn [set_monitors _monitors] in E. rewrite lookup_insert_eq in E.
           by injection E as <-.
      * left. exists m. destruct Hon as [-> ->]; done.
    + unfold toggleMonitor in Hm'. rewrite Hm in Hm'. congruence.
  - rewrite toggleMonitor_lookup_ne in Hm' by done. left. eauto.
Qed.

Lemma step_vocabulary (env : Env) (e : Event) (w w' : Widget) :
  step env e w = Some w' →
  written_in_vocabulary (_monitors w) (_monitors w').
Proof.
  intros Hstep. destruct e as [key| | |r]; cbn [step] in Hstep.
  - injection Hstep as <-. apply toggleMonitor_vocabulary.
  - injection Hstep as <-. unfold toggleMonitoring.
    destruct (_isMonitoring w).
    + rewrite stopMonitoring_monitors. apply written_in_vocabulary_refl.
    + unfold startMonitoring. case_match; [apply written_in_vocabulary_refl|].
      cbn [set_monitorInterval _monitors].
      eapply written_in_vocabulary_trans; [|apply runMonitoringCycle_vocabulary].
      by apply (foldl_guarded_update_vocabulary monitor_keys "Analyzing..."
                  "warning" (set_isMonitoring true w)).
  - destruct (_monitorInterval w); [|done]. injection Hstep as <-.
    apply runMonitoringCycle_vocabulary.
  - case_decide; [|done]. injection Hstep as <-.
    apply (callback_vocabulary env r (complete (request_of r) w)).
Qed.

Lemma run_vocabulary (events : list (Env * Event)) (w w' : Widget) :
  in_vocabulary (_monitors w) → run events w = Some w' →
  in_vocabulary (_monitors w').
Proof.
  revert w. induction events as [|[env e] events IH]; intros w Hinv Hrun.
  - by injection Hrun as <-.
  - cbn [run] in Hrun. destruct (step env e w) as [w1|] eqn:Hstep; [|done].
    eapply IH; [|exact Hrun].
    eapply in_vocabulary_written; [exact Hinv|by eapply step_vocabulary].
Qed.

Lemma in_vocabulary_constructed (created : Z) (faceMeshLoaded cvLoaded : bool) :
  in_vocabulary
    (_monitors (render faceMeshLoaded cvLoaded (ProductionMonitorWidget created))).
Proof.
  intros k m Hm. cbn [render _monitors] in Hm. rewrite lookup_fmap in Hm.
  destruct (_monitors (ProductionMonitorWidget created) !! k) as [m0|] eqn:E;
    [|done].
  injection Hm as <-.
  cbn [ProductionMonitorWidget _monitors] in E.
  apply elem_of_list_to_map_2, list_elem_of_fmap in E as (k' & E & _).
  injection E as _ ->. done.
Qed.

(** X10. After any run from the constructed and rendered widget, the class
    of every monitor is one of good, warning, bad and disabled. *)
Theorem status_class_closed (created : Z) (faceMeshLoaded cvLoaded : bool)
    (events : list (Env * Event)) (w' : Widget) (k : string) (m : Monitor) :
  run events (render faceMeshLoaded cvLoaded (ProductionMonitorWidget created))
  = Some w' →
  _monitors w' !! k = Some m →
  class m ∈ ["good"; "warning"; "bad"; "disabled"].
Proof.
  intros Hrun Hm.
  pose proof (run_vocabulary events _ w'
                (in_vocabulary_constructed created faceMeshLoaded cvLoaded)
                Hrun k m Hm) as Hv.
  unfold status_vocabulary in Hv. by apply bool_decide_eq_true in Hv as [? _].
Qed.

(** X11. After any run from the constructed and rendered widget, no monitor
    shows CV N/A: the landmark callback calls the focus analyzer only when
    OpenCV is ready, so that the first test of [analyzeFocus] never fires. *)
Theorem cv_not_available_never_shown (created : Z)
    (faceMeshLoaded cvLoaded : bool) (events : list (Env * Event))
    (w' : Widget) (k : string) (m : Monitor) :
  run events (render faceMeshLoaded cvLoaded (ProductionMonitorWidget created))
  = Some w' →
  _monitors w' !! k = Some m →
  status m ≠ "CV N/A".
Proof.
  intros Hrun Hm.
  pose proof (run_vocabulary events _ w'
                (in_vocabulary_constructed created faceMeshLoaded cvLoaded)
                Hrun k m Hm) as Hv.
  unfold status_vocabulary in Hv. by apply bool_decide_eq_true in Hv as [_ ?].
Qed.

Lemma status_class_closed_witness :
  class {| enabled := true; status := "TOO CLOSE"; class := "bad";
           element := Some {| valueText := "TOO CLOSE";
                              classList := ["moon-status-card";
                                            "moon-status-bad"] |} |}
  ∈ ["good"; "warning"; "bad"; "disabled"].
Proof.
  apply (status_class_closed 1700000000000 true true
           [(webcam_env 1700000000000, ClickStart);
            (webcam_env 1700000000900, Completion (DetectResponse [wide_box]))]
           (detect_then [wide_box] (complete ReqDetect monitoring_widget))
           "composition").
  - vm_compute. reflexivity.
  - vm_compute. reflexivity.
Defined.

Lemma cv_not_available_never_shown_witness :
  status {| enabled := true; status := "Analyzing..."; class := "warning";
            element := Some {| valueText := "Analyzing...";
                               classList := ["moon-status-card";
                                             "moon-status-warning"] |} |}
  ≠ "CV N/A".
Proof.
  apply (cv_not_available_never_shown 1700000000000 true false
           [(webcam_env 1700000000000, ClickStart);
            (webcam_env 1700000000900,
             Completion (FaceMeshResults [open_mouth]))]
           (processFrameResults (webcam_env 1700000000900) [open_mouth]
              (complete ReqFaceMesh
                 (startMonitoring (webcam_env 1700000000000)
                    rendered_without_opencv)))
           "focus").
  - vm_compute. reflexivity.
  - vm_compute. reflexivity.
Defined.

(** ** Single calls *)

Lemma monitor_ready_writes (G : string → Prop) (key : string)
    (w w' : Widget) :
  status_writes G (_monitors w) (_monitors w') →
  monitor_ready key w → monitor_ready key w'.
Proof.
  intros H (m & card & Hm & He & Hc).
  destruct (H key) as [E|(m0 & s & c & card' & Hm0 & _ & _ & E)].
  - exists m, card. by rewrite E.
  - rewrite Hm in Hm0. injection Hm0 as <-.
    eexists _, card'. rewrite E. by rewrite He.
Qed.

Lemma monitor_ready_enabled (key : string) (w : Widget) :
  monitor_ready key w → monitor_enabled key w = true.
Proof.
  intros (m & card & Hm & He & _). unfold monitor_enabled. by rewrite Hm.
Qed.

Lemma monitor_ready_update (key k s c : string) (w : Widget) :
  monitor_ready key w → monitor_ready key (updateMonitorStatus k s c w).
Proof. apply (monitor_ready_writes _ _ _ _ (updateMonitorStatus_writes k s c w)). Qed.

Lemma updateMonitorStatus_ready_shown (key s c : string) (w : Widget) :
  monitor_ready key w →
  shown key (updateMonitorStatus key s c w) = Some (s, c).
Proof.
  intros (m & card & Hm & _ & Hc). by eapply updateMonitorStatus_shown.
Qed.

Lemma updateMonitorStatus_shown_ne (key k s c : string) (w : Widget) :
  k ≠ key → shown k (updateMonitorStatus key s c w) = shown k w.
Proof.
  intros Hne. unfold shown. by rewrite updateMonitorStatus_lookup_ne.
Qed.

(** The second click of a card, on a monitor that is off. *)
Lemma toggleMonitor_on (key : string) (w : Widget) (m : Monitor)
    (card : Card) :
  _monitors w !! key = Some m → enabled m = false → element m = Some card →
  _monitors (toggleMonitor key w) !! key
  = Some {| enabled := true; status := status m; class := class m;
            element :=
              Some {| valueText := valueText card;
                      classList := classList_remove ["moon-status-off"]
                                     (classList card) |} |}.
Proof.
  intros Hm He Hc. unfold toggleMonitor. rewrite Hm, Hc, He.
  cbn [negb set_monitors _monitors]. by rewrite lookup_insert_eq.
Qed.

(** X12. Switching a monitor off and on again does not bring its status
    back: the monitor is on, its card has lost the class moon-status-off,
    and it still shows OFF / disabled (until an analyzer writes it). *)
Theorem toggle_off_then_on_shows_off (key : string) (w : Widget) :
  monitor_ready key w →
  monitor_enabled key (toggleMonitor key (toggleMonitor key w)) = true
  ∧ shown key (toggleMonitor key (toggleMonitor key w))
    = Some ("OFF", "disabled")
  ∧ ∃ (m' : Monitor) (card' : Card),
      _monitors (toggleMonitor key (toggleMonitor key w)) !! key = Some m'
      ∧ element m' = Some card'
      ∧ "moon-status-off" ∉ classList card'.
Proof.
  intros (m & card & Hm & He & Hc).
  destruct (toggleMonitor_lookup key w m Hm)
    as (m1 & E1 & Hen1 & Hc1 & _ & Hoff).
  destruct (Hoff He) as [Hs1 Hcl1]; [by rewrite Hc|].
  destruct (Hc1 ltac:(by rewrite Hc)) as [card1 Hcard1].
  rewrite He in Hen1. cbn [negb] in Hen1.
  pose proof (toggleMonitor_on key _ m1 card1 E1 Hen1 Hcard1) as E2.
  split; [|split].
  - unfold monitor_enabled. by rewrite E2.
  - unfold shown. rewrite E2. cbn. by rewrite Hs1, Hcl1.
  - eexists _, _. split; [exact E2|]. split; [reflexivity|].
    cbn [classList]. unfold classList_remove.
    rewrite list_elem_of_difference. intros [_ H]. apply H. constructor.
Qed.

Lemma toggle_off_then_on_shows_off_witness :
  shown "lighting"
    (toggleMonitor "lighting" (toggleMonitor "lighting" monitoring_widget))
  = Some ("OFF", "disabled").
Proof.
  apply (toggle_off_then_on_shows_off "lighting" monitoring_widget).
  eexists _, _. split; [vm_compute; reflexivity|]. split; reflexivity.
Defined.

Lemma guarded_update_ready (key k s c : string) (w : Widget) :
  monitor_ready key w →
  monitor_ready key
    (if monitor_enabled k w then updateMonitorStatus k s c w else w).
Proof. intros H. case_match; [by apply monitor_ready_update|done]. Qed.

Lemma guarded_update_shown (key s c : string) (w : Widget) :
  monitor_ready key w →
  shown key (if monitor_enabled key w then updateMonitorStatus key s c w else w)
  = Some (s, c).
Proof.
  intros H. rewrite (monitor_ready_enabled _ _ H).
  by apply updateMonitorStatus_ready_shown.
Qed.

Lemma guarded_update_shown_ne (key k s c : string) (w : Widget) :
  k ≠ key →
  shown k (if monitor_enabled key w then updateMonitorStatus key s c w else w)
  = shown k w.
Proof. intros H. case_match; [by apply updateMonitorStatus_shown_ne|done]. Qed.

(** X13. When the landmark pass finds no face while monitoring, each of the
    orientation, talking and focus monitors that is on shows NO FACE / bad
    (the focus monitor also when OpenCV is not ready), and neither the
    landmark history nor the stored talking state is touched. *)
Theorem no_face_shows_no_face (env : Env) (w : Widget) (key : string) :
  _isMonitoring w = true →
  key ∈ ["orientation"; "talking"; "focus"] →
  monitor_ready key w →
  shown key (processFrameResults env [] w) = Some ("NO FACE", "bad")
  ∧ analysis_of (processFrameResults env [] w) = analysis_of w.
Proof.
  intros Hm Hkey Hready. unfold processFrameResults. rewrite Hm. cbn [negb].
  split.
  - set (w1 := if monitor_enabled "orientation" w then _ else w).
    set (w2 := if monitor_enabled "talking" w1 then _ else w1).
    assert (R1 : monitor_ready key w1) by by apply guarded_update_ready.
    assert (R2 : monitor_ready key w2) by by apply guarded_update_ready.
    apply elem_of_cons in Hkey as [->|Hkey];
      [|apply elem_of_cons in Hkey as [->|Hkey];
        [|apply list_elem_of_singleton in Hkey as ->]].
    + rewrite guarded_update_shown_ne by done. unfold w2.
      rewrite guarded_update_shown_ne by done.
      by apply guarded_update_shown.
    + rewrite guarded_update_shown_ne by done.
      by apply guarded_update_shown.
    + by apply guarded_update_shown.
  - repeat case_match; by rewrite ?updateMonitorStatus_analysis.
Qed.

Lemma no_face_shows_no_face_witness :
  shown "focus"
    (processFrameResults (webcam_env 1700000000900) []
       (startMonitoring (webcam_env 1700000000000) rendered_without_opencv))
  = Some ("NO FACE", "bad").
Proof.
  apply (no_face_shows_no_face (webcam_env 1700000000900)
           (startMonitoring (webcam_env 1700000000000)
              rendered_without_opencv) "focus").
  - vm_compute. reflexivity.
  - repeat constructor.
  - eexists _, _. split; [vm_compute; reflexivity|]. split; reflexivity.
Defined.

(** X14. Presence and composition come from one detection response: with
    both monitors on, an empty response shows ABSENT / bad and NO FACE / bad,
    a response with a box shows PRESENT / good, and a failed call shows
    ERROR / warning on both. *)
Theorem detection_result_shown (objects : list Box) (w : Widget) :
  monitor_ready "presence" w → monitor_ready "composition" w →
  shown "presence" (detect_then objects w)
  = Some (if decide (objects = []) then ("ABSENT", "bad")
          else ("PRESENT", "good"))
  ∧ (objects = [] →
     shown "composition" (detect_then objects w) = Some ("NO FACE", "bad"))
  ∧ shown "presence" (detect_catch w) = Some ("ERROR", "warning")
  ∧ shown "composition" (detect_catch w) = Some ("ERROR", "warning").
Proof.
  intros Rp Rc.
  assert (Hp : ∀ s c s' c',
    shown "presence"
      (if monitor_enabled "composition"
            (if monitor_enabled "presence" w
             then updateMonitorStatus "presence" s c w else w)
       then updateMonitorStatus "composition" s' c'
              (if monitor_enabled "presence" w
               then updateMonitorStatus "presence" s c w else w)
       else if monitor_enabled "presence" w
            then updateMonitorStatus "presence" s c w else w)
    = Some (s, c)).
  { intros. rewrite guarded_update_shown_ne by done.
    by apply guarded_update_shown. }
  assert (Hc : ∀ s c s' c',
    shown "composition"
      (if monitor_enabled "composition"
            (if monitor_enabled "presence" w
             then updateMonitorStatus "presence" s c w else w)
       then updateMonitorStatus "composition" s' c'
              (if monitor_enabled "presence" w
               then updateMonitorStatus "presence" s c w else w)
       else if monitor_enabled "presence" w
            then updateMonitorStatus "presence" s c w else w)
    = Some (s', c')).
  { intros. apply guarded_update_shown. by apply guarded_update_ready. }
  split; [|split; [|split]].
  - unfold detect_then. destruct objects as [|face rest].
    + apply (Hp "ABSENT" "bad" "NO FACE" "bad").
    + rewrite decide_False by done. cbn [length Nat.ltb Nat.leb].
      destruct (length (composition_issues face) =? 0)%nat.
      * apply (Hp "PRESENT" "good" "GOOD" "good").
      * apply (Hp "PRESENT" "good" _ "bad").
  - intros ->. apply (Hc "ABSENT" "bad" "NO FACE" "bad").
  - apply (Hp "ERROR" "warning" "ERROR" "warning").
  - apply (Hc "ERROR" "warning" "ERROR" "warning").
Qed.

Lemma detection_result_shown_witness :
  shown "presence" (detect_then [] monitoring_widget) = Some ("ABSENT", "bad").
Proof.
  assert (R : ∀ key, key ∈ ["presence"; "composition"] →
                     monitor_ready key monitoring_widget).
  { intros key Hk. exists
      {| enabled := true; status := "Analyzing..."; class := "warning";
         element := Some {| valueText := "Analyzing...";
                            classList := ["moon-status-card";
                                          "moon-status-warning"] |} |}.
    eexists. repeat split.
    apply elem_of_cons in Hk as [->|Hk];
      [|apply list_elem_of_singleton in Hk as ->]; vm_compute; reflexivity. }
  apply (detection_result_shown [] monitoring_widget);
    apply R; repeat constructor.
Defined.

(** X15. What a cycle of a monitoring widget sends to the remote service once
    the window has elapsed: one detection call when a frame is there and
    presence or composition is on (one call for both), then one caption call
    when a frame is there and scene context is on, and nothing else; the
    time of the last call is [now] even when nothing is sent. *)
Theorem remote_calls_of_cycle (env : Env) (w : Widget) :
  _isMonitoring w = true →
  (now env - _lastMoonDreamCall w > 2000)%Z →
  remote_calls (runMonitoringCycle env w)
  = remote_calls w
    ++ (if bool_decide (is_Some (getCurrentFrame env))
           && (monitor_enabled "presence" w || monitor_enabled "composition" w)
        then [ReqDetect] else [])
    ++ (if bool_decide (is_Some (getCurrentFrame env))
           && monitor_enabled "sceneContext" w
        then [ReqCaption] else [])
  ∧ _lastMoonDreamCall (runMonitoringCycle env w) = now env.
Proof.
  intros Hm Ht%Z.gtb_gt. split; [|by rewrite runMonitoringCycle_last, Hm, Ht].
  rewrite runMonitoringCycle_unfold, Hm, Ht. cbn [negb].
  destruct (before_throttle_frame env w) as (_ & _ & Hr).
  assert (He : ∀ k, monitor_enabled k (before_throttle env w)
                    = monitor_enabled k w).
  { intros k. unfold before_throttle.
    set (w0 := if _faceMesh w && (media env && video env) && stream env
               then _ else w).
    assert (E : monitor_enabled k w0 = monitor_enabled k w)
      by (unfold w0; by case_match).
    case_match; [|done]. by rewrite analyzeLighting_enabled. }
  set (w1 := set_lastMoonDreamCall (now env) (before_throttle env w)).
  assert (Hr1 : remote_calls w1 = remote_calls w) by (by rewrite <- Hr).
  assert (He1 : ∀ k, monitor_enabled k w1 = monitor_enabled k w)
    by (intros k; by rewrite <- He).
  clearbody w1. unfold runMoonDreamAnalysis.
  destruct (getCurrentFrame env) as [frame|].
  - rewrite bool_decide_eq_true_2 by eauto. cbn [andb].
    rewrite !He1.
    assert (Hd : ∀ w2 k, monitor_enabled k (dispatch ReqDetect w2)
                         = monitor_enabled k w2) by done.
    destruct (monitor_enabled "presence" w || monitor_enabled "composition" w);
      rewrite ?Hd, He1;
      destruct (monitor_enabled "sceneContext" w);
      unfold remote_calls in *; cbn [dispatch inflight];
      rewrite ?filter_app, Hr1; cbn; by rewrite ?app_nil_r, <- ?app_assoc.
  - rewrite bool_decide_eq_false_2 by (by intros [? ?]). cbn [andb].
    by rewrite Hr1, !app_nil_r.
Qed.

Lemma remote_calls_of_cycle_witness :
  remote_calls
    (runMonitoringCycle (webcam_env 1700000003000)
       (toggleMonitor "sceneContext" monitoring_widget))
  = [ReqDetect; ReqCaption; ReqDetect].
Proof.
  pose proof (remote_calls_of_cycle (webcam_env 1700000003000)
                (toggleMonitor "sceneContext" monitoring_widget)
                ltac:(vm_compute; reflexivity) ltac:(vm_compute; reflexivity))
    as [H _].
  rewrite H. vm_compute. reflexivity.
Defined.

(** ** The debounce of the talking flag *)

Lemma updateMonitorStatus_talkingState (key s c : string) (w : Widget) :
  _talkingState (updateMonitorStatus key s c w) = _talkingState w.
Proof. by rewrite updateMonitorStatus_frame. Qed.

(** The stored talking state after the analyzer: as it was, or flipped at
    [t], more than 150 ms after the stored change. *)
Lemma analyzeTalking_state (landmarks : LandmarkFrame) (t : Z) (w : Widget) :
  _talkingState (analyzeTalking landmarks t w) = _talkingState w
  ∨ (_talkingState (analyzeTalking landmarks t w)
     = {| isTalking := negb (isTalking (_talkingState w)); lastChange := t |}
     ∧ (t - lastChange (_talkingState w) > 150)%Z).
Proof.
  unfold analyzeTalking.
  destruct (landmark_at landmarks LANDMARKS.UPPER_LIP) as [upperLip|];
    [|left; apply updateMonitorStatus_talkingState].
  destruct (landmark_at landmarks LANDMARKS.LOWER_LIP) as [lowerLip|];
    [|left; apply updateMonitorStatus_talkingState].
  set (raw := PrimFloat.ltb _ _). clearbody raw.
  destruct (negb (eqb raw (isTalking (_talkingState w)))) eqn:Hflip.
  - destruct (t - lastChange (_talkingState w) >? 150)%Z eqn:Ht.
    + right. apply Z.gtb_gt in Ht. split; [|done].
      apply negb_true_iff, eqb_false_iff in Hflip.
      assert (raw = negb (isTalking (_talkingState w))) as ->
        by (destruct raw, (isTalking (_talkingState w)) eqn:Es;
            try done; by destruct Hflip).
      destruct (negb (isTalking (_talkingState w)));
        by rewrite updateMonitorStatus_talkingState.
    + left. destruct raw; apply updateMonitorStatus_talkingState.
  - left. destruct raw; apply updateMonitorStatus_talkingState.
Qed.

Lemma processFrameResults_talkingState (env : Env)
    (faces : list LandmarkFrame) (w : Widget) :
  _talkingState (processFrameResults env faces w) = _talkingState w
  ∨ (_talkingState (processFrameResults env faces w)
     = {| isTalking := negb (isTalking (_talkingState w));
          lastChange := now env |}
     ∧ (now env - lastChange (_talkingState w) > 150)%Z).
Proof.
  unfold processFrameResults.
  destruct (negb (_isMonitoring w)); [by left|].
  destruct faces as [|face0 faces].
  - left. repeat case_match; by rewrite ?updateMonitorStatus_talkingState.
  - unfold smoothLandmarks.
    set (landmarks := smoothed_point _ _ <$> _).
    set (w0 := set_landmarkHistory _ w).
    change (_talkingState w) with (_talkingState w0).
    clearbody w0 landmarks.
    assert (Ho : ∀ w1, _talkingState (analyzeOrientation landmarks w1)
                       = _talkingState w1).
    { intros w1. unfold analyzeOrientation.
      repeat case_match; by rewrite updateMonitorStatus_talkingState. }
    assert (Hf : ∀ w1, _talkingState (analyzeFocus env landmarks w1)
                       = _talkingState w1).
    { intros w1. unfold analyzeFocus.
      repeat case_match; by rewrite updateMonitorStatus_talkingState. }
    set (w1 := if monitor_enabled "orientation" w0 then _ else w0).
    assert (E1 : _talkingState w1 = _talkingState w0)
      by (unfold w1; case_match; [apply Ho|done]).
    rewrite <- E1. clearbody w1.
    set (w2 := if monitor_enabled "talking" w1 then _ else w1).
    assert (E2 : _talkingState w2 = _talkingState w1
                 ∨ (_talkingState w2
                    = {| isTalking := negb (isTalking (_talkingState w1));
                         lastChange := now env |}
                    ∧ (now env - lastChange (_talkingState w1) > 150)%Z)).
    { unfold w2. case_match; [apply analyzeTalking_state|by left]. }
    clearbody w2.
    assert (E3 : ∀ w3, _talkingState
                         (if monitor_enabled "focus" w3 && _cvReady w3
                          then analyzeFocus env landmarks w3 else w3)
                       = _talkingState w3)
      by (intros w3; case_match; [apply Hf|done]).
    by rewrite E3.
Qed.

Lemma step_talkingState (env : Env) (e : Event) (w w' : Widget) :
  step env e w = Some w' →
  _talkingState w' = _talkingState w
  ∨ lastChange (_talkingState w') = now env.
Proof.
  intros Hstep. destruct e as [key| | |r]; cbn [step] in Hstep.
  - injection Hstep as <-. left. by rewrite toggleMonitor_frame.
  - injection Hstep as <-. left. unfold toggleMonitoring.
    destruct (_isMonitoring w).
    + unfold stopMonitoring. by case_match.
    + unfold startMonitoring. case_match; [done|].
      cbn [set_monitorInterval _talkingState].
      destruct (runMonitoringCycle_frame env
        (foldl (fun w0 key =>
                  if monitor_enabled key w0
                  then updateMonitorStatus key "Analyzing..." "warning" w0
                  else w0) (set_isMonitoring true w) monitor_keys))
        as [_ E].
      destruct (foldl_guarded_update_frame monitor_keys "Analyzing..."
                  "warning" (set_isMonitoring true w)) as [_ E'].
      set (w0 := foldl _ _ _) in *. clearbody w0.
      etrans; [exact (f_equal snd E)|exact (f_equal snd E')].
  - destruct (_monitorInterval w); [|done]. injection Hstep as <-. left.
    destruct (runMonitoringCycle_frame env w) as [_ E].
    exact (f_equal snd E).
  - case_decide; [|done]. injection Hstep as <-.
    destruct r; cbn [callback request_of].
    + destruct (processFrameResults_talkingState env multiFaceLandmarks
                  (complete ReqFaceMesh w)) as [E|[E _]].
      * left. exact E.
      * right. by rewrite E.
    + by left.
    + left. unfold detect_then.
      repeat case_match; by rewrite ?updateMonitorStatus_talkingState.
    + left. unfold detect_catch.
      repeat case_match; by rewrite ?updateMonitorStatus_talkingState.
    + left. unfold caption_then. cbn [set_sceneText _talkingState].
      apply (updateMonitorStatus_talkingState _ _ _ (complete ReqCaption w)).
    + left.
      apply (updateMonitorStatus_talkingState _ _ _ (complete ReqCaption w)).
Qed.

Lemma run_lastChange_from (t : Z) (events : list (Env * Event))
    (w w' : Widget) :
  clock_from t events → (t ≤ lastChange (_talkingState w))%Z →
  run events w = Some w' → (t ≤ lastChange (_talkingState w'))%Z.
Proof.
  revert w. induction events as [|[env e] events IH]; intros w Hc Hl Hrun.
  - by injection Hrun as <-.
  - cbn [run] in Hrun. destruct (step env e w) as [w1|] eqn:Hstep; [|done].
    inversion Hc as [|? ? Hnow Hc']; subst. cbn [fst] in Hnow.
    apply (IH w1 Hc'); [|done].
    destruct (step_talkingState env e w w1 Hstep) as [->| ->]; done.
Qed.

(** X16. The debounce: with a clock that does not run backwards, two landmark
    results that flip the stored talking flag are more than 150 ms apart,
    whatever events happen between them. *)
Theorem talking_flips_spaced (env1 env2 : Env)
    (faces1 faces2 : list LandmarkFrame) (events : list (Env * Event))
    (w w1 : Widget) :
  flips_talking env1 faces1 w →
  clock_from (now env1) events →
  run events (processFrameResults env1 faces1 w) = Some w1 →
  flips_talking env2 faces2 w1 →
  (now env2 - now env1 > 150)%Z.
Proof.
  unfold flips_talking. intros H1 Hc Hrun H2.
  destruct (processFrameResults_talkingState env1 faces1 w) as [E|[E _]];
    [by rewrite E in H1|].
  assert (Hl : (now env1
                ≤ lastChange (_talkingState (processFrameResults env1 faces1 w)))%Z)
    by (rewrite E; simpl; lia).
  pose proof (run_lastChange_from (now env1) events _ w1 Hc Hl Hrun).
  destruct (processFrameResults_talkingState env2 faces2 w1) as [E2|[_ E2]];
    [by rewrite E2 in H2|].
  lia.
Qed.

Lemma talking_flips_spaced_witness :
  (now (webcam_env 1700000002400) - now (webcam_env 1700000000900) > 150)%Z.
Proof.
  apply (talking_flips_spaced (webcam_env 1700000000900)
           (webcam_env 1700000002400) [open_mouth] [face_landmarks]
           [(webcam_env 1700000001000, ClickCard "lighting")]
           monitoring_widget
           (toggleMonitor "lighting"
              (processFrameResults (webcam_env 1700000000900) [open_mouth]
                 monitoring_widget))).
  - unfold flips_talking. vm_compute. discriminate.
  - repeat constructor; simpl; lia.
  - vm_compute. reflexivity.
  - unfold flips_talking. vm_compute. discriminate.
Defined.

(** ** Orientation and focus *)

(** A finite number minus itself is 0. *)
Lemma float_sub_diag (d : float) :
  PrimFloat.is_finite d = true → (d - d)%float = 0%float.
Proof.
  unfold PrimFloat.is_finite, PrimFloat.is_nan, PrimFloat.is_infinity.
  rewrite negb_true_iff, orb_false_iff, negb_false_iff.
  rewrite !FloatAxioms.eqb_spec, abs_spec. intros [Hnan Hinf].
  apply Prim2SF_inj. rewrite sub_spec. unfold SF64sub.
  destruct (Prim2SF d) as [s|s| |s m e].
  - by destruct s.
  - by destruct s.
  - done.
  - unfold SFsub. rewrite Z.sub_diag. reflexivity.
Qed.

(** X17. A face whose nose tip is at the same (finite) distance from both
    face edges shows STRAIGHT / good. *)
Theorem orientation_symmetric_is_straight (landmarks : LandmarkFrame)
    (w : Widget) (nose left_ right_ : Point) :
  landmark_at landmarks LANDMARKS.NOSE_TIP = Some nose →
  landmark_at landmarks LANDMARKS.LEFT_FACE = Some left_ →
  landmark_at landmarks LANDMARKS.RIGHT_FACE = Some right_ →
  monitor_ready "orientation" w →
  Math_abs (lm_x nose - lm_x left_) = Math_abs (lm_x nose - lm_x right_) →
  PrimFloat.is_finite (Math_abs (lm_x nose - lm_x left_)) = true →
  shown "orientation" (analyzeOrientation landmarks w)
  = Some ("STRAIGHT", "good").
Proof.
  intros Hn Hl Hr Hready Hsym Hfin. unfold analyzeOrientation.
  rewrite Hn, Hl, Hr. cbn zeta. rewrite <- Hsym, (float_sub_diag _ Hfin).
  change (Math_abs 0 <=? 0.15)%float with true. cbn iota.
  by apply updateMonitorStatus_ready_shown.
Qed.

Lemma orientation_symmetric_is_straight_witness :
  shown "orientation" (analyzeOrientation facing_camera rendered_widget)
  = Some ("STRAIGHT", "good").
Proof.
  apply (orientation_symmetric_is_straight facing_camera rendered_widget
           centered_point
           {| lm_x := 0.25; lm_y := 0.5; lm_z := Some (-0.02)%float |}
           {| lm_x := 0.75; lm_y := 0.5; lm_z := Some (-0.02)%float |});
    try (vm_compute; reflexivity).
  exists rendered_monitor, fresh_card.
    split; [vm_compute; reflexivity|split; reflexivity].
Defined.

(** X18. The focus monitor shows a verdict of class good or bad only after a
    measurement: OpenCV is ready, the two eyes and the nose tip are there,
    the source is at least 40 x 40 and the pipeline returned a number; in
    every other case the class is warning. *)
Theorem focus_verdict_needs_measurement (env : Env)
    (landmarks : LandmarkFrame) (w : Widget) (s c : string) :
  monitor_ready "focus" w →
  shown "focus" (analyzeFocus env landmarks w) = Some (s, c) →
  c ≠ "warning" →
  _cvReady w = true
  ∧ is_Some (landmark_at landmarks LANDMARKS.LEFT_EYE)
  ∧ is_Some (landmark_at landmarks LANDMARKS.RIGHT_EYE)
  ∧ is_Some (landmark_at landmarks LANDMARKS.NOSE_TIP)
  ∧ ∃ (fw fh : Z) (v : float),
      focus env = FocusFrame fw fh (Some v)
      ∧ (40 ≤ fw)%Z ∧ (40 ≤ fh)%Z ∧ (s, c) = focusStatus v.
Proof.
  intros Hready Hshown Hc. unfold analyzeFocus in Hshown.
  assert (Hw : ∀ s', shown "focus" (updateMonitorStatus "focus" s' "warning" w)
                     = Some (s, c) → False).
  { intros s' H. rewrite updateMonitorStatus_ready_shown in H by done.
    congruence. }
  destruct (_cvReady w); cbn [negb] in Hshown; [|by destruct (Hw _ Hshown)].
  destruct (landmark_at landmarks LANDMARKS.LEFT_EYE) as [leftEye|];
    [|by destruct (Hw _ Hshown)].
  destruct (landmark_at landmarks LANDMARKS.RIGHT_EYE) as [rightEye|];
    [|by destruct (Hw _ Hshown)].
  destruct (landmark_at landmarks LANDMARKS.NOSE_TIP) as [nose|];
    [|by destruct (Hw _ Hshown)].
  destruct (focus env) as [| |fw fh measured];
    [by destruct (Hw _ Hshown)|by destruct (Hw _ Hshown)|].
  destruct ((fw =? 0)%Z || (fh =? 0)%Z || (fw <? 40)%Z || (fh <? 40)%Z)
    eqn:Hdim; [by destruct (Hw _ Hshown)|].
  destruct measured as [v|]; [|by destruct (Hw _ Hshown)].
  rewrite updateMonitorStatus_ready_shown in Hshown by done.
  repeat (split; [by eauto|]).
  exists fw, fh, v. rewrite !orb_false_iff in Hdim.
  destruct Hdim as [[[_ _] H1%Z.ltb_ge] H2%Z.ltb_ge].
  repeat split; try done.
  injection Hshown as <- <-. by destruct (focusStatus v).
Qed.

Lemma focus_verdict_needs_measurement_witness :
  ∃ (fw fh : Z) (v : float),
    focus (focus_env 3) = FocusFrame fw fh (Some v)
    ∧ (40 ≤ fw)%Z ∧ (40 ≤ fh)%Z ∧ ("BLURRY", "bad") = focusStatus v.
Proof.
  apply (focus_verdict_needs_measurement (focus_env 3) face_landmarks
           rendered_widget "BLURRY" "bad").
  - exists rendered_monitor, fresh_card.
    split; [vm_compute; reflexivity|split; reflexivity].
  - vm_compute. reflexivity.
  - discriminate.
Defined.

(** ** Entering the monitoring state *)

Lemma runMonitoringCycle_lookup_ne (env : Env) (w : Widget) (k : string) :
  k ≠ "lighting" →
  _monitors (runMonitoringCycle env w) !! k = _monitors w !! k.
Proof.
  intros Hk. rewrite runMonitoringCycle_unfold.
  assert (Hb : _monitors (before_throttle env w) !! k = _monitors w !! k).
  { unfold before_throttle.
    set (w0 := if _faceMesh w && (media env && video env) && stream env
               then _ else w).
    assert (E : _monitors w0 = _monitors w) by (unfold w0; by case_match).
    rewrite <- E. clearbody w0.
    case_match; [by apply analyzeLighting_lookup_ne|done]. }
  destruct (negb (_isMonitoring w)); [done|].
  case_match; [|done].
  by destruct (runMoonDreamAnalysis_frame env
    (set_lastMoonDreamCall (now env) (before_throttle env w))) as (-> & _).
Qed.

Lemma foldl_guarded_update_shown (keys : list string) (key s c : string)
    (w : Widget) :
  monitor_ready key w →
  key ∈ keys ∨ shown key w = Some (s, c) →
  shown key
    (foldl (fun w0 k =>
              if monitor_enabled k w0
              then updateMonitorStatus k s c w0 else w0) w keys)
  = Some (s, c).
Proof.
  revert w. induction keys as [|k keys IH]; intros w Hready Hor.
  - destruct Hor as [Hin|?]; [|done]. by apply elem_of_nil in Hin.
  - cbn [foldl]. apply IH; [by apply guarded_update_ready|].
    destruct (decide (key = k)) as [->|Hne].
    + right. by apply guarded_update_shown.
    + destruct Hor as [Hin|Hs].
      * left. by apply elem_of_cons in Hin as [?|?].
      * right. by rewrite guarded_update_shown_ne.
Qed.

(** X19. Starting with a source (a webcam stream or an image): the widget is
    monitoring, the timer is armed, every monitor that is on, lighting
    apart, shows Analyzing... / warning when the call returns, and every
    monitor that is off is left as it was. *)
Theorem start_marks_enabled_monitors (env : Env) (w : Widget) :
  stream env = true ∨ is_Some (currentImage env) →
  _isMonitoring (startMonitoring env w) = true
  ∧ _monitorInterval (startMonitoring env w) = true
  ∧ (∀ key, key ∈ monitor_keys → key ≠ "lighting" → monitor_ready key w →
       shown key (startMonitoring env w) = Some ("Analyzing...", "warning"))
  ∧ (∀ key, monitor_enabled key w = false →
       _monitors (startMonitoring env w) !! key = _monitors w !! key).
Proof.
  intros Hsrc.
  assert (Hguard : negb (stream env)
                   && negb (bool_decide (is_Some (currentImage env))) = false).
  { destruct Hsrc as [->|Himg]; [done|].
    rewrite (bool_decide_eq_true_2 _ Himg). apply andb_false_r. }
  split; [|split; [|split]].
  - unfold startMonitoring. rewrite Hguard.
    cbn [set_monitorInterval _isMonitoring].
    rewrite runMonitoringCycle_isMonitoring.
    destruct (foldl_guarded_update_frame monitor_keys "Analyzing..." "warning"
                (set_isMonitoring true w)) as [E _].
    set (w0 := foldl _ _ _) in *. clearbody w0.
    unfold schedule_of in E. by injection E as _ _ -> _ _ _.
  - unfold startMonitoring. by rewrite Hguard.
  - intros key Hin Hne Hready. unfold startMonitoring. rewrite Hguard.
    unfold shown. cbn [set_monitorInterval _monitors].
    rewrite runMonitoringCycle_lookup_ne by done.
    apply (foldl_guarded_update_shown monitor_keys key "Analyzing..."
             "warning" (set_isMonitoring true w)); [exact Hready|by left].
  - intros key Hoff.
    destruct (startMonitoring_writes env w key)
      as [E|(m & s & c & card' & Hm & [Hon|[]] & _ & _)]; [done|].
    unfold monitor_enabled in Hoff. rewrite Hm in Hoff. congruence.
Qed.

Lemma start_marks_enabled_monitors_witness :
  shown "sceneContext" (startMonitoring (webcam_env 1700000000000)
                          rendered_widget)
  = Some ("Analyzing...", "warning").
Proof.
  pose proof (start_marks_enabled_monitors (webcam_env 1700000000000)
                rendered_widget (or_introl eq_refl)) as (_ & _ & H & _).
  apply H.
  - repeat constructor.
  - discriminate.
  - exists rendered_monitor, fresh_card.
    split; [vm_compute; reflexivity|split; reflexivity].
Defined.

(** ** Zone Monitor *)

Lemma zone_step_three_points (e : ZoneEvent) (w w' : ZoneWidget) :
  zone_step e w = Some w' →
  Forall (fun z => 3 ≤ length (points z)) (_zones w) →
  Forall (fun z => 3 ≤ length (points z)) (_zones w').
Proof.
  intros Hstep Hw. destruct e; cbn [zone_step] in Hstep.
  - by simplify_eq.
  - destruct (finishBtn_disabled w); [done|]. simplify_eq.
    unfold finishZone. destruct (Nat.ltb_spec (length (_currentZone w)) 3).
    + exact Hw.
    + cbn [_zones]. apply Forall_app. split; [exact Hw|].
      constructor; [cbn [points]; lia|constructor].
  - simplify_eq. constructor.
  - case_decide; [|done]. simplify_eq. cbn [deleteZone _zones].
    by apply Forall_delete.
  - simplify_eq. by destruct (_isDrawing w).
  - simplify_eq. by destruct (_isDrawing w).
  - simplify_eq. by destruct (_isDrawing w).
  - by simplify_eq.
Qed.

(** X20: every stored zone is a polygon. If every zone of the widget has at
    least three points (the constructed widget has no zone), then so has
    every zone after any sequence of draw, finish, clear and delete clicks,
    canvas clicks and moves, and detection results. *)
Theorem zones_have_three_points (events : list ZoneEvent) (w w' : ZoneWidget) :
  zone_run events w = Some w' →
  Forall (fun z => 3 ≤ length (points z)) (_zones w) →
  Forall (fun z => 3 ≤ length (points z)) (_zones w').
Proof.
  revert w. induction events as [|e events IH]; intros w Hrun Hw.
  - cbn [zone_run] in Hrun. by simplify_eq.
  - cbn [zone_run] in Hrun. destruct (zone_step e w) as [w1|] eqn:E; [|done].
    eapply IH; [exact Hrun|]. by eapply zone_step_three_points.
Qed.

Lemma zones_have_three_points_witness :
  ∃ w', zone_run (draw_triangle ++ [ClickDraw; click_at 10 10; ClickFinish])
                 ZoneMonitorWidget = Some w' ∧
        length (_zones w') = 1 ∧
        Forall (fun z => 3 ≤ length (points z)) (_zones w').
Proof.
  eexists. split; [vm_compute; reflexivity|]. split; [reflexivity|].
  eapply (zones_have_three_points
            (draw_triangle ++ [ClickDraw; click_at 10 10; ClickFinish])
            ZoneMonitorWidget).
  - vm_compute. reflexivity.
  - constructor.
Defined.

Lemma numbered_nil : numbered [].
Proof. intros i z Hi. by rewrite lookup_nil in Hi. Qed.

Lemma numbered_snoc (zones : list Zone) (pts : list Vertex) :
  numbered zones →
  numbered (zones ++ [{| points := pts; color := getColor (length zones);
                         name := "Zone " +:+ pretty (length zones + 1) |}]).
Proof.
  intros Hn i z Hi. apply lookup_app_Some in Hi as [Hi|[Hlen Hi]].
  - by apply Hn.
  - apply list_lookup_singleton_Some in Hi as [Hi <-].
    assert (i = length zones) as -> by lia. done.
Qed.

Lemma zone_step_numbered (e : ZoneEvent) (w w' : ZoneWidget) :
  zone_step e w = Some w' → (∀ index, e ≠ ClickDelete index) →
  numbered (_zones w) → numbered (_zones w').
Proof.
  intros Hstep Hnd Hw. destruct e; cbn [zone_step] in Hstep.
  - by simplify_eq.
  - destruct (finishBtn_disabled w); [done|]. simplify_eq.
    unfold finishZone. destruct (Nat.ltb_spec (length (_currentZone w)) 3).
    + exact Hw.
    + cbn [_zones]. by apply numbered_snoc.
  - simplify_eq. apply numbered_nil.
  - by destruct (Hnd index).
  - simplify_eq. by destruct (_isDrawing w).
  - simplify_eq. by destruct (_isDrawing w).
  - simplify_eq. by destruct (_isDrawing w).
  - by simplify_eq.
Qed.

Lemma zone_run_numbered (events : list ZoneEvent) (w w' : ZoneWidget) :
  zone_run events w = Some w' → no_delete events →
  numbered (_zones w) → numbered (_zones w').
Proof.
  revert w. induction events as [|e events IH]; intros w Hrun Hnd Hw.
  - cbn [zone_run] in Hrun. by simplify_eq.
  - cbn [zone_run] in Hrun. destruct (zone_step e w) as [w1|] eqn:E; [|done].
    apply Forall_cons in Hnd as [He Hnd].
    eapply IH; [exact Hrun|exact Hnd|]. by eapply zone_step_numbered.
Qed.

(** X21: as long as no zone is deleted, the zones are numbered as drawn:
    after any sequence of other events, the zone at index i is named
    'Zone i+1' and has the palette color of i (so names are distinct and
    colors repeat every eight zones). *)
Theorem zones_numbered_as_drawn (events : list ZoneEvent) (w w' : ZoneWidget) :
  zone_run events w = Some w' → no_delete events →
  numbered (_zones w) → numbered (_zones w').
Proof. apply zone_run_numbered. Qed.

Lemma zones_numbered_as_drawn_witness :
  ∃ w', zone_run (draw_triangle ++ draw_triangle) ZoneMonitorWidget = Some w' ∧
        name <$> _zones w' = ["Zone 1"; "Zone 2"] ∧
        numbered (_zones w').
Proof.
  eexists. split; [vm_compute; reflexivity|]. split; [reflexivity|].
  apply (zones_numbered_as_drawn (draw_triangle ++ draw_triangle)
           ZoneMonitorWidget).
  - vm_compute. reflexivity.
  - unfold no_delete. repeat constructor; intros index; discriminate.
  - apply numbered_nil.
Defined.

(** X22: zone names are numbered by the current count, not by a running
    counter. With zones numbered as drawn, deleting a zone that is not the
    last one and then finishing a new zone of at least three points gives
    two zones with the same name: the former last zone and the new one are
    both 'Zone n', n the number of zones. *)
Theorem zone_name_reused_after_delete (index : nat) (w : ZoneWidget) :
  numbered (_zones w) →
  index + 1 < length (_zones w) →
  3 ≤ length (_currentZone w) →
  let n := length (_zones w) in
  let w' := finishZone (deleteZone index w) in
  length (_zones w') = n ∧
  name <$> _zones w' !! (n - 2) = Some ("Zone " +:+ pretty n) ∧
  name <$> _zones w' !! (n - 1) = Some ("Zone " +:+ pretty n).
Proof.
  intros Hn Hi Hc n w'.
  assert (length (delete index (_zones w)) = n - 1) as Hlen.
  { pose proof (length_delete (_zones w) index) as Hd.
    destruct (lookup_lt_is_Some_2 (_zones w) index) as [z Hz]; [lia|].
    specialize (Hd (ltac:(by eexists))). unfold n. lia. }
  assert (_zones w' =
          delete index (_zones w) ++
          [{| points := _currentZone w; color := getColor (n - 1);
              name := "Zone " +:+ pretty (n - 1 + 1) |}]) as ->.
  { unfold w', finishZone. cbn [deleteZone _currentZone _zones].
    destruct (Nat.ltb_spec (length (_currentZone w)) 3); [lia|].
    cbn [_zones]. by rewrite Hlen. }
  replace (n - 1 + 1) with n by lia.
  split; [rewrite length_app, Hlen; cbn [length]; lia|]. split.
  - rewrite lookup_app_l by lia.
    rewrite list_lookup_delete_ge by lia.
    destruct (lookup_lt_is_Some_2 (_zones w) (S (n - 2))) as [z Hz];
      [unfold n; lia|].
    rewrite Hz. cbn [fmap option_fmap option_map]. f_equal.
    destruct (Hn _ _ Hz) as [-> _]. do 2 f_equal. lia.
  - rewrite lookup_app_r by lia. rewrite Hlen, Nat.sub_diag. reflexivity.
Qed.

Lemma zone_name_reused_after_delete_witness :
  ∃ w, zone_run (draw_triangle ++ draw_triangle ++
                 [ClickDraw; click_at 1 1; click_at 9 1; click_at 5 9])
                ZoneMonitorWidget = Some w ∧
       name <$> _zones (finishZone (deleteZone 0 w)) = ["Zone 2"; "Zone 2"] ∧
       (let n := length (_zones w) in
        let w' := finishZone (deleteZone 0 w) in
        length (_zones w') = n ∧
        name <$> _zones w' !! (n - 2) = Some ("Zone " +:+ pretty n) ∧
        name <$> _zones w' !! (n - 1) = Some ("Zone " +:+ pretty n)).
Proof.
  eexists. split; [vm_compute; reflexivity|]. split; [vm_compute; reflexivity|].
  apply (zone_name_reused_after_delete 0).
  - apply (zone_run_numbered
             (draw_triangle ++ draw_triangle ++
              [ClickDraw; click_at 1 1; click_at 9 1; click_at 5 9])
             ZoneMonitorWidget).
    + vm_compute. reflexivity.
    + unfold no_delete. repeat constructor; intros index; discriminate.
    + apply numbered_nil.
  - vm_compute. lia.
  - vm_compute. lia.
Defined.

Lemma pointInPolygon_loop_level (x y : float) (b : bool) (rest : list Vertex)
    (vj : Vertex) (inside : bool) :
  PrimFloat.ltb y (pt_y vj) = b →
  Forall (fun v => PrimFloat.ltb y (pt_y v) = b) rest →
  pointInPolygon_loop x y vj rest inside = inside.
Proof.
  revert vj inside. induction rest as [|vi rest IH]; intros vj inside Hj Hrest.
  - reflexivity.
  - apply Forall_cons in Hrest as [Hi Hrest].
    cbn [pointInPolygon_loop]. unfold crosses. rewrite Hi, Hj.
    rewrite xorb_nilpotent. cbn [andb]. by apply IH.
Qed.

(** X23: ray casting only counts edges that straddle the horizontal line
    through the point. If the test [vertex.y > point.y] has the same outcome
    for every vertex (the point is above all of them, or not above any, or
    its y is NaN; also when the polygon has no vertex), pointInPolygon
    answers false. *)
Theorem point_outside_vertical_extent (point : Vertex) (polygon : list Vertex)
    (b : bool) :
  (∀ v, v ∈ polygon → PrimFloat.ltb (pt_y point) (pt_y v) = b) →
  pointInPolygon point polygon = false.
Proof.
  intros Hall. unfold pointInPolygon.
  destruct (last polygon) as [vj|] eqn:El; [|reflexivity].
  apply (pointInPolygon_loop_level _ _ b).
  - apply Hall. apply last_Some in El as [l' ->].
    apply elem_of_app. right. constructor.
  - by apply Forall_forall.
Qed.

Lemma point_outside_vertical_extent_witness :
  pointInPolygon {| pt_x := 0.5%float; pt_y := 0.9%float |} triangle = false ∧
  pointInPolygon {| pt_x := 0.5%float; pt_y := 0.5%float |} triangle = true.
Proof.
  split; [|vm_compute; reflexivity].
  apply (point_outside_vertical_extent _ triangle false).
  intros v Hv. unfold triangle in Hv.
  repeat (apply elem_of_cons in Hv as [->|Hv]; [vm_compute; reflexivity|]).
  by apply elem_of_nil in Hv.
Defined.

Lemma zone_of_last (zones : list Zone) (obj : Box) :
  zone_of zones obj =
  match last (zones_around zones obj) with
  | Some z => (true, name z)
  | None => (false, EmptyString)
  end.
Proof.
  unfold zone_of, zones_around.
  induction zones as [|z zones IH] using rev_ind; [reflexivity|].
  rewrite foldl_app, filter_app. cbn [foldl].
  destruct (pointInPolygon (objCenterNorm obj) (points z)) eqn:E.
  - rewrite filter_cons_True by exact E. rewrite filter_nil.
    by rewrite last_snoc.
  - rewrite filter_cons_False by (by rewrite E). rewrite filter_nil.
    by rewrite app_nil_r.
Qed.

Lemma zone_alerts_last (zones : list Zone) (objects : list Box)
    (objectName : string) :
  zone_alerts zones objects objectName =
  omap (fun obj =>
          (fun z => objectName +:+ " detected in " +:+ name z) <$>
          last (zones_around zones obj)) objects.
Proof.
  unfold zone_alerts.
  induction objects as [|obj objects IH] using rev_ind; [reflexivity|].
  rewrite foldl_app, omap_app, IH. cbn [foldl omap list_omap].
  rewrite zone_of_last.
  destruct (last (zones_around zones obj)) as [z|];
    cbn [fmap option_fmap option_map].
  - reflexivity.
  - symmetry. apply app_nil_r.
Qed.

Lemma omap_length_le {A B : Type} (f : A → option B) (l : list A) :
  length (omap f l) ≤ length l.
Proof.
  induction l as [|a l IH]; [reflexivity|].
  cbn [omap list_omap length]. destruct (f a); cbn [length]; lia.
Qed.

(** X24: analyzeZoneIntrusions raises one alert per detected object whose
    center lies in at least one zone, in the order of the objects; the
    alert names the last such zone of the zone list (an object inside two
    overlapping zones is reported once). With no alert the panel says how
    many objects were found outside the zones, or that none was found. *)
Theorem alerts_name_last_zone (objects : list Box) (objectName : string)
    (w : ZoneWidget) :
  let alerts :=
    omap (fun obj =>
            (fun z => objectName +:+ " detected in " +:+ name z) <$>
            last (zones_around (_zones w) obj)) objects in
  _alertsEl (analyzeZoneIntrusions objects objectName w) =
    match alerts, objects with
    | _ :: _, _ => AlertDanger <$> alerts
    | [], _ :: _ => [AlertSafe (length objects) objectName]
    | [], [] => [AlertNone objectName]
    end ∧
  length alerts ≤ length objects ∧
  _zones (analyzeZoneIntrusions objects objectName w) = _zones w.
Proof.
  intros alerts. split; [|split].
  - unfold analyzeZoneIntrusions. cbn [_alertsEl].
    rewrite zone_alerts_last. fold alerts.
    destruct alerts as [|a alerts']; [|reflexivity].
    by destruct objects.
  - apply omap_length_le.
  - reflexivity.
Qed.

(** ** PTZ Auto-Tracker *)

Lemma sendPTZCommand_frame (command : string) (w : Tracker) :
  _isTracking (sendPTZCommand command w) = _isTracking w ∧
  _trackingInterval (sendPTZCommand command w) = _trackingInterval w ∧
  _ptzSettings (sendPTZCommand command w) = _ptzSettings w ∧
  simCheckbox_checked (sendPTZCommand command w) = simCheckbox_checked w ∧
  _currentDetection (sendPTZCommand command w) = _currentDetection w ∧
  _detectionCount (sendPTZCommand command w) = _detectionCount w.
Proof.
  unfold sendPTZCommand. case_decide; [done|].
  by destruct (ptz_endpoint command (panSpeed (_ptzSettings w))).
Qed.

Lemma trackingLoop_frame (env : Env) (w : Tracker) :
  _isTracking (trackingLoop env w) = _isTracking w ∧
  _trackingInterval (trackingLoop env w) = _trackingInterval w ∧
  _ptzSettings (trackingLoop env w) = _ptzSettings w ∧
  simCheckbox_checked (trackingLoop env w) = simCheckbox_checked w ∧
  fetched (trackingLoop env w) = fetched w.
Proof.
  unfold trackingLoop. destruct (negb (_isTracking w)); [done|].
  by destruct (getCurrentFrame env).
Qed.

Lemma tracking_then_frame (objects : list Box) (w : Tracker) :
  _isTracking (tracking_then objects w) = _isTracking w ∧
  _trackingInterval (tracking_then objects w) = _trackingInterval w ∧
  _ptzSettings (tracking_then objects w) = _ptzSettings w ∧
  simCheckbox_checked (tracking_then objects w) = simCheckbox_checked w.
Proof.
  unfold tracking_then. destruct (negb (_isTracking w)); [done|].
  cbv zeta. set (w1 := ptz_set_currentDetection _ _).
  set (cmd := calculatePTZCommand _ _). clearbody cmd.
  destruct (sendPTZCommand_frame cmd w1) as (H1 & H2 & H3 & H4 & _).
  destruct (camera_live w1); cbn; rewrite ?H1, ?H2, ?H3, ?H4; done.
Qed.

Lemma tracking_then_simulation (objects : list Box) (w : Tracker) :
  simCheckbox_checked w = true →
  fetched (tracking_then objects w) = fetched w.
Proof.
  intros Hsim. unfold tracking_then. destruct (_isTracking w); [|done].
  cbn [negb]. unfold camera_live. cbn. by rewrite Hsim.
Qed.

Lemma stopTracking_simulation (w : Tracker) :
  simCheckbox_checked w = true →
  fetched (stopTracking w) = fetched w ∧
  simCheckbox_checked (stopTracking w) = true.
Proof.
  intros Hsim. unfold stopTracking, camera_live. cbn. by rewrite Hsim.
Qed.

Lemma startTracking_fetched (trim : string → string) (env : Env)
    (w : Tracker) :
  fetched (startTracking trim env w) = fetched w ∧
  simCheckbox_checked (startTracking trim env w) = simCheckbox_checked w.
Proof.
  unfold startTracking. destruct (stream env); [|done]. cbn [negb].
  case_decide; [done|]. case_match; [done|].
  set (w1 := ptz_hideError _).
  destruct (trackingLoop_frame env w1) as (_ & _ & _ & H4 & H5).
  unfold restartTrackingInterval.
  cbn [fetched simCheckbox_checked ptz_set_trackingInterval].
  by rewrite H4, H5.
Qed.

Lemma selectPreset_frame (value : string) (w : Tracker) :
  fetched (selectPreset value w) = fetched w ∧
  simCheckbox_checked (selectPreset value w) = simCheckbox_checked w ∧
  _isTracking (selectPreset value w) = _isTracking w ∧
  _trackingInterval (selectPreset value w) = _trackingInterval w.
Proof. unfold selectPreset. by destruct (_presets !! value). Qed.

Lemma slideRate_frame (rate : float) (w : Tracker) :
  fetched (slideRate rate w) = fetched w ∧
  simCheckbox_checked (slideRate rate w) = simCheckbox_checked w ∧
  _isTracking (slideRate rate w) = _isTracking w.
Proof.
  unfold slideRate. cbn.
  destruct (_isTracking w) eqn:E; cbn; by rewrite ?E.
Qed.

Lemma ptz_step_simulation (trim : string → string) (env : Env)
    (e : TrackerEvent) (w w' : Tracker) :
  ptz_step trim env e w = Some w' → e ≠ PtzToggleSim →
  simCheckbox_checked w = true →
  simCheckbox_checked w' = true ∧ fetched w' = fetched w.
Proof.
  intros Hstep Hne Hsim.
  destruct e as [| |v|v|t| |v|r| |i objects|i]; cbn [ptz_step] in Hstep.
  - destruct (startBtn_disabled w); [done|]. simplify_eq.
    destruct (startTracking_fetched trim env w) as [-> ->]. done.
  - destruct (stopBtn_disabled w); [done|]. simplify_eq.
    destruct (stopTracking_simulation w Hsim) as [-> ->]. done.
  - destruct (ipInput_disabled w); [done|]. by simplify_eq.
  - destruct (targetInput_disabled w); [done|]. by simplify_eq.
  - case_decide; [|done]. by simplify_eq.
  - done.
  - simplify_eq. destruct (selectPreset_frame v w) as (-> & -> & _). done.
  - simplify_eq. destruct (slideRate_frame r w) as (-> & -> & _). done.
  - destruct (_trackingInterval w); [|done]. simplify_eq.
    destruct (trackingLoop_frame env w) as (_ & _ & _ & -> & ->). done.
  - case_decide; [|done]. simplify_eq.
    destruct (tracking_then_frame objects
                (ptz_set_detecting (delete i (detecting w)) w))
      as (_ & _ & _ & ->).
    by rewrite tracking_then_simulation.
  - case_decide; [|done]. by simplify_eq.
Qed.

(** X25: simulation mode never contacts the camera. If the simulation box
    is checked and is not clicked, then after any sequence of start and stop
    clicks, typing, preset and rate changes, timer ticks and detection
    results, no request has been added to those sent to the camera. *)
Theorem simulation_never_contacts_camera (trim : string → string)
    (events : list (Env * TrackerEvent)) (w w' : Tracker) :
  ptz_run trim events w = Some w' →
  no_sim_toggle events →
  simCheckbox_checked w = true →
  fetched w' = fetched w.
Proof.
  revert w. induction events as [|[env e] events IH]; intros w Hrun Hns Hsim.
  - cbn [ptz_run] in Hrun. by simplify_eq.
  - cbn [ptz_run] in Hrun.
    destruct (ptz_step trim env e w) as [w1|] eqn:E; [|done].
    apply Forall_cons in Hns as [He Hns].
    destruct (ptz_step_simulation trim env e w w1 E He Hsim) as [Hsim1 <-].
    by apply IH.
Qed.

Lemma simulation_never_contacts_camera_witness :
  ∃ w', ptz_run trim_spaces tracking_session simulated_tracker = Some w' ∧
        fetched w' = [] ∧
        fetched <$> ptz_run trim_spaces tracking_session live_tracker =
          Some ["http://192.168.1.100/cgi-bin/ptzctrl.cgi?ptzcmd&right&5&5";
                "http://192.168.1.100/cgi-bin/ptzctrl.cgi?ptzcmd&ptzstop"].
Proof.
  eexists. split; [vm_compute; reflexivity|]. split; [|vm_compute; reflexivity].
  apply (simulation_never_contacts_camera trim_spaces tracking_session
           simulated_tracker).
  - vm_compute. reflexivity.
  - unfold no_sim_toggle, tracking_session. repeat constructor; discriminate.
  - reflexivity.
Defined.

Lemma ptz_set_detecting_eta (w : Tracker) (l : list (string * string)) :
  ptz_set_detecting (detecting w) (ptz_set_detecting l w) = w.
Proof. by destruct w. Qed.

Lemma ptz_step_stopped (trim : string → string) (env : Env)
    (e : TrackerEvent) (w w' : Tracker) :
  ptz_step trim env e w = Some w' → is_completion e = true →
  _isTracking w = false →
  ∃ l, w' = ptz_set_detecting l w.
Proof.
  intros Hstep Hc Ht.
  destruct e as [| |v|v|t| |v|r| |i objects|i]; try discriminate Hc;
    cbn [ptz_step] in Hstep.
  - case_decide; [|done]. simplify_eq. eexists.
    unfold tracking_then. cbn [_isTracking ptz_set_detecting].
    rewrite Ht. reflexivity.
  - case_decide; [|done]. simplify_eq. by eexists.
Qed.

(** X26: a stopped tracker drops the responses that are still to come.
    While tracking is off, the completions of detect calls, in any number
    and order, change nothing but the list of calls in flight: no command
    goes to the camera, and the status, the detection and the count stay
    as they were. *)
Theorem stopped_tracker_ignores_responses (trim : string → string)
    (events : list (Env * TrackerEvent)) (w w' : Tracker) :
  ptz_run trim events w = Some w' →
  Forall (fun ee => is_completion ee.2 = true) events →
  _isTracking w = false →
  ptz_set_detecting (detecting w) w' = w.
Proof.
  intros Hrun Hc Ht.
  assert (∃ l, w' = ptz_set_detecting l w) as [l ->];
    [|apply ptz_set_detecting_eta].
  revert w Hrun Ht. induction events as [|[env e] events IH]; intros w Hrun Ht.
  - cbn [ptz_run] in Hrun. injection Hrun as <-.
    exists (detecting w). by destruct w.
  - cbn [ptz_run] in Hrun.
    destruct (ptz_step trim env e w) as [w1|] eqn:E; [|done].
    apply Forall_cons in Hc as [He Hc].
    destruct (ptz_step_stopped trim env e w w1 E He Ht) as [l1 ->].
    destruct (IH Hc _ Hrun) as [l2 ->]; [exact Ht|].
    exists l2. reflexivity.
Qed.

Lemma stopped_tracker_ignores_responses_witness :
  ∃ w w', ptz_run trim_spaces interrupted_session live_tracker = Some w ∧
          length (detecting w) = 2 ∧
          ptz_run trim_spaces late_responses w = Some w' ∧
          ptz_set_detecting (detecting w) w' = w.
Proof.
  do 2 eexists. split; [vm_compute; reflexivity|].
  split; [reflexivity|]. split; [vm_compute; reflexivity|].
  eapply (stopped_tracker_ignores_responses trim_spaces late_responses).
  - vm_compute. reflexivity.
  - unfold late_responses. repeat constructor.
  - reflexivity.
Defined.

Lemma calculatePTZCommand_cases (detection : option Box) (w : Tracker) :
  calculatePTZCommand detection w ∈
    ["stop"; "right"; "left"; "down"; "up"; "centered"].
Proof.
  unfold calculatePTZCommand. destruct detection as [d|]; [|set_solver].
  repeat case_match; set_solver.
Qed.

Lemma ptz_endpoint_known (command : string) (speed : Z) :
  command ∈ ["stop"; "right"; "left"; "down"; "up"; "centered"] →
  ∃ endpoint, ptz_endpoint command speed = Some endpoint ∧
              endpoint ∈ ptz_endpoints speed ∧
              toUpperCase command ∈
                ["STOP"; "RIGHT"; "LEFT"; "DOWN"; "UP"; "CENTERED"].
Proof.
  intros Hc. unfold ptz_endpoints.
  repeat (apply elem_of_cons in Hc as [->|Hc]);
    [..|by apply elem_of_nil in Hc];
    eexists; (split; [reflexivity|]); split;
    cbn [toUpperCase]; set_solver.
Qed.

(** X27: every command computed from a detection is one the camera
    protocol knows. While tracking with simulation off and a camera IP set,
    each detection result sends exactly one request, to
    http://IP/cgi-bin/ptzctrl.cgi, for a move at the pan speed or for a
    stop; the command shown is one of STOP, RIGHT, LEFT, DOWN, UP and
    CENTERED, and the detection count grows by one. With no object the
    request is the stop and the status reads SEARCHING, --, STOP. *)
Theorem live_response_sends_one_command (objects : list Box) (w : Tracker) :
  _isTracking w = true →
  simCheckbox_checked w = false →
  cameraIP (_ptzSettings w) ≠ EmptyString →
  let w' := tracking_then objects w in
  ∃ endpoint,
    endpoint ∈ ptz_endpoints (panSpeed (_ptzSettings w)) ∧
    fetched w' =
      fetched w ++ ["http://" +:+ cameraIP (_ptzSettings w) +:+
                    "/cgi-bin/ptzctrl.cgi?" +:+ endpoint] ∧
    (_statusSection w').2 ∈
      ["STOP"; "RIGHT"; "LEFT"; "DOWN"; "UP"; "CENTERED"] ∧
    _detectionCount w' = Some (default 0 (_detectionCount w) + 1) ∧
    fps_status w' = default 0 (_detectionCount w) + 1 ∧
    (objects = [] →
     endpoint = "ptzcmd&ptzstop" ∧
     _statusSection w' = ("SEARCHING", "--", "STOP")).
Proof.
  intros Ht Hsim Hip w'.
  set (w1 := ptz_set_currentDetection (head objects)
               (ptz_set_detectionCount
                  (Some (default 0 (_detectionCount w) + 1)) w)).
  set (cmd := calculatePTZCommand (_currentDetection w1) w1).
  destruct (ptz_endpoint_known cmd (panSpeed (_ptzSettings w)))
    as (endpoint & He & Hin & Hup); [apply calculatePTZCommand_cases|].
  assert (w' = updateFPSDisplay
                 (updateTrackingStatus
                    (match head objects with
                     | Some _ => "DETECTED" | None => "SEARCHING" end)
                    (match head objects with
                     | Some d => getPositionDescription d | None => "--" end)
                    (toUpperCase cmd)
                    (ptz_set_fetched
                       (fetched w ++ ["http://" +:+ cameraIP (_ptzSettings w) +:+
                                      "/cgi-bin/ptzctrl.cgi?" +:+ endpoint])
                       w1))) as ->.
  { unfold w', tracking_then. rewrite Ht. cbn [negb]. cbv zeta.
    fold w1. fold cmd.
    assert (camera_live w1 = true) as ->.
    { unfold camera_live. cbn. rewrite Hsim. cbn.
      by rewrite bool_decide_eq_false_2. }
    assert (sendPTZCommand cmd w1 =
            ptz_set_fetched
              (fetched w ++ ["http://" +:+ cameraIP (_ptzSettings w) +:+
                             "/cgi-bin/ptzctrl.cgi?" +:+ endpoint]) w1) as ->.
    { unfold sendPTZCommand.
      change (_ptzSettings w1) with (_ptzSettings w).
      rewrite decide_False by exact Hip. by rewrite He. }
    reflexivity. }
  exists endpoint. split; [exact Hin|]. split; [reflexivity|].
  split; [exact Hup|]. split; [reflexivity|]. split; [reflexivity|].
  intros ->. assert (cmd = "stop") as Hcmd by reflexivity.
  rewrite Hcmd in He |- *. clear Hup Hin. vm_compute in He.
  injection He as <-. split; reflexivity.
Qed.

Lemma live_response_sends_one_command_witness :
  ∃ w, ptz_run trim_spaces [(webcam_env 0, PtzClickStart)] live_tracker
         = Some w ∧
       fetched (tracking_then [to_the_right] w) =
         ["http://192.168.1.100/cgi-bin/ptzctrl.cgi?ptzcmd&right&5&5"] ∧
       _statusSection (tracking_then [to_the_right] w) =
         ("DETECTED", "Right / Middle", "RIGHT") ∧
       ∃ endpoint,
         endpoint ∈ ptz_endpoints (panSpeed (_ptzSettings w)) ∧
         fetched (tracking_then [] w) =
           fetched w ++ ["http://" +:+ cameraIP (_ptzSettings w) +:+
                         "/cgi-bin/ptzctrl.cgi?" +:+ endpoint] ∧
         (_statusSection (tracking_then [] w)).2 ∈
           ["STOP"; "RIGHT"; "LEFT"; "DOWN"; "UP"; "CENTERED"] ∧
         _detectionCount (tracking_then [] w) =
           Some (default 0 (_detectionCount w) + 1) ∧
         fps_status (tracking_then [] w) = default 0 (_detectionCount w) + 1 ∧
         (@nil Box = [] →
          endpoint = "ptzcmd&ptzstop" ∧
          _statusSection (tracking_then [] w) = ("SEARCHING", "--", "STOP")).
Proof.
  eexists. split; [vm_compute; reflexivity|].
  split; [vm_compute; reflexivity|]. split; [vm_compute; reflexivity|].
  apply (live_response_sends_one_command []).
  - reflexivity.
  - reflexivity.
  - vm_compute. discriminate.
Defined.

Lemma timer_at_rate_frame (w w' : Tracker) :
  _isTracking w' = _isTracking w →
  _trackingInterval w' = _trackingInterval w →
  _ptzSettings w' = _ptzSettings w →
  timer_at_rate w → timer_at_rate w'.
Proof. unfold timer_at_rate. by intros -> -> ->. Qed.

Lemma startTracking_timer (trim : string → string) (env : Env) (w : Tracker) :
  timer_at_rate w → timer_at_rate (startTracking trim env w).
Proof.
  intros Hw. unfold startTracking. destruct (stream env); [|exact Hw].
  cbn [negb]. case_decide; [exact Hw|]. case_match; [exact Hw|].
  set (w1 := ptz_hideError _).
  destruct (trackingLoop_frame env w1) as (H1 & _ & H3 & _).
  unfold timer_at_rate, restartTrackingInterval.
  cbn [_isTracking _trackingInterval _ptzSettings ptz_set_trackingInterval].
  rewrite H1. reflexivity.
Qed.

Lemma stopTracking_timer (w : Tracker) : timer_at_rate (stopTracking w).
Proof.
  unfold stopTracking. cbv zeta.
  set (w1 := ptz_set_trackingInterval None (ptz_set_isTracking false w)).
  destruct (sendPTZCommand_frame "stop" w1) as (H1 & H2 & _).
  unfold timer_at_rate. destruct (camera_live w1); cbn; by rewrite ?H1, ?H2.
Qed.

Lemma slideRate_timer (rate0 : float) (w : Tracker) :
  timer_at_rate w → timer_at_rate (slideRate rate0 w).
Proof.
  unfold timer_at_rate, slideRate. cbn.
  destruct (_isTracking w) eqn:E; cbn; rewrite E; [reflexivity|done].
Qed.

Lemma ptz_step_timer (trim : string → string) (env : Env)
    (e : TrackerEvent) (w w' : Tracker) :
  ptz_step trim env e w = Some w' → (∀ value, e ≠ PtzSelectPreset value) →
  timer_at_rate w → timer_at_rate w'.
Proof.
  intros Hstep Hne Hw.
  destruct e as [| |v|v|t| |v|r| |i objects|i]; cbn [ptz_step] in Hstep.
  - destruct (startBtn_disabled w); [done|]. simplify_eq.
    by apply startTracking_timer.
  - destruct (stopBtn_disabled w); [done|]. simplify_eq.
    apply stopTracking_timer.
  - destruct (ipInput_disabled w); [done|]. by simplify_eq.
  - destruct (targetInput_disabled w); [done|]. by simplify_eq.
  - case_decide; [|done]. by simplify_eq.
  - destruct (simCheckbox_disabled w); [done|]. by simplify_eq.
  - by destruct (Hne v).
  - simplify_eq. by apply slideRate_timer.
  - destruct (_trackingInterval w) eqn:Ei; [|done]. simplify_eq.
    destruct (trackingLoop_frame env w) as (H1 & H2 & H3 & _).
    by apply (timer_at_rate_frame w).
  - case_decide; [|done]. simplify_eq.
    destruct (tracking_then_frame objects
                (ptz_set_detecting (delete i (detecting w)) w))
      as (H1 & H2 & H3 & _).
    by apply (timer_at_rate_frame w).
  - case_decide; [|done]. by simplify_eq.
Qed.

Lemma ptz_run_timer (trim : string → string)
    (events : list (Env * TrackerEvent)) (w w' : Tracker) :
  ptz_run trim events w = Some w' → no_preset events →
  timer_at_rate w → timer_at_rate w'.
Proof.
  revert w. induction events as [|[env e] events IH]; intros w Hrun Hnp Hw.
  - cbn [ptz_run] in Hrun. by simplify_eq.
  - cbn [ptz_run] in Hrun.
    destruct (ptz_step trim env e w) as [w1|] eqn:E; [|done].
    apply Forall_cons in Hnp as [He Hnp].
    eapply IH; [exact Hrun|exact Hnp|]. by eapply ptz_step_timer.
Qed.

(** X28: the tracking timer follows the rate slider but not the style
    preset. Over any sequence of events without a preset change, the timer
    is armed exactly while tracking and its period is 1000 / detectionRate;
    a preset chosen while tracking changes detectionRate and leaves the
    running timer at its old period. *)
Theorem timer_period_follows_rate (trim : string → string)
    (events : list (Env * TrackerEvent)) (w w' : Tracker) :
  ptz_run trim events w = Some w' → no_preset events → timer_at_rate w →
  timer_at_rate w' ∧
  ∀ value preset, _presets !! value = Some preset →
    _trackingInterval (selectPreset value w') = _trackingInterval w' ∧
    detectionRate (_ptzSettings (selectPreset value w')) = rate preset.
Proof.
  intros Hrun Hnp Hw. split; [by eapply ptz_run_timer|].
  intros value preset Hp. unfold selectPreset. rewrite Hp. done.
Qed.

Lemma timer_period_follows_rate_witness :
  ∃ w', ptz_run trim_spaces
          [(webcam_env 0, PtzClickStart); (webcam_env 500, PtzSlideRate 2%float)]
          live_tracker = Some w' ∧
        _trackingInterval w' = Some 500%float ∧
        _trackingInterval (selectPreset "smooth" w') = Some 500%float ∧
        detectionRate (_ptzSettings (selectPreset "smooth" w')) = 0.5%float ∧
        timer_at_rate w'.
Proof.
  eexists. split; [vm_compute; reflexivity|].
  split; [vm_compute; reflexivity|]. split; [vm_compute; reflexivity|].
  split; [vm_compute; reflexivity|].
  refine (proj1 (timer_period_follows_rate trim_spaces
           [(webcam_env 0, PtzClickStart); (webcam_env 500, PtzSlideRate 2%float)]
           live_tracker _ _ _ _)).
  - vm_compute. reflexivity.
  - unfold no_preset. repeat constructor; intros value; discriminate.
  - reflexivity.
Defined.

Lemma tracking_then_tracking (objects : list Box) (w : Tracker) :
  _isTracking w = true →
  _isTracking (tracking_then objects w) = true ∧
  _ptzSettings (tracking_then objects w) = _ptzSettings w ∧
  _detectionCount (tracking_then objects w) =
    Some (default 0 (_detectionCount w) + 1) ∧
  fps_status (tracking_then objects w) = default 0 (_detectionCount w) + 1 ∧
  _currentDetection (tracking_then objects w) = head objects ∧
  (_statusSection (tracking_then objects w)).1.1 =
    match objects with [] => "SEARCHING" | _ :: _ => "DETECTED" end.
Proof.
  intros Ht. unfold tracking_then. rewrite Ht. cbn [negb]. cbv zeta.
  set (w1 := ptz_set_currentDetection _ _).
  set (cmd := calculatePTZCommand _ _). clearbody cmd.
  destruct (sendPTZCommand_frame cmd w1) as (H1 & _ & H3 & _ & H5 & H6).
  destruct (camera_live w1); cbn; rewrite ?H1, ?H3, ?H5, ?H6; cbn;
    rewrite ?Ht; by destruct objects.
Qed.

Lemma stopTracking_inputs (w : Tracker) :
  detecting (stopTracking w) = detecting w ∧
  targetInput_value (stopTracking w) = targetInput_value w ∧
  ipInput_value (stopTracking w) = ipInput_value w ∧
  simCheckbox_checked (stopTracking w) = simCheckbox_checked w ∧
  startBtn_disabled (stopTracking w) = false.
Proof.
  unfold stopTracking. cbv zeta.
  set (w0 := ptz_set_trackingInterval None (ptz_set_isTracking false w)).
  assert (detecting (sendPTZCommand "stop" w0) = detecting w0 ∧
          targetInput_value (sendPTZCommand "stop" w0) = targetInput_value w0 ∧
          ipInput_value (sendPTZCommand "stop" w0) = ipInput_value w0 ∧
          simCheckbox_checked (sendPTZCommand "stop" w0) =
            simCheckbox_checked w0) as (H1 & H2 & H3 & H4).
  { unfold sendPTZCommand. case_decide; [done|]. by case_match. }
  destruct (camera_live w0); cbn; by rewrite ?H1, ?H2, ?H3, ?H4.
Qed.

Lemma trackingLoop_calls (env : Env) (w : Tracker) :
  _detectionCount (trackingLoop env w) = _detectionCount w ∧
  ∃ l, detecting (trackingLoop env w) = detecting w ++ l.
Proof.
  unfold trackingLoop. destruct (negb (_isTracking w)).
  - split; [done|]. exists []. by rewrite app_nil_r.
  - destruct (getCurrentFrame env); cbn.
    + split; [done|]. by eexists.
    + split; [done|]. exists []. by rewrite app_nil_r.
Qed.

Lemma startTracking_started (trim : string → string) (env : Env)
    (w : Tracker) :
  stream env = true →
  trim (targetInput_value w) ≠ EmptyString →
  simCheckbox_checked w = true ∨ trim (ipInput_value w) ≠ EmptyString →
  _isTracking (startTracking trim env w) = true ∧
  _detectionCount (startTracking trim env w) = Some 0 ∧
  targetObject (_ptzSettings (startTracking trim env w)) =
    trim (targetInput_value w) ∧
  ∃ l, detecting (startTracking trim env w) = detecting w ++ l.
Proof.
  intros Hstream Htarget Hip. unfold startTracking.
  rewrite Hstream. cbn [negb]. rewrite decide_False by exact Htarget.
  assert (negb (simCheckbox_checked w) &&
          bool_decide (trim (ipInput_value w) = EmptyString) = false) as ->.
  { destruct Hip as [->|Hip]; [reflexivity|].
    rewrite bool_decide_eq_false_2 by exact Hip. apply andb_false_r. }
  cbv zeta. set (w1 := ptz_hideError _).
  destruct (trackingLoop_frame env w1) as (H1 & _ & H3 & _).
  destruct (trackingLoop_calls env w1) as (H5 & l & H6).
  unfold restartTrackingInterval.
  cbn [_isTracking _detectionCount _ptzSettings detecting
       ptz_set_trackingInterval].
  rewrite H1, H3, H5, H6. split; [done|]. split; [done|]. split; [done|].
  by exists l.
Qed.

(** X29: a detect call outlives the session that made it. If tracking is
    stopped while a call is in flight and started again (with a webcam, a
    target, and an IP or simulation mode), the completion of the old call
    is processed by the new session: it is counted as its first detection
    and it sets the current detection and the status, although the call
    was made for the former session and its target. *)
Theorem response_counts_for_next_session (trim : string → string)
    (env : Env) (objects : list Box) (w : Tracker) :
  detecting w ≠ [] →
  stopBtn_disabled w = false →
  stream env = true →
  trim (targetInput_value w) ≠ EmptyString →
  simCheckbox_checked w = true ∨ trim (ipInput_value w) ≠ EmptyString →
  ∃ w', ptz_run trim [(env, PtzClickStop); (env, PtzClickStart);
                      (env, PtzDetected 0 objects)] w = Some w' ∧
        _isTracking w' = true ∧
        targetObject (_ptzSettings w') = trim (targetInput_value w) ∧
        _detectionCount w' = Some 1 ∧
        fps_status w' = 1 ∧
        _currentDetection w' = head objects ∧
        (_statusSection w').1.1 =
          match objects with [] => "SEARCHING" | _ :: _ => "DETECTED" end.
Proof.
  intros Hd Hstop Hstream Htarget Hip.
  destruct (stopTracking_inputs w) as (Hd1 & Ht1 & Hi1 & Hs1 & Hb1).
  cbn [ptz_run ptz_step]. rewrite Hstop, Hb1.
  destruct (startTracking_started trim env (stopTracking w))
    as (Ht2 & Hc2 & Ho2 & l & Hd2);
    [exact Hstream|by rewrite Ht1|by rewrite Hs1, Hi1|].
  rewrite Ht1 in Ho2. rewrite Hd1 in Hd2.
  set (w2 := startTracking trim env (stopTracking w)) in *. clearbody w2.
  rewrite decide_True
    by (rewrite Hd2; destruct (detecting w); [done|cbn [length app]; lia]).
  eexists. split; [reflexivity|].
  set (w3 := ptz_set_detecting (delete 0 (detecting w2)) w2).
  destruct (tracking_then_tracking objects w3) as (H1 & H2 & H3 & H4 & H5 & H6);
    [exact Ht2|].
  rewrite H1, H2, H3, H4, H5, H6.
  change (_ptzSettings w3) with (_ptzSettings w2).
  change (_detectionCount w3) with (_detectionCount w2).
  rewrite Hc2, Ho2. done.
Qed.

Lemma response_counts_for_next_session_witness :
  ∃ w, ptz_run trim_spaces
         [(webcam_env 0, PtzClickStart); (webcam_env 100, PtzQuickTarget "face")]
         live_tracker = Some w ∧
       detecting w = [("data:image/jpeg;base64,", "person")] ∧
       ∃ w', ptz_run trim_spaces
               [(webcam_env 200, PtzClickStop); (webcam_env 200, PtzClickStart);
                (webcam_env 200, PtzDetected 0 [to_the_right])] w = Some w' ∧
             _isTracking w' = true ∧
             targetObject (_ptzSettings w') = trim_spaces (targetInput_value w) ∧
             _detectionCount w' = Some 1 ∧
             fps_status w' = 1 ∧
             _currentDetection w' = head [to_the_right] ∧
             (_statusSection w').1.1 = "DETECTED".
Proof.
  eexists. split; [vm_compute; reflexivity|]. split; [reflexivity|].
  apply (response_counts_for_next_session trim_spaces (webcam_env 200)
           [to_the_right]).
  - discriminate.
  - reflexivity.
  - reflexivity.
  - vm_compute. discriminate.
  - right. vm_compute. discriminate.
Defined.
